(** * x402 GIF generator: the generation endpoint and the client form

    A shallow embedding of the request handlers [POST] of the generation
    endpoint (the single-result handler and the multi-strategy handler) and
    of the form handler [handleSubmit] of the client component.

    The three outside services the handlers talk to (the payment
    facilitator, the language model, the GIF search API) and the process
    environment are gathered in a record [World] of deterministic answers.
    A handler is a computation in a small monad that threads the list of
    outside calls made so far and may throw; [try ... catch] is a match on
    the outcome.  Console output is left out: it never changes a response. *)

From Stdlib Require Import ZArith List String Ascii Bool Lia.
From Stdlib Require Import DecimalString.
Import ListNotations.
Local Open Scope string_scope.
Local Open Scope list_scope.
Local Open Scope Z_scope.

(* ------------------------------------------------------------------ *)
(** ** JavaScript values the handlers inspect *)

(** Errors a handler can see thrown.  Only the fact that something was
    thrown matters to the handlers: the single [catch] ignores the value. *)
Inductive Error : Type :=
| SyntaxError            (* request.json() / response.json() on malformed JSON *)
| TypeError              (* property access on null or undefined *)
| SchemaError            (* generateObject: the model output fails the schema *)
| UpstreamError (msg : string).  (* a rejected promise of an outside call *)

Inductive Result (A : Type) : Type :=
| Ok (a : A)
| Throw (e : Error).
Arguments Ok {A} a.
Arguments Throw {A} e.

(** A parsed JSON document.  Numbers are kept as integers: the handlers
    only ever test the type and the truthiness of a number. *)
#[local] Unset Elimination Schemes.
Inductive JSON : Type :=
| JNull
| JBool (b : bool)
| JNumber (n : Z)
| JString (s : string)
| JArray (items : list JSON)
| JObject (fields : list (string * JSON)).
#[local] Set Elimination Schemes.

(** A JavaScript value read out of a JSON document: [None] is [undefined]. *)
Definition JSValue : Type := option JSON.

(** Property lookup on a parsed object; with a repeated key the last one
    wins, as in JSON.parse. *)
Fixpoint get_field (k : string) (fields : list (string * JSON)) : JSValue :=
  match fields with
  | [] => None
  | (k', v) :: rest =>
      match get_field k rest with
      | Some v' => Some v'
      | None => if String.eqb k k' then Some v else None
      end
  end.

(** [const { text } = v]: throws on [null], reads the property otherwise
    (primitives and arrays have no property [text]). *)
Definition destructure_text (v : JSON) : Result JSValue :=
  match v with
  | JNull => Throw TypeError
  | JObject fields => Ok (get_field "text" fields)
  | _ => Ok None
  end.

(** ToBoolean. *)
Definition truthy (v : JSValue) : bool :=
  match v with
  | None => false
  | Some JNull => false
  | Some (JBool b) => b
  | Some (JNumber n) => negb (n =? 0)
  | Some (JString s) => negb (String.eqb s "")
  | Some (JArray _) => true
  | Some (JObject _) => true
  end.

Definition typeof (v : JSValue) : string :=
  match v with
  | None => "undefined"
  | Some JNull => "object"
  | Some (JBool _) => "boolean"
  | Some (JNumber _) => "number"
  | Some (JString _) => "string"
  | Some (JArray _) => "object"
  | Some (JObject _) => "object"
  end.

(** The string a value holds once [typeof v === "string"] is known. *)
Definition string_of (v : JSValue) : string :=
  match v with
  | Some (JString s) => s
  | _ => ""
  end.

(** Truthiness of a [string | null] or [string | undefined] value. *)
Definition truthy_str (s : option string) : bool :=
  match s with
  | None => false
  | Some s => negb (String.eqb s "")
  end.

(** [s || ""] on such a value. *)
Definition or_empty (s : option string) : string :=
  match s with
  | None => ""
  | Some s => s
  end.

(* ------------------------------------------------------------------ *)
(** ** Strings

    A string is the sequence of its UTF-8 bytes. *)

(** Array.prototype.join on an array of strings. *)
Definition join (sep : string) (l : list string) : string := String.concat sep l.

Definition hex_digit (n : nat) : ascii :=
  match n with
  | 0%nat => "0" | 1%nat => "1" | 2%nat => "2" | 3%nat => "3"
  | 4%nat => "4" | 5%nat => "5" | 6%nat => "6" | 7%nat => "7"
  | 8%nat => "8" | 9%nat => "9" | 10%nat => "A" | 11%nat => "B"
  | 12%nat => "C" | 13%nat => "D" | 14%nat => "E" | _ => "F"
  end%char.

Definition between (lo hi n : nat) : bool := (Nat.leb lo n && Nat.leb n hi)%bool.

(** Characters encodeURIComponent leaves alone: A-Z a-z 0-9 - _ . ! ~ * ' ( ) *)
Definition uri_unreserved (c : ascii) : bool :=
  let n := nat_of_ascii c in
  (between 65 90 n || between 97 122 n || between 48 57 n
   || existsb (Nat.eqb n) [45; 95; 46; 33; 126; 42; 39; 40; 41]%nat)%bool.

(** encodeURIComponent: every other byte becomes %XX. *)
Fixpoint encodeURIComponent (s : string) : string :=
  match s with
  | EmptyString => EmptyString
  | String c rest =>
      if uri_unreserved c then String c (encodeURIComponent rest)
      else
        let n := nat_of_ascii c in
        String "%"%char
          (String (hex_digit (Nat.div n 16))
             (String (hex_digit (Nat.modulo n 16)) (encodeURIComponent rest)))
  end.

(* ------------------------------------------------------------------ *)
(** ** Data of the endpoint *)

Inductive Perspective : Type := emotional | literal | sarcastic.

(** Object of [keywordsSchema] (single-result handler). *)
Record KeywordsObject : Type := {
  ko_keywords : list string;
  ko_topic : option string;
  ko_reasoning : string
}.

(** One element of [strategiesSchema.strategies] (multi-strategy handler). *)
Record Strategy : Type := {
  keywords : list string;
  topic : option string;
  perspective : Perspective;
  reasoning : string
}.

(** Object of [selectionSchema]. *)
Record Selection : Type := {
  selectedIndex : Z;
  sel_reasoning : string
}.

(** interface GiphyGif; [images_original_url] is [images.original.url]. *)
Record GiphyGif : Type := {
  title : string;
  alt_text : option string;
  images_original_url : string
}.

(** Body of a search response: [{ data?: GiphyGif[] }]. *)
Record GiphyData : Type := { data : option (list GiphyGif) }.

(** What the handler reads of a fetch response: [ok] and [json()]. *)
Record FetchResponse : Type := {
  ok : bool;
  json : Result GiphyData
}.

(** The entries handed to the ranking prompt. *)
Record GifOption : Type := {
  index : Z;
  go_title : string;
  altText : string
}.

(** The object the handlers answer with on success; the single-result
    handler sets no perspective. *)
Record GifResult : Type := {
  gr_url : string;
  gr_keywords : list string;
  gr_topic : option string;
  gr_reasoning : string;
  gr_title : string;
  gr_perspective : option Perspective
}.

(** Result of settlePayment. *)
Record PaymentResult : Type := {
  pr_status : Z;
  responseBody : JSON;
  responseHeaders : list (string * string)
}.

Record SettleArgs : Type := {
  resourceUrl : string;
  method : string;
  paymentData : option string;
  network : string;
  price : string
}.

(** Body given to Response.json. *)
Inductive ResponseBody : Type :=
| BodyError (error : string)       (* { error: ... } *)
| BodyPayment (b : JSON)           (* paymentResult.responseBody *)
| BodyGif (g : GifResult)          (* the flat result object *)
| BodyGifs (gifs : list GifResult). (* { gifs: [...] } *)

(** A response is what the handler hands to Response.json: the body, and
    the status and headers of the init object (status 200 and no header
    when there is no init object). *)
Record Response : Type := {
  status : Z;
  headers : list (string * string);
  body : ResponseBody
}.

Definition Response_json (b : ResponseBody) (st : Z) (h : list (string * string)) : Response :=
  {| status := st; headers := h; body := b |}.

(** request.url as a parsed absolute URL. *)
Record URL : Type := {
  origin : string;
  path : string
}.

(** [new URL(p, base)] for an absolute path [p]. *)
Definition new_URL (p : string) (base : URL) : URL :=
  {| origin := origin base; path := p |}.

Definition URL_toString (u : URL) : string := (origin u ++ path u)%string.

Record Request : Type := {
  url : URL;
  x_payment : option string;        (* request.headers.get("x-payment") *)
  request_json : Result JSON        (* request.json() *)
}.

(** The prompt of a generateObject call: its call site and the values
    interpolated into the fixed text. *)
Inductive Prompt : Type :=
| KeywordsPrompt (text : string)
| StrategiesPrompt (text : string)
| SelectPrompt (text : string) (gifOptions : list GifOption)
| PerspectiveSelectPrompt (p : Perspective) (text : string) (gifOptions : list GifOption).

(** What the language model sends back, before schema validation. *)
Inductive ModelOutput : Type :=
| OutKeywords (o : KeywordsObject)
| OutStrategies (l : list Strategy)
| OutSelection (s : Selection).

(** The outside world of one request. *)
Record World : Type := {
  settlePayment : SettleArgs -> Result PaymentResult;
  GIPHY_API_KEY : option string;
  languageModel : string -> Prompt -> Result ModelOutput;
  fetch : string -> Result FetchResponse
}.

(** Outside calls, in the order they are started. *)
Inductive Event : Type :=
| EvSettle (a : SettleArgs)
| EvGenerateObject (model : string) (p : Prompt)
| EvFetch (u : string).

Definition is_model_call (e : Event) : bool :=
  match e with EvGenerateObject _ _ => true | _ => false end.

Definition is_search_call (e : Event) : bool :=
  match e with EvFetch _ => true | _ => false end.

(* ------------------------------------------------------------------ *)
(** ** The handler monad: outside calls so far, and exceptions *)

Definition M (A : Type) : Type := list Event -> Result A * list Event.

Definition ret {A} (a : A) : M A := fun t => (Ok a, t).

Definition bind {A B} (m : M A) (f : A -> M B) : M B :=
  fun t =>
    match m t with
    | (Ok a, t') => f a t'
    | (Throw e, t') => (Throw e, t')
    end.

Definition throw {A} (e : Error) : M A := fun t => (Throw e, t).

Definition emit (e : Event) : M unit := fun t => (Ok tt, t ++ [e]).

Definition lift {A} (r : Result A) : M A := fun t => (r, t).

Declare Scope handler_scope.
Delimit Scope handler_scope with handler.
Notation "x <- c1 ;; c2" := (bind c1 (fun x => c2))
  (at level 61, c1 at next level, right associativity) : handler_scope.
Notation "c1 ;; c2" := (bind c1 (fun _ => c2))
  (at level 61, right associativity) : handler_scope.
Local Open Scope handler_scope.

(** The zod schemas, as validators of the model output. *)
Definition keywordsSchema (o : ModelOutput) : option KeywordsObject :=
  match o with
  | OutKeywords k =>
      let n := Z.of_nat (List.length (ko_keywords k)) in
      if (1 <=? n) && (n <=? 3) then Some k else None
  | _ => None
  end.

Definition strategy_ok (s : Strategy) : bool :=
  let n := Z.of_nat (List.length (keywords s)) in
  (1 <=? n) && (n <=? 3).

Definition strategiesSchema (o : ModelOutput) : option (list Strategy) :=
  match o with
  | OutStrategies l =>
      if forallb strategy_ok l && (Z.of_nat (List.length l) =? 3) then Some l else None
  | _ => None
  end.

(** Number.MAX_SAFE_INTEGER, 2^53 - 1. *)
Definition MAX_SAFE_INTEGER : Z := 9007199254740991.

(** [z.number().int().min(0)]: the validator's integers are the safe
    integers, so an index above 2^53 - 1 fails the schema. *)
Definition selectionSchema (o : ModelOutput) : option Selection :=
  match o with
  | OutSelection s =>
      if (0 <=? selectedIndex s) && (selectedIndex s <=? MAX_SAFE_INTEGER)
      then Some s else None
  | _ => None
  end.

(** [gifs.map((gif, index) => ({ index, title, altText: gif.alt_text || "" }))] *)
Fixpoint gifOptions_from (i : Z) (gifs : list GiphyGif) : list GifOption :=
  match gifs with
  | [] => []
  | g :: rest =>
      {| index := i; go_title := title g; altText := or_empty (alt_text g) |}
        :: gifOptions_from (i + 1) rest
  end.

Definition gifOptions_of (gifs : list GiphyGif) : list GifOption := gifOptions_from 0 gifs.

(** [gifs[i]] for a number [i]: [undefined] outside the array. *)
Definition array_get {A} (l : list A) (i : Z) : option A :=
  if i <? 0 then None else nth_error l (Z.to_nat i).

(** [gifs[selection.selectedIndex] || gifs[0]] *)
Definition selectedGif (gifs : list GiphyGif) (selection : Selection) : option GiphyGif :=
  match array_get gifs (selectedIndex selection) with
  | Some g => Some g
  | None => array_get gifs 0
  end.

(** The search request of both handlers, up to the result cap. *)
Definition giphy_url (giphyApiKey searchQuery limit : string) : string :=
  ("https://api.giphy.com/v1/gifs/search?api_key=" ++ giphyApiKey
     ++ "&q=" ++ encodeURIComponent searchQuery
     ++ "&limit=" ++ limit ++ "&rating=pg-13&lang=en")%string.

Definition generic_failure : Response :=
  Response_json (BodyError "Failed to generate GIF recommendation") 500 [].

(** The argument object of settlePayment (the facilitator is fixed). *)
Definition settle_args (request : Request) : SettleArgs :=
  {| resourceUrl := URL_toString (new_URL "/api/generate" (url request));
     method := "POST";
     paymentData := x_payment request;
     network := "monad";
     price := "$0.01" |}.

Section Handlers.

Variable w : World.

(** [await settlePayment({...})] *)
Definition settle (request : Request) : M PaymentResult :=
  emit (EvSettle (settle_args request)) ;;
  lift (settlePayment w (settle_args request)).

(** [await generateObject({ model, schema, prompt })] *)
Definition generateObject {A} (model : string)
    (schema : ModelOutput -> option A) (prompt : Prompt) : M A :=
  emit (EvGenerateObject model prompt) ;;
  out <- lift (languageModel w model prompt) ;;
  match schema out with
  | Some a => ret a
  | None => throw SchemaError
  end.

(** [await fetch(u)] *)
Definition do_fetch (u : string) : M FetchResponse :=
  emit (EvFetch u) ;;
  lift (fetch w u).

End Handlers.

(* ------------------------------------------------------------------ *)
(** ** The single-result handler *)

Module Single.

Section WithWorld.

Variable w : World.

(** [searchQuery]: the keywords, then the topic when it is truthy. *)
Definition searchQuery (object : KeywordsObject) : string :=
  let reactionKeywords := join " " (ko_keywords object) in
  if truthy_str (ko_topic object)
  then (reactionKeywords ++ " " ++ or_empty (ko_topic object))%string
  else reactionKeywords.

(** The body of the [try] block. *)
Definition POST_try (request : Request) : M Response :=
  paymentResult <- settle w request ;;
  if negb (pr_status paymentResult =? 200) then
    ret (Response_json (BodyPayment (responseBody paymentResult))
           (pr_status paymentResult) (responseHeaders paymentResult))
  else
    parsed <- lift (request_json request) ;;
    text <- lift (destructure_text parsed) ;;
    if negb (truthy text) || negb (String.eqb (typeof text) "string") then
      ret (Response_json (BodyError "Text input is required") 400 [])
    else
      let text := string_of text in
      object <- generateObject w "gpt-5-mini" keywordsSchema (KeywordsPrompt text) ;;
      let searchQuery := searchQuery object in
      let giphyApiKey := GIPHY_API_KEY w in
      if negb (truthy_str giphyApiKey) then
        ret (Response_json (BodyError "Giphy API key not configured") 500 [])
      else
        giphyResponse <- do_fetch w (giphy_url (or_empty giphyApiKey) searchQuery "10") ;;
        if negb (ok giphyResponse) then
          ret (Response_json (BodyError "Failed to fetch from Giphy") 500 [])
        else
          giphyData <- lift (json giphyResponse) ;;
          match data giphyData with
          | None => ret (Response_json (BodyError "No GIF found") 404 [])
          | Some gifs =>
              if Z.of_nat (List.length gifs) =? 0 then
                ret (Response_json (BodyError "No GIF found") 404 [])
              else
                let gifOptions := gifOptions_of gifs in
                selection <- generateObject w "gpt-4o-mini" selectionSchema
                               (SelectPrompt text gifOptions) ;;
                match selectedGif gifs selection with
                | None => throw TypeError
                | Some g =>
                    ret (Response_json
                           (BodyGif {| gr_url := images_original_url g;
                                       gr_keywords := ko_keywords object;
                                       gr_topic := ko_topic object;
                                       gr_reasoning := sel_reasoning selection;
                                       gr_title := title g;
                                       gr_perspective := None |})
                           200 [])
                end
          end.

(** [POST]: the [try] block, and the [catch] that answers 500. *)
Definition POST (request : Request) : Response * list Event :=
  match POST_try request [] with
  | (Ok response, t) => (response, t)
  | (Throw _, t) => (generic_failure, t)
  end.

End WithWorld.

End Single.

(* ------------------------------------------------------------------ *)
(** ** The multi-strategy handler *)

(** [l.map(async (x) => ...)]: every callback is started, in order, and
    runs whatever becomes of its siblings; each leaves its own outcome.
    The outside calls of the callbacks are listed callback by callback
    (at run time they interleave; no response depends on the order). *)
Fixpoint map_async {A B} (f : A -> M B) (l : list A) (t : list Event)
  : list (Result B) * list Event :=
  match l with
  | [] => ([], t)
  | a :: rest =>
      let (r, t1) := f a t in
      let (rs, t2) := map_async f rest t1 in
      (r :: rs, t2)
  end.

(** Promise.all over settled outcomes: all the values, or a rejection. *)
Fixpoint all_fulfilled {B} (rs : list (Result B)) : Result (list B) :=
  match rs with
  | [] => Ok []
  | Throw e :: _ => Throw e
  | Ok b :: rest =>
      match all_fulfilled rest with
      | Ok bs => Ok (b :: bs)
      | Throw e => Throw e
      end
  end.

(** [await Promise.all(l.map(async (x) => ...))] *)
Definition Promise_all_map {A B} (f : A -> M B) (l : list A) : M (list B) :=
  fun t => let (rs, t') := map_async f l t in (all_fulfilled rs, t').

(** [selections.filter((s) => s !== null)] *)
Fixpoint filter_non_null {A} (l : list (option A)) : list A :=
  match l with
  | [] => []
  | Some a :: rest => a :: filter_non_null rest
  | None :: rest => filter_non_null rest
  end.

Module Multi.

(** Element of [searchResults]. *)
Record SearchResult : Type := {
  strategy : Strategy;
  gifs : list GiphyGif
}.

(** [searchQuery]: the keywords, then the topic when it is truthy. *)
Definition searchQuery (strategy : Strategy) : string :=
  if truthy_str (topic strategy)
  then (join " " (keywords strategy) ++ " " ++ or_empty (topic strategy))%string
  else join " " (keywords strategy).

Section WithWorld.

Variable w : World.

(** The callback of [searchPromises]. *)
Definition search (giphyApiKey : string) (strategy : Strategy) : M SearchResult :=
  let searchQuery := searchQuery strategy in
  response <- do_fetch w (giphy_url giphyApiKey searchQuery "5") ;;
  if negb (ok response) then
    ret {| strategy := strategy; gifs := [] |}
  else
    data' <- lift (json response) ;;
    ret {| strategy := strategy;
           gifs := match data data' with Some l => l | None => [] end |}.

(** The callback of [selectionPromises]. *)
Definition select (text : string) (sr : SearchResult) : M (option GifResult) :=
  let strategy := strategy sr in
  let gifs := gifs sr in
  if Z.of_nat (List.length gifs) =? 0 then
    ret None
  else
    let gifOptions := gifOptions_of gifs in
    selection <- generateObject w "gpt-4o-mini" selectionSchema
                   (PerspectiveSelectPrompt (perspective strategy) text gifOptions) ;;
    match selectedGif gifs selection with
    | None => throw TypeError
    | Some g =>
        ret (Some {| gr_url := images_original_url g;
                     gr_keywords := keywords strategy;
                     gr_topic := topic strategy;
                     gr_reasoning := sel_reasoning selection;
                     gr_title := title g;
                     gr_perspective := Some (perspective strategy) |})
    end.

(** The body of the [try] block. *)
Definition POST_try (request : Request) : M Response :=
  paymentResult <- settle w request ;;
  if negb (pr_status paymentResult =? 200) then
    ret (Response_json (BodyPayment (responseBody paymentResult))
           (pr_status paymentResult) (responseHeaders paymentResult))
  else
    parsed <- lift (request_json request) ;;
    text <- lift (destructure_text parsed) ;;
    if negb (truthy text) || negb (String.eqb (typeof text) "string") then
      ret (Response_json (BodyError "Text input is required") 400 [])
    else
      let text := string_of text in
      let giphyApiKey := GIPHY_API_KEY w in
      if negb (truthy_str giphyApiKey) then
        ret (Response_json (BodyError "Giphy API key not configured") 500 [])
      else
        strategies <- generateObject w "gpt-4o-mini" strategiesSchema
                        (StrategiesPrompt text) ;;
        searchResults <- Promise_all_map (search (or_empty giphyApiKey)) strategies ;;
        selections <- Promise_all_map (select text) searchResults ;;
        let validGifs := filter_non_null selections in
        if Z.of_nat (List.length validGifs) =? 0 then
          ret (Response_json (BodyError "No GIFs found") 404 [])
        else
          ret (Response_json (BodyGifs validGifs) 200 []).

(** [POST]: the [try] block, and the [catch] that answers 500. *)
Definition POST (request : Request) : Response * list Event :=
  match POST_try request [] with
  | (Ok response, t) => (response, t)
  | (Throw _, t) => (generic_failure, t)
  end.

End WithWorld.

End Multi.

(* ------------------------------------------------------------------ *)
(** ** The client form (component GifGenerator)

    The two versions of the component differ in what they hold as a
    result ([GifResult | null], cleared to [null]; [GifResult[]], cleared
    to [[]]); [handleSubmit] is otherwise the same.  [R] is the type of
    the held result and [cleared] its cleared value. *)

Module UI.

(** The call [fetchWithPayment(url, { method, headers, body })]; the
    body is the object given to JSON.stringify. *)
Record FetchCall : Type := {
  fc_url : string;
  fc_method : string;
  fc_headers : list (string * string);
  fc_body : JSON
}.

(** How an awaited request ends. *)
Inductive Outcome (R : Type) : Type :=
| Fulfilled (data' : R)
| RejectedError (message : string)   (* err instanceof Error *)
| RejectedOther.
Arguments Fulfilled {R} data'.
Arguments RejectedError {R} message.
Arguments RejectedOther {R}.

Inductive UIEvent (R : Type) : Type :=
| Submit                              (* the form's onSubmit *)
| Change (value : string)             (* the input's onChange *)
| Settle (o : Outcome R).             (* the awaited request settles *)
Arguments Submit {R}.
Arguments Change {R} value.
Arguments Settle {R} o.

Section Component.

Variable R : Type.
Variable cleared : R.
(** String.prototype.trim *)
Variable trim : string -> string.

(** The values of the component: its React state, the flag [isPending]
    of the hook useFetchWithPayment (the hook raises it when
    fetchWithPayment is invoked and lowers it when that request settles)
    and, in [in_flight], the number of requests issued and not yet settled.
    A handler does not read these values as they are when it runs: it reads
    the constants the render that created it captured (see [Page]). *)
Record State : Type := {
  input : string;
  result : R;
  error : option string;
  isPending : bool;
  in_flight : nat
}.

Definition initial : State :=
  {| input := ""; result := cleared; error := None;
     isPending := false; in_flight := 0 |}.

(** [handleSubmit] up to its [await], as created by a render that saw
    [seen] and run when the values are [live]: the guard and the request
    body read [input] and [isPending] of [seen]; [setError(null)] and
    [setResult(null)] (or [setResults([])]) act on [live].  The new values
    and the requests issued ([e.preventDefault()] touches neither). *)
Definition handleSubmit_in (seen live : State) : State * list FetchCall :=
  if negb (truthy_str (Some (trim (input seen)))) || isPending seen then
    (live, [])
  else
    ({| input := input live; result := cleared; error := None;
        isPending := isPending live; in_flight := in_flight live |},
     [ {| fc_url := "/api/generate";
          fc_method := "POST";
          fc_headers := [("Content-Type", "application/json")];
          fc_body := JObject [("text", JString (input seen))] |} ]).

(** [handleSubmit] run on the very values its render saw. *)
Definition handleSubmit (st : State) : State * list FetchCall :=
  handleSubmit_in st st.

(** [handleSubmit] after its [await]. *)
Definition resume (o : Outcome R) (st : State) : State :=
  match o with
  | Fulfilled data' =>
      {| input := input st; result := data'; error := error st;
         isPending := isPending st; in_flight := in_flight st |}
  | RejectedError message =>
      {| input := input st; result := result st; error := Some message;
         isPending := isPending st; in_flight := in_flight st |}
  | RejectedOther =>
      {| input := input st; result := result st;
         error := Some "Something went wrong";
         isPending := isPending st; in_flight := in_flight st |}
  end.

(** The hook's bookkeeping when [calls] are issued. *)
Definition hook_invoked (calls : list FetchCall) (st : State) : State :=
  match calls with
  | [] => st
  | _ :: _ =>
      {| input := input st; result := result st; error := error st;
         isPending := true;
         in_flight := (in_flight st + List.length calls)%nat |}
  end.

(** The hook's bookkeeping when a request settles.  (With several
    requests in flight the hook may keep its flag up until its latest
    request settles; every statement below that runs through a settlement
    is about runs with at most one request in flight.) *)
Definition hook_settled (st : State) : State :=
  {| input := input st; result := result st; error := error st;
     isPending := false;
     in_flight := Nat.pred (in_flight st) |}.

(** The page: the values as they are, and the values the last render saw,
    which are the constants its handlers read. *)
Record Page : Type := {
  live : State;
  seen : State
}.

Definition initial_page : Page := {| live := initial; seen := initial |}.

(** What happens to a page: an event reaches a handler of the last
    render, or the component renders again. *)
Inductive PageEvent : Type :=
| Handle (ev : UIEvent R)
| Render.

(** One step of the page: the page after it and the requests it issued. *)
Definition page_step (pg : Page) (pe : PageEvent) : Page * list FetchCall :=
  match pe with
  | Render => ({| live := live pg; seen := live pg |}, [])
  | Handle Submit =>
      let (st', calls) := handleSubmit_in (seen pg) (live pg) in
      ({| live := hook_invoked calls st'; seen := seen pg |}, calls)
  | Handle (Change value) =>
      ({| live := {| input := value; result := result (live pg);
                     error := error (live pg);
                     isPending := isPending (live pg);
                     in_flight := in_flight (live pg) |};
          seen := seen pg |}, [])
  | Handle (Settle o) =>
      match in_flight (live pg) with
      | O => (pg, [])
      | S _ => ({| live := resume o (hook_settled (live pg)); seen := seen pg |}, [])
      end
  end.

(** One event handled right after a render, by handlers that saw [st]
    itself: the values after it and the requests it issued. *)
Definition step (st : State) (ev : UIEvent R) : State * list FetchCall :=
  let (pg, calls) := page_step {| live := st; seen := st |} (Handle ev) in
  (live pg, calls).

(** A run of the page: the final page and all the requests issued. *)
Fixpoint run (pg : Page) (evs : list PageEvent) : Page * list FetchCall :=
  match evs with
  | [] => (pg, [])
  | pe :: rest =>
      let (pg1, c1) := page_step pg pe in
      let (pg2, c2) := run pg1 rest in
      (pg2, c1 ++ c2)
  end.

End Component.

Arguments input {R} s.
Arguments result {R} s.
Arguments error {R} s.
Arguments isPending {R} s.
Arguments in_flight {R} s.
Arguments live {R} p.
Arguments seen {R} p.
Arguments Handle {R} ev.
Arguments Render {R}.

End UI.

(* ------------------------------------------------------------------ *)
(** ** Vocabulary of the statements *)

(** The field [text] of a request body ([undefined] when the body is not
    an object or has no such field). *)
Definition field_text (body' : JSON) : JSValue :=
  match body' with
  | JObject fields => get_field "text" fields
  | _ => None
  end.

Definition is_string (v : JSValue) : bool :=
  match v with
  | Some (JString _) => true
  | _ => false
  end.

(** What the search of a strategy comes to in [w], outside calls aside. *)
Definition candidates (w : World) (giphyApiKey : string) (s : Strategy)
  : Result Multi.SearchResult :=
  fst (Multi.search w giphyApiKey s []).

(** What the ranking of a search result comes to in [w]. *)
Definition ranked (w : World) (text : string) (sr : Multi.SearchResult)
  : Result (option GifResult) :=
  fst (Multi.select w text sr []).

Definition no_candidates (sr : Multi.SearchResult) : bool :=
  match Multi.gifs sr with
  | [] => true
  | _ :: _ => false
  end.

Definition response_of (r : Response * list Event) : Response := fst r.
Definition calls_of (r : Response * list Event) : list Event := snd r.

(** The result object of the multi-strategy handler for candidate [g]. *)
Definition result_for (s : Strategy) (selection : Selection) (g : GiphyGif) : GifResult :=
  {| gr_url := images_original_url g;
     gr_keywords := keywords s;
     gr_topic := topic s;
     gr_reasoning := sel_reasoning selection;
     gr_title := title g;
     gr_perspective := Some (perspective s) |}.

(** The result object of the single-result handler for candidate [g]. *)
Definition single_result_for (object : KeywordsObject) (selection : Selection)
    (g : GiphyGif) : GifResult :=
  {| gr_url := images_original_url g;
     gr_keywords := ko_keywords object;
     gr_topic := ko_topic object;
     gr_reasoning := sel_reasoning selection;
     gr_title := title g;
     gr_perspective := None |}.

(** A well-formed request with settled payment: settlement returns 200
    and the body is a JSON object whose field [text] is the non-empty
    string [text]. *)
Definition settled_with_text (w : World) (request : Request) (text : string) : Prop :=
  exists pr body',
    settlePayment w (settle_args request) = Ok pr /\
    pr_status pr = 200 /\
    request_json request = Ok body' /\
    field_text body' = Some (JString text) /\
    text <> "".

(** The search key is set (and not the empty string). *)
Definition key_configured (w : World) (key : string) : Prop :=
  GIPHY_API_KEY w = Some key /\ key <> "".

(** The keyword model answers [object], and [object] passes the schema. *)
Definition keywords_derived (w : World) (text : string) (object : KeywordsObject) : Prop :=
  languageModel w "gpt-5-mini" (KeywordsPrompt text) = Ok (OutKeywords object) /\
  keywordsSchema (OutKeywords object) = Some object.

(** The single search for [object] answers 2xx with the candidates [found]
    ([None] when the answer has no [data]). *)
Definition single_search_finds (w : World) (key : string) (object : KeywordsObject)
    (found : option (list GiphyGif)) : Prop :=
  exists resp,
    fetch w (giphy_url key (Single.searchQuery object) "10") = Ok resp /\
    ok resp = true /\
    json resp = Ok {| data := found |}.

(** The strategy model answers [l], and [l] passes the schema. *)
Definition strategies_derived (w : World) (text : string) (l : list Strategy) : Prop :=
  languageModel w "gpt-4o-mini" (StrategiesPrompt text) = Ok (OutStrategies l) /\
  strategiesSchema (OutStrategies l) = Some l.

(** The search of strategy [s] yields the candidates [found]. *)
Definition yields (w : World) (key : string) (s : Strategy) (found : list GiphyGif) : Prop :=
  candidates w key s = Ok {| Multi.strategy := s; Multi.gifs := found |}.

(** The outside calls of one search and of one ranking. *)
Definition search_call (key : string) (s : Strategy) : Event :=
  EvFetch (giphy_url key (Multi.searchQuery s) "5").

Definition select_calls (text : string) (sr : Multi.SearchResult) : list Event :=
  if no_candidates sr then []
  else [EvGenerateObject "gpt-4o-mini"
          (PerspectiveSelectPrompt (perspective (Multi.strategy sr)) text
             (gifOptions_of (Multi.gifs sr)))].

(** [r] is the result of the strategy of [sr]: it carries that strategy's
    perspective, keywords and topic, and shows one of its candidates. *)
Definition produced_by (sr : Multi.SearchResult) (r : GifResult) : Prop :=
  gr_perspective r = Some (perspective (Multi.strategy sr)) /\
  gr_keywords r = keywords (Multi.strategy sr) /\
  gr_topic r = topic (Multi.strategy sr) /\
  exists g, In g (Multi.gifs sr) /\
            gr_url r = images_original_url g /\ gr_title r = title g.

(** The search results that have candidates, in order. *)
Definition with_candidates (srs : list Multi.SearchResult) : list Multi.SearchResult :=
  filter (fun sr => negb (no_candidates sr)) srs.

(** [r] relays the refused settlement [pr] and nothing else happened. *)
Definition relays (pr : PaymentResult) (request : Request) (r : Response * list Event) : Prop :=
  status (response_of r) = pr_status pr /\
  body (response_of r) = BodyPayment (responseBody pr) /\
  headers (response_of r) = responseHeaders pr /\
  calls_of r = [EvSettle (settle_args request)] /\
  existsb is_model_call (calls_of r) = false /\
  existsb is_search_call (calls_of r) = false.

(** The pending flag is up exactly while one request is in flight. *)
Definition single_flight {R : Type} (st : UI.State R) : Prop :=
  (UI.isPending st = true /\ UI.in_flight st = 1%nat) \/
  (UI.isPending st = false /\ UI.in_flight st = 0%nat).

(** Every submit of the run reaches handlers that are up to date: the
    component rendered right before it. *)
Fixpoint submits_rendered {R : Type} (evs : list (UI.PageEvent R)) : bool :=
  match evs with
  | [] => true
  | UI.Handle UI.Submit :: _ => false
  | UI.Render :: UI.Handle UI.Submit :: rest => submits_rendered rest
  | _ :: rest => submits_rendered rest
  end.

(* ------------------------------------------------------------------ *)
(** ** Concrete requests and worlds *)

Module Sample.

Definition request (payment : option string) (body' : Result JSON) : Request :=
  {| url := {| origin := "https://gifs.example"; path := "/api/generate" |};
     x_payment := payment;
     request_json := body' |}.

Definition settled : PaymentResult :=
  {| pr_status := 200; responseBody := JNull; responseHeaders := [] |}.

Definition payment_required : PaymentResult :=
  {| pr_status := 402;
     responseBody := JObject [("x402Version", JNumber 1);
                              ("error", JString "payment required")];
     responseHeaders := [("Content-Type", "application/json")] |}.

(** A facilitator that settles whenever a proof is present. *)
Definition facilitator (a : SettleArgs) : Result PaymentResult :=
  match paymentData a with
  | Some _ => Ok settled
  | None => Ok payment_required
  end.

Definition gif (name : string) : GiphyGif :=
  {| title := name;
     alt_text := None;
     images_original_url := ("https://media.example/" ++ name ++ ".gif")%string |}.

Definition s_emotional : Strategy :=
  {| keywords := ["relief"; "exhausted"]; topic := None;
     perspective := emotional; reasoning := "core feeling" |}.
Definition s_literal : Strategy :=
  {| keywords := ["coding"; "success"]; topic := Some "programmer";
     perspective := literal; reasoning := "what happens" |}.
Definition s_sarcastic : Strategy :=
  {| keywords := ["slow clap"; "finally"]; topic := None;
     perspective := sarcastic; reasoning := "irony" |}.

(** A model that answers every prompt; it ranks with an index that is
    out of range for the short lists below. *)
Definition model (m : string) (p : Prompt) : Result ModelOutput :=
  match p with
  | KeywordsPrompt _ =>
      Ok (OutKeywords {| ko_keywords := ["facepalm"; "cringe"];
                         ko_topic := Some "coding";
                         ko_reasoning := "reaction" |})
  | StrategiesPrompt _ => Ok (OutStrategies [s_emotional; s_literal; s_sarcastic])
  | SelectPrompt _ _ => Ok (OutSelection {| selectedIndex := 7; sel_reasoning := "best" |})
  | PerspectiveSelectPrompt _ _ _ =>
      Ok (OutSelection {| selectedIndex := 1; sel_reasoning := "best" |})
  end.

Definition model_down (m : string) (p : Prompt) : Result ModelOutput :=
  Throw (UpstreamError "model unavailable").

Definition found (l : list GiphyGif) : Result FetchResponse :=
  Ok {| ok := true; json := Ok {| data := Some l |} |}.

(** A search API that finds two GIFs for the emotional strategy, fails
    for the literal one, and finds one GIF for anything else. *)
Definition giphy (u : string) : Result FetchResponse :=
  if String.eqb u (giphy_url "KEY" (Multi.searchQuery s_emotional) "5") then
    found [gif "sigh"; gif "phew"]
  else if String.eqb u (giphy_url "KEY" (Multi.searchQuery s_literal) "5") then
    Ok {| ok := false; json := Throw SyntaxError |}
  else
    found [gif "clap"].

(** A search API that never finds anything. *)
Definition giphy_empty (u : string) : Result FetchResponse := found [].

Definition world : World :=
  {| settlePayment := facilitator; GIPHY_API_KEY := Some "KEY";
     languageModel := model; fetch := giphy |}.

Definition world_empty : World :=
  {| settlePayment := facilitator; GIPHY_API_KEY := Some "KEY";
     languageModel := model; fetch := giphy_empty |}.

Definition world_no_key : World :=
  {| settlePayment := facilitator; GIPHY_API_KEY := None;
     languageModel := model; fetch := giphy |}.

Definition world_no_key_model_down : World :=
  {| settlePayment := facilitator; GIPHY_API_KEY := None;
     languageModel := model_down; fetch := giphy |}.

Definition body_with_text : JSON := JObject [("text", JString "it compiles")].
Definition body_without_text : JSON := JObject [("note", JString "hello")].

Definition paid_request : Request := request (Some "proof") (Ok body_with_text).
Definition unpaid_request_without_text : Request := request None (Ok body_without_text).
Definition paid_request_without_text : Request :=
  request (Some "proof") (Ok body_without_text).
Definition paid_request_bad_json : Request := request (Some "proof") (Throw SyntaxError).

(** String.prototype.trim on ASCII text: white space is tab, line feed,
    vertical tab, form feed, carriage return and space. *)
Definition is_space (c : ascii) : bool :=
  let n := nat_of_ascii c in
  (between 9 13 n || Nat.eqb n 32)%bool.

Fixpoint trim_start (s : string) : string :=
  match s with
  | EmptyString => EmptyString
  | String c rest => if is_space c then trim_start rest else s
  end.

Fixpoint trim_end (s : string) : string :=
  match s with
  | EmptyString => EmptyString
  | String c rest =>
      match trim_end rest with
      | EmptyString => if is_space c then EmptyString else String c EmptyString
      | rest' => String c rest'
      end
  end.

Definition trim (s : string) : string := trim_end (trim_start s).

End Sample.

(* ------------------------------------------------------------------ *)
(** ** Vocabulary of the further properties *)

(** The search of [s] throws: the fetch is rejected, or the body of a 2xx
    answer is not JSON. *)
Definition search_throws (w : World) (key : string) (s : Strategy) : Prop :=
  (exists e, fetch w (giphy_url key (Multi.searchQuery s) "5") = Throw e) \/
  (exists resp e,
     fetch w (giphy_url key (Multi.searchQuery s) "5") = Ok resp /\
     ok resp = true /\ json resp = Throw e).

(** The ranking of [sr] throws: there are candidates, and the model call
    is rejected or its answer fails the selection schema. *)
Definition ranking_throws (w : World) (text : string) (sr : Multi.SearchResult) : Prop :=
  Multi.gifs sr <> [] /\
  ((exists e,
      languageModel w "gpt-4o-mini"
        (PerspectiveSelectPrompt (perspective (Multi.strategy sr)) text
           (gifOptions_of (Multi.gifs sr))) = Throw e) \/
   (exists out,
      languageModel w "gpt-4o-mini"
        (PerspectiveSelectPrompt (perspective (Multi.strategy sr)) text
           (gifOptions_of (Multi.gifs sr))) = Ok out /\
      selectionSchema out = None)).

(** The search API answers the query of [s] with the candidates [found]:
    a 2xx answer whose [data] is [found], or an answer that is not 2xx, or
    2xx without [data], and [found] empty. *)
Definition search_answers (w : World) (key : string) (s : Strategy)
    (found : list GiphyGif) : Prop :=
  exists resp,
    fetch w (giphy_url key (Multi.searchQuery s) "5") = Ok resp /\
    ((ok resp = false /\ found = []) \/
     (ok resp = true /\ json resp = Ok {| data := None |} /\ found = []) \/
     (ok resp = true /\ json resp = Ok {| data := Some found |})).

(** [r] shows a candidate that the search API returned for the query of
    [s], and carries the perspective, keywords and topic of [s]. *)
Definition shows_answer_for (w : World) (key : string) (s : Strategy) (r : GifResult)
  : Prop :=
  gr_perspective r = Some (perspective s) /\
  gr_keywords r = keywords s /\
  gr_topic r = topic s /\
  exists resp found g,
    fetch w (giphy_url key (Multi.searchQuery s) "5") = Ok resp /\
    ok resp = true /\
    json resp = Ok {| data := Some found |} /\
    In g found /\
    gr_url r = images_original_url g /\ gr_title r = title g.

Definition is_settle_call (e : Event) : bool :=
  match e with EvSettle _ => true | _ => false end.

(** A call that costs the service something: a model call or a search. *)
Definition is_paid_work (e : Event) : bool := is_model_call e || is_search_call e.

(** The value of a hexadecimal digit as written by [hex_digit]. *)
Definition hex_value (c : ascii) : nat :=
  let n := nat_of_ascii c in
  if between 48 57 n then (n - 48)%nat else (n - 55)%nat.

(* ------------------------------------------------------------------ *)
(** ** What the form renders *)

Module View.

Section Render.

Variable R : Type.
Variable trim : string -> string.

(** The submit button:
    [disabled={isPending || !input.trim() || isAutoConnecting}] *)
Definition submit_disabled (isAutoConnecting : bool) (st : UI.State R) : bool :=
  UI.isPending st || negb (truthy_str (Some (trim (UI.input st)))) || isAutoConnecting.

(** The text input: [disabled={isPending}] *)
Definition input_disabled (st : UI.State R) : bool := UI.isPending st.

(** [{error && (...)}] *)
Definition shows_error (st : UI.State R) : bool := truthy_str (UI.error st).

(** [{isPending && (...)}] *)
Definition shows_spinner (st : UI.State R) : bool := UI.isPending st.

End Render.

(** [{results.length > 0 && !isPending && (...)}] (the component that
    holds a list of results) *)
Definition shows_results (st : UI.State (list GifResult)) : bool :=
  (0 <? Z.of_nat (List.length (UI.result st))) && negb (UI.isPending st).

(** [{result && !isPending && (...)}] (the component that holds one
    result or [null]) *)
Definition shows_result (st : UI.State (option GifResult)) : bool :=
  match UI.result st with
  | Some _ => negb (UI.isPending st)
  | None => false
  end.

End View.

(* ------------------------------------------------------------------ *)
(** ** Downloading a GIF (handleDownload)

    The browser is a record of what the handler touches: the children of
    [document.body], the object URLs that are alive, the anchors that were
    clicked, the windows that were opened and the URLs that were fetched.
    [fetch] and [response.blob()] may reject; the DOM and crypto calls do
    not throw. *)

Module Download.

Record Anchor : Type := {
  href : string;
  download : string
}.

Record Browser : Type := {
  body_children : list Anchor;
  object_urls : list string;
  clicked : list Anchor;
  opened : list (string * string);
  fetched : list string
}.

(** The platform of one download: [fetch(u)] with, when it is fulfilled,
    the outcome of [response.blob()] (a blob is named by a string);
    [URL.createObjectURL]; [crypto.randomUUID()]; [Date.now()]. *)
Record Platform : Type := {
  fetch_blob : string -> Result (Result string);
  createObjectURL : string -> string;
  randomUUID : string;
  now : N
}.

Definition record_fetch (u : string) (b : Browser) : Browser :=
  {| body_children := body_children b; object_urls := object_urls b;
     clicked := clicked b; opened := opened b; fetched := fetched b ++ [u] |}.

Definition register_url (u : string) (b : Browser) : Browser :=
  {| body_children := body_children b; object_urls := u :: object_urls b;
     clicked := clicked b; opened := opened b; fetched := fetched b |}.

(** [URL.revokeObjectURL(u)] *)
Definition revokeObjectURL (u : string) (b : Browser) : Browser :=
  {| body_children := body_children b;
     object_urls := filter (fun u' => negb (String.eqb u u')) (object_urls b);
     clicked := clicked b; opened := opened b; fetched := fetched b |}.

(** [document.body.appendChild(a)] *)
Definition appendChild (a : Anchor) (b : Browser) : Browser :=
  {| body_children := body_children b ++ [a]; object_urls := object_urls b;
     clicked := clicked b; opened := opened b; fetched := fetched b |}.

Definition Anchor_eqb (a a' : Anchor) : bool :=
  String.eqb (href a) (href a') && String.eqb (download a) (download a').

(** Removes the first node equal to [a]. *)
Fixpoint remove_first (a : Anchor) (l : list Anchor) : list Anchor :=
  match l with
  | [] => []
  | a' :: rest => if Anchor_eqb a a' then rest else a' :: remove_first a rest
  end.

(** [document.body.removeChild(a)] for the node [a] appended last: nodes
    are told apart by position, so the last node equal to [a] goes. *)
Definition removeChild (a : Anchor) (b : Browser) : Browser :=
  {| body_children := rev (remove_first a (rev (body_children b)));
     object_urls := object_urls b;
     clicked := clicked b; opened := opened b; fetched := fetched b |}.

(** [a.click()] *)
Definition click (a : Anchor) (b : Browser) : Browser :=
  {| body_children := body_children b; object_urls := object_urls b;
     clicked := clicked b ++ [a]; opened := opened b; fetched := fetched b |}.

(** [window.open(u, target)] *)
Definition window_open (u target : string) (b : Browser) : Browser :=
  {| body_children := body_children b; object_urls := object_urls b;
     clicked := clicked b; opened := opened b ++ [(u, target)]; fetched := fetched b |}.

(** A perspective inside a template literal. *)
Definition perspective_text (p : option Perspective) : string :=
  match p with
  | Some emotional => "emotional"
  | Some literal => "literal"
  | Some sarcastic => "sarcastic"
  | None => "undefined"
  end.

(** A number inside a template literal. *)
Definition number_text (n : N) : string := NilZero.string_of_uint (N.to_uint n).

(** The [try] block once the blob is there; [name] is [a.download]. *)
Definition save_blob (p : Platform) (blob name : string) (b : Browser) : Browser :=
  let url' := createObjectURL p blob in
  let b := register_url url' b in
  let a := {| href := url'; download := name |} in
  let b := appendChild a b in
  let b := click a b in
  let b := removeChild a b in
  revokeObjectURL url' b.

(** [handleDownload(gif)] of the component that holds a list of results. *)
Definition handleDownload (p : Platform) (gif : GifResult) (b : Browser) : Browser :=
  let b := record_fetch (gr_url gif) b in
  match fetch_blob p (gr_url gif) with
  | Ok (Ok blob) =>
      let uniqueId := substring 0 8 (randomUUID p) in
      save_blob p blob
        ("reaction-" ++ perspective_text (gr_perspective gif) ++ "-" ++ uniqueId ++ ".gif")%string
        b
  | _ => window_open (gr_url gif) "_blank" b
  end.

(** [handleDownload()] of the component that holds one result or [null]. *)
Definition handleDownload_single (p : Platform) (result : option GifResult) (b : Browser)
  : Browser :=
  match result with
  | None => b
  | Some r =>
      if negb (truthy_str (Some (gr_url r))) then b
      else
        let b := record_fetch (gr_url r) b in
        match fetch_blob p (gr_url r) with
        | Ok (Ok blob) =>
            save_blob p blob ("reaction-" ++ number_text (now p) ++ ".gif")%string b
        | _ => window_open (gr_url r) "_blank" b
        end
  end.

End Download.

(** While a request is pending the form holds neither an error nor a
    result, and it never holds an error together with a result. *)
Definition tidy {R : Type} (cleared : R) (st : UI.State R) : Prop :=
  single_flight st /\
  (UI.isPending st = true -> UI.error st = None /\ UI.result st = cleared) /\
  (UI.error st <> None -> UI.result st = cleared).

(* ------------------------------------------------------------------ *)
(** ** Running the handlers *)

Ltac open_handler :=
  unfold response_of, calls_of,
    Single.POST, Single.POST_try, Multi.POST, Multi.POST_try,
    settle, generateObject, do_fetch, bind, emit, lift, ret, throw.

(** The text test of both handlers rejects whatever is not a string. *)
Lemma text_test_rejects (v : JSValue) :
  is_string v = false ->
  negb (truthy v) || negb (String.eqb (typeof v) "string") = true.
Proof.
  destruct v as [[ | b | n | s | l | f] | ]; simpl; intros H;
    try discriminate H; try reflexivity; apply orb_true_r.
Qed.

Lemma destructure_field_text (body' : JSON) :
  body' <> JNull -> destructure_text body' = Ok (field_text body').
Proof.
  destruct body'; simpl; intros H; try reflexivity. contradiction H; reflexivity.
Qed.

(** After a refused settlement both handlers answer at once. *)
Lemma refused_settlement (w : World) (request : Request) (pr : PaymentResult) :
  settlePayment w (settle_args request) = Ok pr ->
  pr_status pr <> 200 ->
  let answer := Response_json (BodyPayment (responseBody pr)) (pr_status pr) (responseHeaders pr) in
  Single.POST w request = (answer, [EvSettle (settle_args request)]) /\
  Multi.POST w request = (answer, [EvSettle (settle_args request)]).
Proof.
  intros Hs Hne. apply Z.eqb_neq in Hne.
  split; open_handler; simpl; rewrite Hs, Hne; reflexivity.
Qed.

(** C2: when settlement returns a status other than 200, both handlers
    answer with the settlement's status, body and headers as they are, and
    the only outside call of the request is the settlement itself: no
    language-model call and no search call is made. *)
Theorem C2_refused_settlement_is_relayed
    (w : World) (request : Request) (pr : PaymentResult) :
  settlePayment w (settle_args request) = Ok pr ->
  pr_status pr <> 200 ->
  relays pr request (Single.POST w request) /\
  relays pr request (Multi.POST w request).
Proof.
  intros Hs Hne.
  destruct (refused_settlement w request pr Hs Hne) as [H1 H2].
  unfold relays. rewrite H1, H2. simpl. repeat split; reflexivity.
Qed.

Lemma C2_witness :
  relays Sample.payment_required Sample.unpaid_request_without_text
    (Single.POST Sample.world Sample.unpaid_request_without_text) /\
  relays Sample.payment_required Sample.unpaid_request_without_text
    (Multi.POST Sample.world Sample.unpaid_request_without_text).
Proof.
  apply (C2_refused_settlement_is_relayed Sample.world
           Sample.unpaid_request_without_text Sample.payment_required).
  - reflexivity.
  - simpl. lia.
Defined.

(** Both handlers, once payment is settled, read the body and test [text]. *)
Lemma settled_text_rejected (w : World) (request : Request) (pr : PaymentResult)
    (body' : JSON) :
  settlePayment w (settle_args request) = Ok pr ->
  pr_status pr = 200 ->
  request_json request = Ok body' ->
  body' <> JNull ->
  is_string (field_text body') = false ->
  let answer := Response_json (BodyError "Text input is required") 400 [] in
  Single.POST w request = (answer, [EvSettle (settle_args request)]) /\
  Multi.POST w request = (answer, [EvSettle (settle_args request)]).
Proof.
  intros Hs H200 Hj Hnn Ht.
  apply destructure_field_text in Hnn. apply text_test_rejects in Ht.
  split; open_handler; simpl; rewrite Hs, H200, Hj; simpl; rewrite Hnn, Ht; reflexivity.
Qed.

(** C1, as stated, fails: a request without payment proof and without a
    field [text] is answered with the facilitator's 402, not with 400. *)
Lemma C1_counterexample :
  request_json Sample.unpaid_request_without_text = Ok Sample.body_without_text /\
  field_text Sample.body_without_text = None /\
  x_payment Sample.unpaid_request_without_text = None /\
  status (response_of (Single.POST Sample.world Sample.unpaid_request_without_text)) = 402 /\
  status (response_of (Multi.POST Sample.world Sample.unpaid_request_without_text)) = 402 /\
  response_of (Single.POST Sample.world Sample.unpaid_request_without_text)
    <> Response_json (BodyError "Text input is required") 400 [] /\
  response_of (Multi.POST Sample.world Sample.unpaid_request_without_text)
    <> Response_json (BodyError "Text input is required") 400 [].
Proof.
  repeat split; try reflexivity; intros H; discriminate H.
Qed.

(** C1, amended: when settlement returns 200 and the body is a JSON value
    other than [null] whose field [text] is absent, [null] or not a string,
    both handlers answer 400 with [{ error: "Text input is required" }],
    having made no outside call but the settlement. *)
Theorem C1_text_required_once_settled
    (w : World) (request : Request) (pr : PaymentResult) (body' : JSON) :
  settlePayment w (settle_args request) = Ok pr ->
  pr_status pr = 200 ->
  request_json request = Ok body' ->
  body' <> JNull ->
  is_string (field_text body') = false ->
  (response_of (Single.POST w request) = Response_json (BodyError "Text input is required") 400 []
   /\ calls_of (Single.POST w request) = [EvSettle (settle_args request)]) /\
  (response_of (Multi.POST w request) = Response_json (BodyError "Text input is required") 400 []
   /\ calls_of (Multi.POST w request) = [EvSettle (settle_args request)]).
Proof.
  intros Hs H200 Hj Hnn Ht.
  destruct (settled_text_rejected w request pr body' Hs H200 Hj Hnn Ht) as [H1 H2].
  rewrite H1, H2. repeat split.
Qed.

Lemma C1_witness :
  (response_of (Single.POST Sample.world Sample.paid_request_without_text)
     = Response_json (BodyError "Text input is required") 400 []
   /\ calls_of (Single.POST Sample.world Sample.paid_request_without_text)
     = [EvSettle (settle_args Sample.paid_request_without_text)]) /\
  (response_of (Multi.POST Sample.world Sample.paid_request_without_text)
     = Response_json (BodyError "Text input is required") 400 []
   /\ calls_of (Multi.POST Sample.world Sample.paid_request_without_text)
     = [EvSettle (settle_args Sample.paid_request_without_text)]).
Proof.
  apply (C1_text_required_once_settled Sample.world Sample.paid_request_without_text
           Sample.settled Sample.body_without_text).
  - reflexivity.
  - reflexivity.
  - reflexivity.
  - intros H; discriminate H.
  - reflexivity.
Defined.

(** C10: when settlement returns 200 and the body is not valid JSON,
    [request.json()] throws before the text test is reached; the [catch]
    of both handlers answers 500 with
    [{ error: "Failed to generate GIF recommendation" }], not 400. *)
Theorem C10_invalid_json_is_500
    (w : World) (request : Request) (pr : PaymentResult) (e : Error) :
  settlePayment w (settle_args request) = Ok pr ->
  pr_status pr = 200 ->
  request_json request = Throw e ->
  Single.POST_try w request [] = (Throw e, [EvSettle (settle_args request)]) /\
  Multi.POST_try w request [] = (Throw e, [EvSettle (settle_args request)]) /\
  response_of (Single.POST w request)
    = Response_json (BodyError "Failed to generate GIF recommendation") 500 [] /\
  response_of (Multi.POST w request)
    = Response_json (BodyError "Failed to generate GIF recommendation") 500 [] /\
  status (response_of (Single.POST w request)) <> 400 /\
  status (response_of (Multi.POST w request)) <> 400.
Proof.
  intros Hs H200 Hj.
  assert (S1 : Single.POST_try w request [] = (Throw e, [EvSettle (settle_args request)])).
  { open_handler; simpl; rewrite Hs, H200, Hj; reflexivity. }
  assert (M1 : Multi.POST_try w request [] = (Throw e, [EvSettle (settle_args request)])).
  { open_handler; simpl; rewrite Hs, H200, Hj; reflexivity. }
  unfold response_of, Single.POST, Multi.POST. rewrite S1, M1. simpl.
  repeat split; try reflexivity; intros H; discriminate H.
Qed.

Lemma C10_witness :
  Single.POST_try Sample.world Sample.paid_request_bad_json []
    = (Throw SyntaxError, [EvSettle (settle_args Sample.paid_request_bad_json)]) /\
  Multi.POST_try Sample.world Sample.paid_request_bad_json []
    = (Throw SyntaxError, [EvSettle (settle_args Sample.paid_request_bad_json)]) /\
  response_of (Single.POST Sample.world Sample.paid_request_bad_json)
    = Response_json (BodyError "Failed to generate GIF recommendation") 500 [] /\
  response_of (Multi.POST Sample.world Sample.paid_request_bad_json)
    = Response_json (BodyError "Failed to generate GIF recommendation") 500 [] /\
  status (response_of (Single.POST Sample.world Sample.paid_request_bad_json)) <> 400 /\
  status (response_of (Multi.POST Sample.world Sample.paid_request_bad_json)) <> 400.
Proof.
  apply (C10_invalid_json_is_500 Sample.world Sample.paid_request_bad_json
           Sample.settled SyntaxError); reflexivity.
Defined.

(* ------------------------------------------------------------------ *)
(** ** Ranking *)

Lemma array_get_in_range {A} (l : list A) (i : Z) :
  0 <= i < Z.of_nat (List.length l) ->
  exists a, array_get l i = Some a /\ nth_error l (Z.to_nat i) = Some a.
Proof.
  intros [Hlo Hhi]. unfold array_get.
  destruct (Z.ltb_spec i 0) as [Hneg | _]; [lia | ].
  destruct (nth_error l (Z.to_nat i)) as [a | ] eqn:E.
  - exists a. split; reflexivity.
  - apply nth_error_None in E. lia.
Qed.

Lemma array_get_out_of_range {A} (l : list A) (i : Z) :
  Z.of_nat (List.length l) <= i -> array_get l i = None.
Proof.
  intros H. unfold array_get.
  destruct (Z.ltb_spec i 0) as [_ | Hpos]; [reflexivity | ].
  apply nth_error_None. lia.
Qed.

(** The outcome and the outside call of one generateObject. *)
Lemma generateObject_run {A} (w : World) (model : string)
    (schema : ModelOutput -> option A) (prompt : Prompt) (t : list Event) :
  generateObject w model schema prompt t =
  (match languageModel w model prompt with
   | Ok out => match schema out with Some a => Ok a | None => Throw SchemaError end
   | Throw e => Throw e
   end, t ++ [EvGenerateObject model prompt]).
Proof.
  unfold generateObject, bind, emit, lift, ret, throw.
  destruct (languageModel w model prompt) as [out | e]; [ | reflexivity].
  destruct (schema out); reflexivity.
Qed.

Lemma ranked_with (w : World) (text : string) (sr : Multi.SearchResult)
    (selection : Selection) (g : GiphyGif) :
  Multi.gifs sr <> [] ->
  languageModel w "gpt-4o-mini"
    (PerspectiveSelectPrompt (perspective (Multi.strategy sr)) text
       (gifOptions_of (Multi.gifs sr))) = Ok (OutSelection selection) ->
  selectionSchema (OutSelection selection) = Some selection ->
  selectedGif (Multi.gifs sr) selection = Some g ->
  ranked w text sr = Ok (Some (result_for (Multi.strategy sr) selection g)).
Proof.
  intros Hne Hm Hidx Hsel. unfold ranked, Multi.select.
  destruct (Multi.gifs sr) as [ | g0 rest] eqn:Eg; [contradiction Hne; reflexivity | ].
  change (Z.of_nat (List.length (g0 :: rest)) =? 0) with false.
  cbv beta iota. unfold bind. rewrite generateObject_run, Hm.
  rewrite Hidx, Hsel. reflexivity.
Qed.

(* ------------------------------------------------------------------ *)
(** ** The single-result handler, stage by stage *)

Lemma settled_text_accepted (w : World) (request : Request) (text : string) :
  settled_with_text w request text ->
  exists pr body',
    settlePayment w (settle_args request) = Ok pr /\
    (pr_status pr =? 200) = true /\
    request_json request = Ok body' /\
    destructure_text body' = Ok (Some (JString text)) /\
    (text =? "")%string = false.
Proof.
  intros (pr & body' & Hs & H200 & Hj & Hf & Hne).
  exists pr, body'. repeat split; try assumption.
  - rewrite H200. reflexivity.
  - rewrite destructure_field_text; [rewrite Hf; reflexivity | ].
    intros ->. discriminate Hf.
  - apply String.eqb_neq. exact Hne.
Qed.

Lemma key_configured_truthy (w : World) (key : string) :
  key_configured w key ->
  truthy_str (GIPHY_API_KEY w) = true /\ or_empty (GIPHY_API_KEY w) = key.
Proof.
  intros [Hk Hne]. rewrite Hk. simpl. apply String.eqb_neq in Hne. rewrite Hne.
  split; reflexivity.
Qed.

(** Symbolic run of a handler on a request with settled payment and text. *)
Ltac enter_settled H :=
  let pr := fresh "pr" in
  let b := fresh "body'" in
  let Hs := fresh "Hs" in
  let H200 := fresh "H200" in
  let Hj := fresh "Hj" in
  let Hd := fresh "Hd" in
  let Ht := fresh "Ht" in
  destruct (settled_text_accepted _ _ _ H) as (pr & b & Hs & H200 & Hj & Hd & Ht);
  open_handler; simpl; rewrite Hs; simpl; rewrite H200, Hj; simpl;
  rewrite Hd; simpl; rewrite Ht; simpl.

(** The single-result handler up to the search, when the key is set. *)
Lemma Single_run_to_search (w : World) (request : Request) (text key : string)
    (object : KeywordsObject) (found : option (list GiphyGif)) :
  settled_with_text w request text ->
  keywords_derived w text object ->
  key_configured w key ->
  single_search_finds w key object found ->
  Single.POST w request =
  let t := [EvSettle (settle_args request);
            EvGenerateObject "gpt-5-mini" (KeywordsPrompt text);
            EvFetch (giphy_url key (Single.searchQuery object) "10")] in
  match found with
  | None => (Response_json (BodyError "No GIF found") 404 [], t)
  | Some [] => (Response_json (BodyError "No GIF found") 404 [], t)
  | Some (g0 :: rest) =>
      let gifs := g0 :: rest in
      match generateObject w "gpt-4o-mini" selectionSchema
              (SelectPrompt text (gifOptions_of gifs)) t with
      | (Ok selection, t') =>
          match selectedGif gifs selection with
          | Some g => (Response_json (BodyGif (single_result_for object selection g)) 200 [], t')
          | None => (generic_failure, t')
          end
      | (Throw _, t') => (generic_failure, t')
      end
  end.
Proof.
  intros Hst [Hm Hsch] Hkey (resp & Hf & Hok & Hjs).
  destruct (key_configured_truthy w key Hkey) as [Hk1 Hk2].
  enter_settled Hst.
  rewrite Hm, Hsch, Hk1, Hk2. simpl. rewrite Hf, Hok. simpl. rewrite Hjs. simpl.
  destruct found as [[ | g0 rest] | ]; try reflexivity.
  change (Z.of_nat (List.length (g0 :: rest)) =? 0) with false. cbv beta iota.
  destruct (languageModel w "gpt-4o-mini" (SelectPrompt text (gifOptions_of (g0 :: rest))))
    as [out | e]; simpl; [ | reflexivity].
  destruct (selectionSchema out) as [selection | ]; simpl; [ | reflexivity].
  destruct (selectedGif (g0 :: rest) selection); reflexivity.
Qed.

(** C4: on a non-empty candidate list, a selected index at or beyond the
    number of candidates picks the candidate at index 0, and an index
    within range picks the candidate at that index; in both handlers the
    result object is built from that candidate, for every selection the
    model returns that passes the selection schema. *)
Theorem C4_selected_candidate (gifs : list GiphyGif) (selection : Selection) :
  gifs <> [] ->
  (Z.of_nat (List.length gifs) <= selectedIndex selection ->
     exists g, nth_error gifs 0 = Some g /\ selectedGif gifs selection = Some g) /\
  (0 <= selectedIndex selection < Z.of_nat (List.length gifs) ->
     exists g, nth_error gifs (Z.to_nat (selectedIndex selection)) = Some g /\
               selectedGif gifs selection = Some g) /\
  (forall w text s,
     languageModel w "gpt-4o-mini"
       (PerspectiveSelectPrompt (perspective s) text (gifOptions_of gifs))
       = Ok (OutSelection selection) ->
     selectionSchema (OutSelection selection) = Some selection ->
     exists g, selectedGif gifs selection = Some g /\
       ranked w text {| Multi.strategy := s; Multi.gifs := gifs |}
       = Ok (Some (result_for s selection g))) /\
  (forall w request text key object,
     settled_with_text w request text ->
     keywords_derived w text object ->
     key_configured w key ->
     single_search_finds w key object (Some gifs) ->
     languageModel w "gpt-4o-mini" (SelectPrompt text (gifOptions_of gifs))
       = Ok (OutSelection selection) ->
     selectionSchema (OutSelection selection) = Some selection ->
     exists g, selectedGif gifs selection = Some g /\
       response_of (Single.POST w request)
       = Response_json (BodyGif (single_result_for object selection g)) 200 []).
Proof.
  intros Hne.
  assert (H0 : exists g, nth_error gifs 0 = Some g).
  { destruct gifs as [ | g rest]; [contradiction Hne; reflexivity | ]. exists g. reflexivity. }
  destruct H0 as [g0 Hg0].
  assert (Hout : Z.of_nat (List.length gifs) <= selectedIndex selection ->
                 selectedGif gifs selection = Some g0).
  { intros Hge. unfold selectedGif. rewrite (array_get_out_of_range gifs _ Hge).
    unfold array_get. simpl. exact Hg0. }
  assert (Hin : 0 <= selectedIndex selection < Z.of_nat (List.length gifs) ->
     exists g, nth_error gifs (Z.to_nat (selectedIndex selection)) = Some g /\
               selectedGif gifs selection = Some g).
  { intros Hr. destruct (array_get_in_range gifs _ Hr) as [g [Ha Hn]].
    exists g. split; [exact Hn | ]. unfold selectedGif. rewrite Ha. reflexivity. }
  assert (Hsome : selectionSchema (OutSelection selection) = Some selection ->
                  exists g, selectedGif gifs selection = Some g).
  { intros Hsch. simpl in Hsch.
    destruct (Z.leb_spec 0 (selectedIndex selection)) as [Hidx | _];
      [ | discriminate Hsch].
    destruct (Z.lt_ge_cases (selectedIndex selection) (Z.of_nat (List.length gifs)))
      as [Hlt | Hge].
    - destruct (Hin (conj Hidx Hlt)) as [g [_ Hg]]. exists g. exact Hg.
    - exists g0. exact (Hout Hge). }
  split; [ | split; [ | split]].
  - intros Hge. exists g0. split; [exact Hg0 | exact (Hout Hge)].
  - exact Hin.
  - intros w text s Hm Hsch.
    destruct (Hsome Hsch) as [g Hg]. exists g. split; [exact Hg | ].
    apply (ranked_with w text {| Multi.strategy := s; Multi.gifs := gifs |} selection g);
      simpl; assumption.
  - intros w request text key object Hst Hkw Hkey Hfind Hm Hsch.
    destruct (Hsome Hsch) as [g Hg]. exists g. split; [exact Hg | ].
    rewrite (Single_run_to_search w request text key object (Some gifs) Hst Hkw Hkey Hfind).
    destruct gifs as [ | g1 rest]; [contradiction Hne; reflexivity | ].
    cbv zeta. rewrite generateObject_run, Hm, Hsch, Hg. reflexivity.
Qed.

(** An index above the safe integers is not a selection: the schema
    rejects it, and the request ends in the generic failure. *)
Example unsafe_index_fails_the_schema :
  selectionSchema (OutSelection {| selectedIndex := 9007199254740992; sel_reasoning := "" |})
  = None /\
  selectionSchema (OutSelection {| selectedIndex := 9007199254740991; sel_reasoning := "" |})
  = Some {| selectedIndex := 9007199254740991; sel_reasoning := "" |}.
Proof. split; reflexivity. Qed.

Lemma Sample_settled_with_text (w : World) :
  settlePayment w = Sample.facilitator ->
  settled_with_text w Sample.paid_request "it compiles".
Proof.
  intros H. exists Sample.settled, Sample.body_with_text. rewrite H.
  repeat split; try reflexivity. intros E; discriminate E.
Qed.

Lemma Sample_key_configured : key_configured Sample.world "KEY".
Proof. split; [reflexivity | intros E; discriminate E]. Qed.

Lemma C4_witness :
  (exists g, nth_error [Sample.gif "clap"] 0 = Some g /\
     selectedGif [Sample.gif "clap"] {| selectedIndex := 7; sel_reasoning := "best" |} = Some g) /\
  response_of (Single.POST Sample.world Sample.paid_request)
  = Response_json
      (BodyGif (single_result_for
                  {| ko_keywords := ["facepalm"; "cringe"]; ko_topic := Some "coding";
                     ko_reasoning := "reaction" |}
                  {| selectedIndex := 7; sel_reasoning := "best" |}
                  (Sample.gif "clap"))) 200 [].
Proof.
  assert (Hne : [Sample.gif "clap"] <> []) by (intros E; discriminate E).
  destruct (C4_selected_candidate [Sample.gif "clap"]
              {| selectedIndex := 7; sel_reasoning := "best" |} Hne)
    as (Hout & _ & _ & Hsingle).
  split.
  - apply Hout. simpl. lia.
  - destruct (Hsingle Sample.world Sample.paid_request "it compiles" "KEY"
                {| ko_keywords := ["facepalm"; "cringe"]; ko_topic := Some "coding";
                   ko_reasoning := "reaction" |}) as [g [Hg Hr]].
    + apply Sample_settled_with_text. reflexivity.
    + split; reflexivity.
    + exact Sample_key_configured.
    + eexists. repeat split; reflexivity.
    + reflexivity.
    + reflexivity.
    + vm_compute in Hg. injection Hg as <-. exact Hr.
Defined.

(* ------------------------------------------------------------------ *)
(** ** The search query *)

(** One search of the multi-strategy handler: its outcome and its call. *)
Lemma search_run (w : World) (key : string) (s : Strategy) (t : list Event) :
  Multi.search w key s t =
  (candidates w key s, t ++ [EvFetch (giphy_url key (Multi.searchQuery s) "5")]).
Proof.
  unfold candidates, Multi.search, do_fetch, bind, emit, lift, ret. simpl.
  destruct (fetch w (giphy_url key (Multi.searchQuery s) "5")) as [resp | e]; [ | reflexivity].
  destruct (ok resp); simpl; [ | reflexivity].
  destruct (json resp); reflexivity.
Qed.

(** C5, as stated, fails: a topic that is the empty string is not null,
    yet nothing is appended, not even the space. *)
Lemma C5_counterexample :
  let s := {| keywords := ["facepalm"; "cringe"]; topic := Some "";
              perspective := emotional; reasoning := "" |} in
  topic s <> None /\
  Multi.searchQuery s = "facepalm cringe" /\
  Multi.searchQuery s <> (join " " (keywords s) ++ " " ++ "")%string /\
  Single.searchQuery {| ko_keywords := ["facepalm"; "cringe"]; ko_topic := Some "";
                        ko_reasoning := "" |} = "facepalm cringe".
Proof.
  simpl. repeat split; try reflexivity; intros E; discriminate E.
Qed.

(** C5, amended: the query is the keywords joined by single spaces, with
    the topic appended after a single space if and only if the topic is
    neither null nor the empty string; the search call of a strategy
    carries that query, URI-encoded, as its parameter [q].  So keywords
    ["facepalm","cringe"] give "facepalm cringe" with topic null and
    "facepalm cringe coding" with topic "coding". *)
Theorem C5_search_query (kws : list string) (tp : option string)
    (p : Perspective) (why : string) :
  let s := {| keywords := kws; topic := tp; perspective := p; reasoning := why |} in
  let o := {| ko_keywords := kws; ko_topic := tp; ko_reasoning := why |} in
  let expected :=
    match tp with
    | None => join " " kws
    | Some t => if String.eqb t "" then join " " kws else (join " " kws ++ " " ++ t)%string
    end in
  Multi.searchQuery s = expected /\
  Single.searchQuery o = expected /\
  (forall w key t,
     snd (Multi.search w key s t)
     = t ++ [EvFetch ("https://api.giphy.com/v1/gifs/search?api_key=" ++ key
                        ++ "&q=" ++ encodeURIComponent expected
                        ++ "&limit=5&rating=pg-13&lang=en")%string]) /\
  (tp = None -> kws = ["facepalm"; "cringe"] -> expected = "facepalm cringe") /\
  (tp = Some "coding" -> kws = ["facepalm"; "cringe"] -> expected = "facepalm cringe coding").
Proof.
  intros s o expected.
  assert (Hm : Multi.searchQuery s = expected).
  { unfold Multi.searchQuery, expected, s. simpl.
    destruct tp as [t | ]; simpl; [ | reflexivity].
    destruct (String.eqb t ""); reflexivity. }
  assert (Hs : Single.searchQuery o = expected).
  { unfold Single.searchQuery, expected, o. simpl.
    destruct tp as [t | ]; simpl; [ | reflexivity].
    destruct (String.eqb t ""); reflexivity. }
  split; [exact Hm | split; [exact Hs | split; [ | split]]].
  - intros w key t. rewrite search_run, Hm. reflexivity.
  - intros Ht Hk. unfold expected. rewrite Ht, Hk. reflexivity.
  - intros Ht Hk. unfold expected. rewrite Ht, Hk. reflexivity.
Qed.

(** The two queries of the specification, as sent. *)
Example query_without_topic :
  giphy_url "KEY" (Multi.searchQuery {| keywords := ["facepalm"; "cringe"]; topic := None;
                                        perspective := sarcastic; reasoning := "" |}) "5"
  = "https://api.giphy.com/v1/gifs/search?api_key=KEY&q=facepalm%20cringe&limit=5&rating=pg-13&lang=en".
Proof. reflexivity. Qed.

Example query_with_topic :
  giphy_url "KEY" (Single.searchQuery {| ko_keywords := ["facepalm"; "cringe"];
                                         ko_topic := Some "coding"; ko_reasoning := "" |}) "10"
  = "https://api.giphy.com/v1/gifs/search?api_key=KEY&q=facepalm%20cringe%20coding&limit=10&rating=pg-13&lang=en".
Proof. reflexivity. Qed.

(* ------------------------------------------------------------------ *)
(** ** The multi-strategy handler, stage by stage *)

Lemma map_async_run {A B} (f : A -> M B) (pure : A -> Result B) (calls : A -> list Event) :
  (forall a t, f a t = (pure a, t ++ calls a)) ->
  forall l t, map_async f l t = (map pure l, t ++ flat_map calls l).
Proof.
  intros Hf l. induction l as [ | a rest IH]; intros t; simpl.
  - rewrite app_nil_r. reflexivity.
  - rewrite Hf, IH, <- app_assoc. reflexivity.
Qed.

Lemma Promise_all_map_run {A B} (f : A -> M B) (pure : A -> Result B)
    (calls : A -> list Event) :
  (forall a t, f a t = (pure a, t ++ calls a)) ->
  forall l t, Promise_all_map f l t = (all_fulfilled (map pure l), t ++ flat_map calls l).
Proof.
  intros Hf l t. unfold Promise_all_map. rewrite (map_async_run f pure calls Hf). reflexivity.
Qed.

Lemma select_run (w : World) (text : string) (sr : Multi.SearchResult) (t : list Event) :
  Multi.select w text sr t = (ranked w text sr, t ++ select_calls text sr).
Proof.
  unfold ranked, select_calls, no_candidates, Multi.select.
  destruct (Multi.gifs sr) as [ | g0 rest].
  - simpl. unfold ret. rewrite app_nil_r. reflexivity.
  - change (Z.of_nat (List.length (g0 :: rest)) =? 0) with false. cbv beta iota.
    unfold bind. rewrite !generateObject_run.
    destruct (languageModel w "gpt-4o-mini"
                (PerspectiveSelectPrompt (perspective (Multi.strategy sr)) text
                   (gifOptions_of (g0 :: rest)))) as [out | e]; [ | reflexivity].
    destruct (selectionSchema out) as [selection | ]; [ | reflexivity].
    destruct (selectedGif (g0 :: rest) selection); reflexivity.
Qed.

Lemma all_fulfilled_length {B} (rs : list (Result B)) (bs : list B) :
  all_fulfilled rs = Ok bs -> List.length bs = List.length rs.
Proof.
  revert bs. induction rs as [ | r rest IH]; intros bs H; simpl in H.
  - injection H as <-. reflexivity.
  - destruct r as [b | e]; [ | discriminate H].
    destruct (all_fulfilled rest) as [bs' | e]; [ | discriminate H].
    injection H as <-. simpl. rewrite (IH bs' eq_refl). reflexivity.
Qed.

Lemma filter_non_null_length {A} (l : list (option A)) :
  (List.length (filter_non_null l) <= List.length l)%nat.
Proof.
  induction l as [ | [a | ] rest IH]; simpl; lia.
Qed.

Lemma strategiesSchema_three (o : ModelOutput) (l : list Strategy) :
  strategiesSchema o = Some l -> List.length l = 3%nat.
Proof.
  destruct o as [k | l' | s]; simpl; try discriminate.
  destruct (forallb strategy_ok l'); simpl; [ | discriminate].
  destruct (Z.eqb_spec (Z.of_nat (List.length l')) 3) as [E | _]; [ | discriminate].
  intros H. injection H as <-. lia.
Qed.

Lemma flat_map_singleton {A B} (f : A -> B) (l : list A) :
  flat_map (fun a => [f a]) l = map f l.
Proof.
  induction l as [ | a rest IH]; simpl; [reflexivity | rewrite IH; reflexivity].
Qed.

(** The multi-strategy handler from the strategies on, when the key is set. *)
Lemma Multi_run (w : World) (request : Request) (text key : string) (l : list Strategy) :
  settled_with_text w request text ->
  key_configured w key ->
  strategies_derived w text l ->
  Multi.POST w request =
  let t0 := [EvSettle (settle_args request);
             EvGenerateObject "gpt-4o-mini" (StrategiesPrompt text)]
            ++ map (search_call key) l in
  match all_fulfilled (map (candidates w key) l) with
  | Throw _ => (generic_failure, t0)
  | Ok searchResults =>
      let t1 := t0 ++ flat_map (select_calls text) searchResults in
      match all_fulfilled (map (ranked w text) searchResults) with
      | Throw _ => (generic_failure, t1)
      | Ok selections =>
          match filter_non_null selections with
          | [] => (Response_json (BodyError "No GIFs found") 404 [], t1)
          | validGifs => (Response_json (BodyGifs validGifs) 200 [], t1)
          end
      end
  end.
Proof.
  intros Hst Hkey [Hm Hsch].
  destruct (key_configured_truthy w key Hkey) as [Hk1 Hk2].
  enter_settled Hst.
  rewrite Hk1, Hk2. simpl. rewrite Hm. rewrite Hsch.
  rewrite (Promise_all_map_run (Multi.search w key) (candidates w key)
             (fun s => [search_call key s]) (search_run w key)).
  rewrite flat_map_singleton. simpl.
  destruct (all_fulfilled (map (candidates w key) l)) as [searchResults | e]; [ | reflexivity].
  rewrite (Promise_all_map_run (Multi.select w text) (ranked w text)
             (select_calls text) (select_run w text)).
  destruct (all_fulfilled (map (ranked w text) searchResults)) as [selections | e];
    [ | reflexivity].
  destruct (filter_non_null selections) as [ | r rest]; reflexivity.
Qed.

Lemma array_get_In {A} (l : list A) (i : Z) (a : A) :
  array_get l i = Some a -> In a l.
Proof.
  unfold array_get. destruct (i <? 0); [discriminate | ]. apply nth_error_In.
Qed.

Lemma selectedGif_In (l : list GiphyGif) (selection : Selection) (g : GiphyGif) :
  selectedGif l selection = Some g -> In g l.
Proof.
  unfold selectedGif.
  destruct (array_get l (selectedIndex selection)) as [g' | ] eqn:E.
  - intros H. injection H as <-. exact (array_get_In _ _ _ E).
  - apply array_get_In.
Qed.

(** A ranking either skips a strategy without candidates or answers with a
    result of that very strategy. *)
Lemma ranked_inv (w : World) (text : string) (sr : Multi.SearchResult)
    (o : option GifResult) :
  ranked w text sr = Ok o ->
  (no_candidates sr = true /\ o = None) \/
  (no_candidates sr = false /\ exists r, o = Some r /\ produced_by sr r).
Proof.
  unfold ranked, no_candidates, Multi.select.
  destruct (Multi.gifs sr) as [ | g0 rest] eqn:Eg.
  - simpl. unfold ret. simpl. intros H. injection H as <-. left. split; reflexivity.
  - change (Z.of_nat (List.length (g0 :: rest)) =? 0) with false. cbv beta iota.
    unfold bind. rewrite generateObject_run.
    destruct (languageModel w "gpt-4o-mini"
                (PerspectiveSelectPrompt (perspective (Multi.strategy sr)) text
                   (gifOptions_of (g0 :: rest)))) as [out | e]; [ | discriminate].
    destruct (selectionSchema out) as [selection | ]; [ | discriminate].
    destruct (selectedGif (g0 :: rest) selection) as [g | ] eqn:Es; [ | discriminate].
    unfold ret. simpl. intros H. injection H as <-. right. split; [reflexivity | ].
    eexists. split; [reflexivity | ].
    unfold produced_by. simpl. repeat split.
    exists g. rewrite Eg. split; [exact (selectedGif_In _ _ _ Es) | split; reflexivity].
Qed.

Lemma rankings_produced (w : World) (text : string) (srs : list Multi.SearchResult) :
  forall selections,
    all_fulfilled (map (ranked w text) srs) = Ok selections ->
    Forall2 produced_by (with_candidates srs) (filter_non_null selections).
Proof.
  induction srs as [ | sr rest IH]; intros selections H; simpl in H.
  - injection H as <-. constructor.
  - destruct (ranked w text sr) as [o | e] eqn:Er; [ | discriminate H].
    destruct (all_fulfilled (map (ranked w text) rest)) as [os | e]; [ | discriminate H].
    injection H as <-. specialize (IH os eq_refl).
    unfold with_candidates in *. simpl.
    destruct (ranked_inv w text sr o Er) as [[Hn ->] | [Hn (r & -> & Hp)]];
      rewrite Hn; simpl.
    + exact IH.
    + constructor; assumption.
Qed.

Lemma rankings_succeed (w : World) (text : string) (srs : list Multi.SearchResult) :
  (forall sr, In sr srs -> no_candidates sr = false ->
              exists r, ranked w text sr = Ok (Some r)) ->
  exists selections, all_fulfilled (map (ranked w text) srs) = Ok selections.
Proof.
  induction srs as [ | sr rest IH]; intros H; simpl.
  - exists []. reflexivity.
  - destruct IH as [os Hos].
    { intros sr' Hin. apply H. right. exact Hin. }
    rewrite Hos.
    destruct (no_candidates sr) eqn:Hn.
    + assert (Hr : ranked w text sr = Ok None).
      { unfold ranked, Multi.select. unfold no_candidates in Hn.
        destruct (Multi.gifs sr); [reflexivity | discriminate Hn]. }
      rewrite Hr. eexists. reflexivity.
    + destruct (H sr (or_introl eq_refl) Hn) as [r Hr]. rewrite Hr. eexists. reflexivity.
Qed.

(** A failed or empty search answer leaves a strategy without candidates. *)
Lemma degraded_search (w : World) (key : string) (s : Strategy) (resp : FetchResponse) :
  fetch w (giphy_url key (Multi.searchQuery s) "5") = Ok resp ->
  ok resp = false \/
  (ok resp = true /\ (json resp = Ok {| data := None |} \/ json resp = Ok {| data := Some [] |})) ->
  yields w key s [].
Proof.
  intros Hf H. unfold yields, candidates, Multi.search, do_fetch, bind, emit, lift, ret.
  simpl. rewrite Hf.
  destruct H as [Hok | [Hok [Hj | Hj]]]; rewrite Hok; simpl; [reflexivity | | ];
    rewrite Hj; reflexivity.
Qed.

Lemma with_candidates_length (srs : list Multi.SearchResult) :
  (List.length (with_candidates srs) + List.length (filter no_candidates srs)
   = List.length srs)%nat.
Proof.
  unfold with_candidates. induction srs as [ | sr rest IH]; simpl; [reflexivity | ].
  destruct (no_candidates sr); simpl; lia.
Qed.

(** C3: in the multi-strategy handler a search answer that is not 2xx, or
    2xx with no candidates, leaves its strategy without candidates, and
    that strategy is left out of the output while its siblings are ranked
    as usual: when exactly one of the three strategies has no candidates,
    the handler never answers 404, answers 200 as soon as the two rankings
    succeed, and a 200 response holds exactly two results, each carrying
    the perspective (and keywords, topic and a candidate) of the strategy
    that produced it, in the order of the strategies. *)
Theorem C3_one_strategy_without_candidates
    (w : World) (request : Request) (text key : string)
    (s1 s2 s3 : Strategy) (g1 g2 g3 : list GiphyGif) :
  settled_with_text w request text ->
  key_configured w key ->
  strategies_derived w text [s1; s2; s3] ->
  yields w key s1 g1 ->
  yields w key s2 g2 ->
  yields w key s3 g3 ->
  let srs := [ {| Multi.strategy := s1; Multi.gifs := g1 |};
               {| Multi.strategy := s2; Multi.gifs := g2 |};
               {| Multi.strategy := s3; Multi.gifs := g3 |} ] in
  List.length (filter no_candidates srs) = 1%nat ->
  let r := response_of (Multi.POST w request) in
  (forall s resp,
     fetch w (giphy_url key (Multi.searchQuery s) "5") = Ok resp ->
     ok resp = false \/
     (ok resp = true /\
      (json resp = Ok {| data := None |} \/ json resp = Ok {| data := Some [] |})) ->
     yields w key s []) /\
  (status r = 200 \/ r = generic_failure) /\
  (status r = 200 ->
     exists r1 r2, body r = BodyGifs [r1; r2] /\
                   Forall2 produced_by (with_candidates srs) [r1; r2]) /\
  ((forall sr, In sr srs -> no_candidates sr = false ->
               exists x, ranked w text sr = Ok (Some x)) ->
   status r = 200).
Proof.
  intros Hst Hkey Hstr Hy1 Hy2 Hy3 srs Hone r.
  split; [exact (degraded_search w key) | ].
  assert (Hrun := Multi_run w request text key [s1; s2; s3] Hst Hkey Hstr).
  unfold yields in Hy1, Hy2, Hy3. simpl in Hrun. rewrite Hy1, Hy2, Hy3 in Hrun.
  fold srs in Hrun.
  assert (Hlen : List.length (with_candidates srs) = 2%nat).
  { pose proof (with_candidates_length srs) as H. rewrite Hone in H.
    change (List.length srs) with 3%nat in H. lia. }
  assert (Hshape : forall selections,
             all_fulfilled (map (ranked w text) srs) = Ok selections ->
             exists r1 r2, filter_non_null selections = [r1; r2] /\
                           Forall2 produced_by (with_candidates srs) [r1; r2]).
  { intros selections Hsel.
    pose proof (rankings_produced w text srs selections Hsel) as HF.
    pose proof (Forall2_length HF) as HL. rewrite Hlen in HL.
    destruct (filter_non_null selections) as [ | r1 [ | r2 [ | r3 rest]]];
      try discriminate HL.
    exists r1, r2. split; [reflexivity | exact HF]. }
  destruct (all_fulfilled (map (ranked w text) srs)) as [selections | e] eqn:Esel.
  - destruct (Hshape selections eq_refl) as (r1 & r2 & Hv & HF).
    rewrite Hv in Hrun. subst r. rewrite Hrun. simpl.
    split; [left; reflexivity | split].
    + intros _. exists r1, r2. split; [reflexivity | exact HF].
    + intros _. reflexivity.
  - subst r. rewrite Hrun. simpl.
    split; [right; reflexivity | split].
    + intros H. discriminate H.
    + intros Hall. destruct (rankings_succeed w text srs Hall) as [sels Hs].
      rewrite Hs in Esel. discriminate Esel.
Qed.

Lemma C3_witness :
  exists r1 r2,
    body (response_of (Multi.POST Sample.world Sample.paid_request)) = BodyGifs [r1; r2] /\
    gr_perspective r1 = Some emotional /\
    gr_perspective r2 = Some sarcastic.
Proof.
  destruct (C3_one_strategy_without_candidates Sample.world Sample.paid_request
              "it compiles" "KEY" Sample.s_emotional Sample.s_literal Sample.s_sarcastic
              [Sample.gif "sigh"; Sample.gif "phew"] [] [Sample.gif "clap"])
    as (_ & _ & H200 & _).
  - apply Sample_settled_with_text. reflexivity.
  - exact Sample_key_configured.
  - split; reflexivity.
  - reflexivity.
  - reflexivity.
  - reflexivity.
  - reflexivity.
  - destruct (H200 eq_refl) as (r1 & r2 & Hb & HF).
    exists r1, r2. split; [exact Hb | ].
    vm_compute in Hb. injection Hb as <- <-. split; reflexivity.
Defined.

(* ------------------------------------------------------------------ *)
(** ** No candidates *)

Lemma no_rankings_without_candidates (w : World) (text : string)
    (srs : list Multi.SearchResult) :
  Forall (fun sr => Multi.gifs sr = []) srs ->
  all_fulfilled (map (ranked w text) srs) = Ok (map (fun _ => None) srs).
Proof.
  induction 1 as [ | sr rest Hsr _ IH]; simpl; [reflexivity | ].
  rewrite IH. unfold ranked, Multi.select. rewrite Hsr. reflexivity.
Qed.

Lemma searches_without_candidates (w : World) (key : string) (l : list Strategy) :
  (forall s, In s l -> yields w key s []) ->
  all_fulfilled (map (candidates w key) l)
  = Ok (map (fun s => {| Multi.strategy := s; Multi.gifs := [] |}) l).
Proof.
  induction l as [ | s rest IH]; intros H; simpl; [reflexivity | ].
  rewrite (H s (or_introl eq_refl)), IH; [reflexivity | ].
  intros s' Hin. apply H. right. exact Hin.
Qed.

Lemma filter_non_null_none {A B} (l : list B) :
  filter_non_null (map (fun _ => @None A) l) = [].
Proof.
  induction l as [ | b rest IH]; simpl; [reflexivity | exact IH].
Qed.

(** C6: with no candidate left the handlers answer 404: the single-result
    handler answers [{ error: "No GIF found" }] when its search returns no
    candidates, and the multi-strategy handler answers
    [{ error: "No GIFs found" }] when every strategy yields none. *)
Theorem C6_no_candidates_is_404
    (w : World) (request : Request) (text key : string) :
  settled_with_text w request text ->
  key_configured w key ->
  (forall object found,
     keywords_derived w text object ->
     single_search_finds w key object found ->
     found = None \/ found = Some [] ->
     response_of (Single.POST w request)
     = Response_json (BodyError "No GIF found") 404 []) /\
  (forall l,
     strategies_derived w text l ->
     (forall s, In s l -> yields w key s []) ->
     response_of (Multi.POST w request)
     = Response_json (BodyError "No GIFs found") 404 []).
Proof.
  intros Hst Hkey. split.
  - intros object found Hkw Hfind Hnone.
    rewrite (Single_run_to_search w request text key object found Hst Hkw Hkey Hfind).
    destruct Hnone as [-> | ->]; reflexivity.
  - intros l Hstr Hall.
    rewrite (Multi_run w request text key l Hst Hkey Hstr). cbv zeta.
    rewrite (searches_without_candidates w key l Hall).
    rewrite no_rankings_without_candidates.
    + rewrite filter_non_null_none. reflexivity.
    + apply Forall_forall. intros sr Hin. apply in_map_iff in Hin.
      destruct Hin as (s & <- & _). reflexivity.
Qed.

Lemma Sample_empty_key_configured : key_configured Sample.world_empty "KEY".
Proof. split; [reflexivity | intros E; discriminate E]. Qed.

Lemma C6_witness :
  response_of (Single.POST Sample.world_empty Sample.paid_request)
  = Response_json (BodyError "No GIF found") 404 [] /\
  response_of (Multi.POST Sample.world_empty Sample.paid_request)
  = Response_json (BodyError "No GIFs found") 404 [].
Proof.
  destruct (C6_no_candidates_is_404 Sample.world_empty Sample.paid_request
              "it compiles" "KEY") as [Hsingle Hmulti].
  - apply Sample_settled_with_text. reflexivity.
  - exact Sample_empty_key_configured.
  - split.
    + apply (Hsingle {| ko_keywords := ["facepalm"; "cringe"]; ko_topic := Some "coding";
                        ko_reasoning := "reaction" |} (Some [])).
      * split; reflexivity.
      * eexists. repeat split; reflexivity.
      * right. reflexivity.
    + apply (Hmulti [Sample.s_emotional; Sample.s_literal; Sample.s_sarcastic]).
      * split; reflexivity.
      * intros s Hin. simpl in Hin.
        destruct Hin as [<- | [<- | [<- | []]]]; reflexivity.
Defined.

(* ------------------------------------------------------------------ *)
(** ** The search key is not set *)

(** C7, as stated, fails for the single-result handler: with the key unset
    it first calls the language model, and when that call throws it answers
    with the generic failure body, not with "Giphy API key not configured". *)
Lemma C7_counterexample :
  GIPHY_API_KEY Sample.world_no_key_model_down = None /\
  (exists pr, settlePayment Sample.world_no_key_model_down (settle_args Sample.paid_request)
              = Ok pr /\ pr_status pr = 200) /\
  field_text Sample.body_with_text = Some (JString "it compiles") /\
  calls_of (Single.POST Sample.world_no_key_model_down Sample.paid_request)
  = [EvSettle (settle_args Sample.paid_request);
     EvGenerateObject "gpt-5-mini" (KeywordsPrompt "it compiles")] /\
  body (response_of (Single.POST Sample.world_no_key_model_down Sample.paid_request))
  = BodyError "Failed to generate GIF recommendation" /\
  body (response_of (Single.POST Sample.world_no_key_model_down Sample.paid_request))
  <> BodyError "Giphy API key not configured" /\
  calls_of (Single.POST Sample.world_no_key Sample.paid_request)
  = [EvSettle (settle_args Sample.paid_request);
     EvGenerateObject "gpt-5-mini" (KeywordsPrompt "it compiles")].
Proof.
  repeat split; try reflexivity.
  - exists Sample.settled. split; reflexivity.
  - intros E. discriminate E.
Qed.

(** C7, amended: with the search key unset, every request that passes
    settlement and the text test ends in a 500 without any call to the
    search API.  The multi-strategy handler answers
    [{ error: "Giphy API key not configured" }] having made no outside call
    but the settlement.  The single-result handler first makes its keyword
    call to the language model: it answers
    [{ error: "Giphy API key not configured" }] when that call returns an
    object that passes the schema, and the generic failure otherwise. *)
Theorem C7_key_unset_is_500 (w : World) (request : Request) (text : string) :
  settled_with_text w request text ->
  GIPHY_API_KEY w = None ->
  Multi.POST w request
  = (Response_json (BodyError "Giphy API key not configured") 500 [],
     [EvSettle (settle_args request)]) /\
  status (response_of (Single.POST w request)) = 500 /\
  calls_of (Single.POST w request)
  = [EvSettle (settle_args request); EvGenerateObject "gpt-5-mini" (KeywordsPrompt text)] /\
  existsb is_search_call (calls_of (Single.POST w request)) = false /\
  (forall object, keywords_derived w text object ->
     response_of (Single.POST w request)
     = Response_json (BodyError "Giphy API key not configured") 500 []) /\
  ((forall object, ~ keywords_derived w text object) ->
     response_of (Single.POST w request) = generic_failure).
Proof.
  intros Hst Hkey.
  assert (HM : Multi.POST w request
               = (Response_json (BodyError "Giphy API key not configured") 500 [],
                  [EvSettle (settle_args request)])).
  { enter_settled Hst. rewrite Hkey. reflexivity. }
  assert (HS : Single.POST w request =
               match languageModel w "gpt-5-mini" (KeywordsPrompt text) with
               | Ok out =>
                   match keywordsSchema out with
                   | Some _ => (Response_json (BodyError "Giphy API key not configured") 500 [],
                                [EvSettle (settle_args request);
                                 EvGenerateObject "gpt-5-mini" (KeywordsPrompt text)])
                   | None => (generic_failure,
                              [EvSettle (settle_args request);
                               EvGenerateObject "gpt-5-mini" (KeywordsPrompt text)])
                   end
               | Throw _ => (generic_failure,
                             [EvSettle (settle_args request);
                              EvGenerateObject "gpt-5-mini" (KeywordsPrompt text)])
               end).
  { enter_settled Hst.
    destruct (languageModel w "gpt-5-mini" (KeywordsPrompt text)) as [out | e];
      [ | reflexivity].
    destruct (keywordsSchema out); simpl; [rewrite Hkey | ]; reflexivity. }
  split; [exact HM | ]. rewrite HS.
  destruct (languageModel w "gpt-5-mini" (KeywordsPrompt text)) as [out | e] eqn:Em.
  - destruct (keywordsSchema out) as [o | ] eqn:Esch; simpl;
      repeat split; try reflexivity.
    + intros Hno. exfalso. apply (Hno o). split.
      * rewrite Em. f_equal.
        destruct out as [k | l | s]; simpl in Esch; try discriminate Esch.
        destruct ((1 <=? Z.of_nat (List.length (ko_keywords k)))
                  && (Z.of_nat (List.length (ko_keywords k)) <=? 3)); [ | discriminate Esch].
        injection Esch as <-. reflexivity.
      * destruct out as [k | l | s]; simpl in Esch; try discriminate Esch.
        destruct ((1 <=? Z.of_nat (List.length (ko_keywords k)))
                  && (Z.of_nat (List.length (ko_keywords k)) <=? 3)) eqn:E;
          [ | discriminate Esch].
        injection Esch as <-. simpl. rewrite E. reflexivity.
    + intros object [Hm Hsch]. rewrite Em in Hm. injection Hm as ->.
      rewrite Hsch in Esch. discriminate Esch.
  - simpl. repeat split; try reflexivity.
    intros object [Hm _]. rewrite Em in Hm. discriminate Hm.
Qed.

Lemma C7_witness :
  Multi.POST Sample.world_no_key Sample.paid_request
  = (Response_json (BodyError "Giphy API key not configured") 500 [],
     [EvSettle (settle_args Sample.paid_request)]) /\
  status (response_of (Single.POST Sample.world_no_key Sample.paid_request)) = 500 /\
  existsb is_search_call (calls_of (Single.POST Sample.world_no_key Sample.paid_request))
  = false /\
  response_of (Single.POST Sample.world_no_key Sample.paid_request)
  = Response_json (BodyError "Giphy API key not configured") 500 [].
Proof.
  destruct (C7_key_unset_is_500 Sample.world_no_key Sample.paid_request "it compiles")
    as (HM & Hst & _ & Hno & Hkw & _).
  - apply Sample_settled_with_text. reflexivity.
  - reflexivity.
  - split; [exact HM | split; [exact Hst | split; [exact Hno | ]]].
    apply (Hkw {| ko_keywords := ["facepalm"; "cringe"]; ko_topic := Some "coding";
                  ko_reasoning := "reaction" |}).
    split; reflexivity.
Defined.

(* ------------------------------------------------------------------ *)
(** ** Every response of a settled request *)

(** Case analysis on the innermost scrutinee, until none is left. *)
Ltac split_cases :=
  repeat (match goal with
          | |- context [match ?x with _ => _ end] =>
              lazymatch x with
              | context [match _ with _ => _ end] => fail
              | _ => destruct x eqn:?
              end
          end; simpl).

Lemma Single_settled_statuses (w : World) (request : Request) (text : string) :
  settled_with_text w request text ->
  let r := response_of (Single.POST w request) in
  (status r = 200 /\ exists g, body r = BodyGif g) \/ status r = 404 \/ status r = 500.
Proof.
  intros Hst. enter_settled Hst. split_cases; eauto.
Qed.

Lemma Multi_settled_statuses (w : World) (request : Request) (text : string) :
  settled_with_text w request text ->
  let r := response_of (Multi.POST w request) in
  (status r = 200 /\
   exists gifs, body r = BodyGifs gifs /\ (1 <= List.length gifs <= 3)%nat)
  \/ status r = 404 \/ status r = 500.
Proof.
  intros Hst. enter_settled Hst.
  destruct (truthy_str (GIPHY_API_KEY w)); simpl; [ | auto].
  destruct (languageModel w "gpt-4o-mini" (StrategiesPrompt text)) as [out | e]; simpl; [ | auto].
  destruct (strategiesSchema out) as [l | ] eqn:Esch; simpl; [ | auto].
  apply strategiesSchema_three in Esch.
  rewrite (Promise_all_map_run (Multi.search w (or_empty (GIPHY_API_KEY w)))
             (candidates w (or_empty (GIPHY_API_KEY w)))
             (fun s => [search_call (or_empty (GIPHY_API_KEY w)) s])
             (search_run w (or_empty (GIPHY_API_KEY w)))).
  destruct (all_fulfilled (map (candidates w (or_empty (GIPHY_API_KEY w))) l))
    as [srs | e] eqn:Esr; simpl; [ | auto].
  apply all_fulfilled_length in Esr. rewrite length_map, Esch in Esr.
  rewrite (Promise_all_map_run (Multi.select w text) (ranked w text)
             (select_calls text) (select_run w text)).
  destruct (all_fulfilled (map (ranked w text) srs)) as [sels | e] eqn:Esel; simpl; [ | auto].
  apply all_fulfilled_length in Esel. rewrite length_map, Esr in Esel.
  pose proof (filter_non_null_length sels) as Hle. rewrite Esel in Hle.
  destruct (filter_non_null sels) as [ | r rest] eqn:Ev; simpl; [auto | ].
  left. split; [reflexivity | ].
  eexists. split; [reflexivity | ]. simpl in *. lia.
Qed.

(** C8: a well-formed request with settled payment is answered with 200,
    404 or 500.  A 200 of the single-result handler holds one result
    object; a 200 of the multi-strategy handler holds between one and three
    results.  Whatever is thrown inside a handler, for any request, is
    caught and answered with the generic 500 body. *)
Theorem C8_settled_request_statuses (w : World) (request : Request) (text : string) :
  settled_with_text w request text ->
  (let r := response_of (Single.POST w request) in
   (status r = 200 /\ exists g, body r = BodyGif g) \/ status r = 404 \/ status r = 500) /\
  (let r := response_of (Multi.POST w request) in
   (status r = 200 /\
    exists gifs, body r = BodyGifs gifs /\ (1 <= List.length gifs <= 3)%nat)
   \/ status r = 404 \/ status r = 500) /\
  (forall w' request' e t,
     Single.POST_try w' request' [] = (Throw e, t) ->
     Single.POST w' request'
     = (Response_json (BodyError "Failed to generate GIF recommendation") 500 [], t)) /\
  (forall w' request' e t,
     Multi.POST_try w' request' [] = (Throw e, t) ->
     Multi.POST w' request'
     = (Response_json (BodyError "Failed to generate GIF recommendation") 500 [], t)).
Proof.
  intros Hst.
  split; [exact (Single_settled_statuses w request text Hst) | ].
  split; [exact (Multi_settled_statuses w request text Hst) | ].
  split; intros w' request' e t H.
  - unfold Single.POST. rewrite H. reflexivity.
  - unfold Multi.POST. rewrite H. reflexivity.
Qed.

Lemma C8_witness :
  ((status (response_of (Single.POST Sample.world Sample.paid_request)) = 200 /\
    exists g, body (response_of (Single.POST Sample.world Sample.paid_request)) = BodyGif g)
   \/ status (response_of (Single.POST Sample.world Sample.paid_request)) = 404
   \/ status (response_of (Single.POST Sample.world Sample.paid_request)) = 500) /\
  ((status (response_of (Multi.POST Sample.world Sample.paid_request)) = 200 /\
    exists gifs, body (response_of (Multi.POST Sample.world Sample.paid_request)) = BodyGifs gifs
                 /\ (1 <= List.length gifs <= 3)%nat)
   \/ status (response_of (Multi.POST Sample.world Sample.paid_request)) = 404
   \/ status (response_of (Multi.POST Sample.world Sample.paid_request)) = 500).
Proof.
  destruct (C8_settled_request_statuses Sample.world Sample.paid_request "it compiles")
    as (HS & HM & _).
  - apply Sample_settled_with_text. reflexivity.
  - split; [exact HS | exact HM].
Defined.

(* ------------------------------------------------------------------ *)
(** ** The client form: the guard and the flag it reads *)

Lemma step_unfold {R : Type} (cleared : R) (trim : string -> string)
    (st : UI.State R) (ev : UI.UIEvent R) :
  UI.step R cleared trim st ev =
  match ev with
  | UI.Submit =>
      let (st', calls) := UI.handleSubmit R cleared trim st in
      (UI.hook_invoked R calls st', calls)
  | UI.Change value =>
      ({| UI.input := value; UI.result := UI.result st; UI.error := UI.error st;
          UI.isPending := UI.isPending st; UI.in_flight := UI.in_flight st |}, [])
  | UI.Settle o =>
      match UI.in_flight st with
      | O => (st, [])
      | S _ => (UI.resume R o (UI.hook_settled R st), [])
      end
  end.
Proof.
  unfold UI.step, UI.handleSubmit. destruct ev as [ | value | o]; simpl.
  - destruct (UI.handleSubmit_in R cleared trim st st); reflexivity.
  - reflexivity.
  - destruct (UI.in_flight st); reflexivity.
Qed.

(** A handler that saw the flag up, or a blank input, does nothing. *)
Lemma handleSubmit_in_blocked {R : Type} (cleared : R) (trim : string -> string)
    (seen live : UI.State R) :
  UI.isPending seen = true \/ trim (UI.input seen) = "" ->
  UI.handleSubmit_in R cleared trim seen live = (live, []).
Proof.
  intros H. unfold UI.handleSubmit_in.
  destruct H as [H | H]; rewrite H.
  - rewrite orb_true_r. reflexivity.
  - reflexivity.
Qed.

Lemma handleSubmit_blocked {R : Type} (cleared : R) (trim : string -> string)
    (st : UI.State R) :
  UI.isPending st = true \/ trim (UI.input st) = "" ->
  UI.handleSubmit R cleared trim st = (st, []).
Proof. apply handleSubmit_in_blocked. Qed.

(** A handler that saw the flag down and a non-blank input issues its
    request, whatever the values are by then. *)
Lemma handleSubmit_in_accepts {R : Type} (cleared : R) (trim : string -> string)
    (seen live : UI.State R) :
  UI.isPending seen = false ->
  trim (UI.input seen) <> "" ->
  UI.handleSubmit_in R cleared trim seen live
  = ({| UI.input := UI.input live; UI.result := cleared; UI.error := None;
        UI.isPending := UI.isPending live; UI.in_flight := UI.in_flight live |},
     [ {| UI.fc_url := "/api/generate"; UI.fc_method := "POST";
          UI.fc_headers := [("Content-Type", "application/json")];
          UI.fc_body := JObject [("text", JString (UI.input seen))] |} ]).
Proof.
  intros Hp Ht. unfold UI.handleSubmit_in. rewrite Hp. simpl.
  apply String.eqb_neq in Ht. rewrite Ht. reflexivity.
Qed.

Lemma step_single_flight {R : Type} (cleared : R) (trim : string -> string)
    (st : UI.State R) (ev : UI.UIEvent R) :
  single_flight st -> single_flight (fst (UI.step R cleared trim st ev)).
Proof.
  intros Hinv. rewrite step_unfold. destruct ev as [ | value | o]; simpl.
  - unfold UI.handleSubmit, UI.handleSubmit_in.
    destruct (negb (truthy_str (Some (trim (UI.input st)))) || UI.isPending st) eqn:E; simpl.
    + exact Hinv.
    + apply orb_false_iff in E. destruct E as [_ E].
      destruct Hinv as [[Hp _] | [_ Hn]]; [rewrite Hp in E; discriminate E | ].
      left. simpl. rewrite Hn. split; reflexivity.
  - destruct Hinv as [[Hp Hn] | [Hp Hn]]; [left | right]; simpl; split; assumption.
  - destruct (UI.in_flight st) as [ | n] eqn:En; simpl.
    + exact Hinv.
    + destruct Hinv as [[Hp Hn] | [Hp Hn]]; rewrite En in Hn; [ | discriminate Hn].
      injection Hn as ->. right. destruct o; simpl; rewrite En; split; reflexivity.
Qed.

(** C9, on the code: the guard of [handleSubmit] does what the claim says
    of it (a submit whose handler saw the pending flag up, or a blank
    input, invokes no fetch and changes nothing), but the flag it reads is
    the one its render captured.  Two submit events that reach the handlers
    of one render, which saw the flag down and a non-blank input, both pass
    the guard: the second invokes the fetch again although the first
    request is pending and the hook's flag is already up. *)
Theorem C9_second_submit_before_rerender
    (R : Type) (cleared : R) (trim : string -> string) (pg : UI.Page R) :
  UI.isPending (UI.seen pg) = false ->
  trim (UI.input (UI.seen pg)) <> "" ->
  let call := {| UI.fc_url := "/api/generate"; UI.fc_method := "POST";
                 UI.fc_headers := [("Content-Type", "application/json")];
                 UI.fc_body := JObject [("text", JString (UI.input (UI.seen pg)))] |} in
  let first := UI.page_step R cleared trim pg (UI.Handle UI.Submit) in
  let second := UI.page_step R cleared trim (fst first) (UI.Handle UI.Submit) in
  (forall pg' : UI.Page R,
     UI.isPending (UI.seen pg') = true \/ trim (UI.input (UI.seen pg')) = "" ->
     UI.page_step R cleared trim pg' (UI.Handle UI.Submit) = (pg', [])) /\
  snd first = [call] /\
  UI.isPending (UI.live (fst first)) = true /\
  UI.in_flight (UI.live (fst first)) = (UI.in_flight (UI.live pg) + 1)%nat /\
  snd second = [call] /\
  UI.in_flight (UI.live (fst second)) = (UI.in_flight (UI.live pg) + 2)%nat.
Proof.
  intros Hp Ht call first second.
  split.
  - intros pg' H. simpl.
    rewrite (handleSubmit_in_blocked cleared trim (UI.seen pg') (UI.live pg') H).
    destruct pg'; reflexivity.
  - subst second first call. simpl.
    rewrite (handleSubmit_in_accepts cleared trim _ _ Hp Ht). simpl.
    rewrite (handleSubmit_in_accepts cleared trim _ _ Hp Ht). simpl.
    repeat split; lia.
Qed.

Lemma C9_witness :
  let evs := [UI.Handle (UI.Change "party"); UI.Render;
              UI.Handle UI.Submit; UI.Handle UI.Submit] in
  let final := UI.run (list GifResult) [] Sample.trim (UI.initial_page _ []) evs in
  List.length (snd final) = 2%nat /\
  UI.in_flight (UI.live (fst final)) = 2%nat.
Proof.
  cbv zeta.
  destruct (C9_second_submit_before_rerender (list GifResult) [] Sample.trim
              {| UI.live := {| UI.input := "party"; UI.result := []; UI.error := None;
                               UI.isPending := false; UI.in_flight := 0 |};
                 UI.seen := {| UI.input := "party"; UI.result := []; UI.error := None;
                               UI.isPending := false; UI.in_flight := 0 |} |})
    as (_ & H1 & _ & _ & H2 & Hn).
  - reflexivity.
  - intros E. discriminate E.
  - split.
    + change (List.length
                (snd (UI.page_step (list GifResult) [] Sample.trim
                        {| UI.live := {| UI.input := "party"; UI.result := [];
                                         UI.error := None; UI.isPending := false;
                                         UI.in_flight := 0 |};
                           UI.seen := {| UI.input := "party"; UI.result := [];
                                         UI.error := None; UI.isPending := false;
                                         UI.in_flight := 0 |} |}
                        (UI.Handle UI.Submit))
                 ++ snd (UI.page_step (list GifResult) [] Sample.trim
                           (fst (UI.page_step (list GifResult) [] Sample.trim
                                   {| UI.live := {| UI.input := "party"; UI.result := [];
                                                    UI.error := None; UI.isPending := false;
                                                    UI.in_flight := 0 |};
                                      UI.seen := {| UI.input := "party"; UI.result := [];
                                                    UI.error := None; UI.isPending := false;
                                                    UI.in_flight := 0 |} |}
                                   (UI.Handle UI.Submit)))
                           (UI.Handle UI.Submit))) = 2%nat).
      cbv zeta in H1, H2. rewrite H1, H2. reflexivity.
    + exact Hn.
Defined.

(** A session in which the form renders before every submit: a blank
    submission, a submission, a second one while the first is pending, the
    settlement, and a third submission.  Two requests are issued, the first
    and the third. *)
Example session_issues_two_requests :
  let evs := [UI.Handle (UI.Change "   "); UI.Render; UI.Handle UI.Submit;
              UI.Handle (UI.Change " party "); UI.Render; UI.Handle UI.Submit;
              UI.Render; UI.Handle UI.Submit;
              UI.Handle (UI.Settle (UI.Fulfilled [] : UI.Outcome (list GifResult)));
              UI.Render; UI.Handle UI.Submit] in
  let body' := JObject [("text", JString " party ")] in
  submits_rendered evs = true /\
  map UI.fc_body (snd (UI.run (list GifResult) [] Sample.trim (UI.initial_page _ []) evs))
  = [body'; body'].
Proof. split; reflexivity. Qed.

(* ------------------------------------------------------------------ *)
(** ** The handlers as case tables *)

(** The single-result handler, outcome by outcome of its outside calls. *)
Lemma Single_cases (w : World) (request : Request) :
  Single.POST w request =
  let t0 := [EvSettle (settle_args request)] in
  match settlePayment w (settle_args request) with
  | Throw _ => (generic_failure, t0)
  | Ok pr =>
      if negb (pr_status pr =? 200) then
        (Response_json (BodyPayment (responseBody pr)) (pr_status pr) (responseHeaders pr), t0)
      else
        match request_json request with
        | Throw _ => (generic_failure, t0)
        | Ok parsed =>
            match destructure_text parsed with
            | Throw _ => (generic_failure, t0)
            | Ok text =>
                if negb (truthy text) || negb (String.eqb (typeof text) "string") then
                  (Response_json (BodyError "Text input is required") 400 [], t0)
                else
                  let t1 := t0 ++ [EvGenerateObject "gpt-5-mini"
                                     (KeywordsPrompt (string_of text))] in
                  match languageModel w "gpt-5-mini" (KeywordsPrompt (string_of text)) with
                  | Throw _ => (generic_failure, t1)
                  | Ok out =>
                      match keywordsSchema out with
                      | None => (generic_failure, t1)
                      | Some object =>
                          if negb (truthy_str (GIPHY_API_KEY w)) then
                            (Response_json (BodyError "Giphy API key not configured") 500 [], t1)
                          else
                            let u := giphy_url (or_empty (GIPHY_API_KEY w))
                                       (Single.searchQuery object) "10" in
                            let t2 := t1 ++ [EvFetch u] in
                            match fetch w u with
                            | Throw _ => (generic_failure, t2)
                            | Ok resp =>
                                if negb (ok resp) then
                                  (Response_json (BodyError "Failed to fetch from Giphy") 500 [], t2)
                                else
                                  match json resp with
                                  | Throw _ => (generic_failure, t2)
                                  | Ok d =>
                                      match data d with
                                      | None =>
                                          (Response_json (BodyError "No GIF found") 404 [], t2)
                                      | Some [] =>
                                          (Response_json (BodyError "No GIF found") 404 [], t2)
                                      | Some (g0 :: rest) =>
                                          let gifs := g0 :: rest in
                                          let p := SelectPrompt (string_of text)
                                                     (gifOptions_of gifs) in
                                          let t3 := t2 ++ [EvGenerateObject "gpt-4o-mini" p] in
                                          match languageModel w "gpt-4o-mini" p with
                                          | Throw _ => (generic_failure, t3)
                                          | Ok out' =>
                                              match selectionSchema out' with
                                              | None => (generic_failure, t3)
                                              | Some selection =>
                                                  match selectedGif gifs selection with
                                                  | None => (generic_failure, t3)
                                                  | Some g =>
                                                      (Response_json
                                                         (BodyGif (single_result_for object
                                                                     selection g)) 200 [], t3)
                                                  end
                                              end
                                          end
                                      end
                                  end
                            end
                      end
                  end
            end
        end
  end.
Proof.
  open_handler. simpl.
  destruct (settlePayment w (settle_args request)) as [pr | e]; [ | reflexivity].
  destruct (negb (pr_status pr =? 200)); [reflexivity | ].
  destruct (request_json request) as [parsed | e]; [ | reflexivity]. simpl.
  destruct (destructure_text parsed) as [text | e]; [ | reflexivity]. simpl.
  destruct (negb (truthy text) || negb (String.eqb (typeof text) "string")); [reflexivity | ].
  simpl.
  destruct (languageModel w "gpt-5-mini" (KeywordsPrompt (string_of text))) as [out | e];
    [ | reflexivity].
  destruct (keywordsSchema out) as [object | ]; [ | reflexivity]. simpl.
  destruct (negb (truthy_str (GIPHY_API_KEY w))); [reflexivity | ]. simpl.
  destruct (fetch w _) as [resp | e]; [ | reflexivity].
  destruct (negb (ok resp)); [reflexivity | ]. simpl.
  destruct (json resp) as [d | e]; [ | reflexivity]. simpl.
  destruct (data d) as [[ | g0 rest] | ]; try reflexivity.
  change (Z.of_nat (List.length (g0 :: rest)) =? 0) with false. cbv beta iota.
  destruct (languageModel w "gpt-4o-mini" _) as [out' | e]; [ | reflexivity].
  destruct (selectionSchema out') as [selection | ]; [ | reflexivity]. simpl.
  destruct (selectedGif (g0 :: rest) selection); reflexivity.
Qed.

(** The multi-strategy handler, outcome by outcome of its outside calls. *)
Lemma Multi_cases (w : World) (request : Request) :
  Multi.POST w request =
  let t0 := [EvSettle (settle_args request)] in
  match settlePayment w (settle_args request) with
  | Throw _ => (generic_failure, t0)
  | Ok pr =>
      if negb (pr_status pr =? 200) then
        (Response_json (BodyPayment (responseBody pr)) (pr_status pr) (responseHeaders pr), t0)
      else
        match request_json request with
        | Throw _ => (generic_failure, t0)
        | Ok parsed =>
            match destructure_text parsed with
            | Throw _ => (generic_failure, t0)
            | Ok text =>
                if negb (truthy text) || negb (String.eqb (typeof text) "string") then
                  (Response_json (BodyError "Text input is required") 400 [], t0)
                else if negb (truthy_str (GIPHY_API_KEY w)) then
                  (Response_json (BodyError "Giphy API key not configured") 500 [], t0)
                else
                  let key := or_empty (GIPHY_API_KEY w) in
                  let t1 := t0 ++ [EvGenerateObject "gpt-4o-mini"
                                     (StrategiesPrompt (string_of text))] in
                  match languageModel w "gpt-4o-mini" (StrategiesPrompt (string_of text)) with
                  | Throw _ => (generic_failure, t1)
                  | Ok out =>
                      match strategiesSchema out with
                      | None => (generic_failure, t1)
                      | Some l =>
                          let t2 := t1 ++ map (search_call key) l in
                          match all_fulfilled (map (candidates w key) l) with
                          | Throw _ => (generic_failure, t2)
                          | Ok searchResults =>
                              let t3 := t2 ++ flat_map (select_calls (string_of text))
                                                searchResults in
                              match all_fulfilled
                                      (map (ranked w (string_of text)) searchResults) with
                              | Throw _ => (generic_failure, t3)
                              | Ok selections =>
                                  match filter_non_null selections with
                                  | [] => (Response_json (BodyError "No GIFs found") 404 [], t3)
                                  | validGifs =>
                                      (Response_json (BodyGifs validGifs) 200 [], t3)
                                  end
                              end
                          end
                      end
                  end
            end
        end
  end.
Proof.
  open_handler. simpl.
  destruct (settlePayment w (settle_args request)) as [pr | e]; [ | reflexivity].
  destruct (negb (pr_status pr =? 200)); [reflexivity | ].
  destruct (request_json request) as [parsed | e]; [ | reflexivity]. simpl.
  destruct (destructure_text parsed) as [text | e]; [ | reflexivity]. simpl.
  destruct (negb (truthy text) || negb (String.eqb (typeof text) "string")); [reflexivity | ].
  simpl.
  destruct (negb (truthy_str (GIPHY_API_KEY w))); [reflexivity | ]. simpl.
  destruct (languageModel w "gpt-4o-mini" (StrategiesPrompt (string_of text))) as [out | e];
    [ | reflexivity].
  destruct (strategiesSchema out) as [l | ]; [ | reflexivity].
  rewrite (Promise_all_map_run (Multi.search w (or_empty (GIPHY_API_KEY w)))
             (candidates w (or_empty (GIPHY_API_KEY w)))
             (fun s => [search_call (or_empty (GIPHY_API_KEY w)) s])
             (search_run w (or_empty (GIPHY_API_KEY w)))).
  rewrite flat_map_singleton.
  destruct (all_fulfilled (map (candidates w (or_empty (GIPHY_API_KEY w))) l))
    as [searchResults | e]; [ | reflexivity].
  rewrite (Promise_all_map_run (Multi.select w (string_of text)) (ranked w (string_of text))
             (select_calls (string_of text)) (select_run w (string_of text))).
  destruct (all_fulfilled (map (ranked w (string_of text)) searchResults))
    as [selections | e]; [ | reflexivity].
  destruct (filter_non_null selections) as [ | r rest]; reflexivity.
Qed.

(* ------------------------------------------------------------------ *)
(** ** Edge cases of the request body and of the configuration *)

(** X1: an empty string as [text] is rejected like a missing one: once
    settlement returns 200, both handlers answer 400 with
    [{ error: "Text input is required" }] and call neither the language
    model nor the search API. *)
Theorem X1_empty_text_is_400
    (w : World) (request : Request) (pr : PaymentResult) (body' : JSON) :
  settlePayment w (settle_args request) = Ok pr ->
  pr_status pr = 200 ->
  request_json request = Ok body' ->
  field_text body' = Some (JString "") ->
  Single.POST w request
  = (Response_json (BodyError "Text input is required") 400 [],
     [EvSettle (settle_args request)]) /\
  Multi.POST w request
  = (Response_json (BodyError "Text input is required") 400 [],
     [EvSettle (settle_args request)]).
Proof.
  intros Hs H200 Hj Hf.
  assert (Hd : destructure_text body' = Ok (Some (JString ""))).
  { rewrite destructure_field_text; [rewrite Hf; reflexivity | ].
    intros ->. discriminate Hf. }
  rewrite Single_cases, Multi_cases. cbv zeta.
  rewrite Hs, H200, Hj, Hd. split; reflexivity.
Qed.

Lemma X1_witness :
  Single.POST Sample.world (Sample.request (Some "proof") (Ok (JObject [("text", JString "")])))
  = (Response_json (BodyError "Text input is required") 400 [],
     [EvSettle (settle_args (Sample.request (Some "proof")
                               (Ok (JObject [("text", JString "")]))))]) /\
  Multi.POST Sample.world (Sample.request (Some "proof") (Ok (JObject [("text", JString "")])))
  = (Response_json (BodyError "Text input is required") 400 [],
     [EvSettle (settle_args (Sample.request (Some "proof")
                               (Ok (JObject [("text", JString "")]))))]).
Proof.
  apply (X1_empty_text_is_400 Sample.world _ Sample.settled (JObject [("text", JString "")]));
    reflexivity.
Defined.

(** X2: a body that is the JSON value [null] is not a validation error:
    destructuring it throws, and both handlers answer 500 with the generic
    failure body, having made no outside call but the settlement. *)
Theorem X2_null_body_is_500 (w : World) (request : Request) (pr : PaymentResult) :
  settlePayment w (settle_args request) = Ok pr ->
  pr_status pr = 200 ->
  request_json request = Ok JNull ->
  Single.POST w request
  = (Response_json (BodyError "Failed to generate GIF recommendation") 500 [],
     [EvSettle (settle_args request)]) /\
  Multi.POST w request
  = (Response_json (BodyError "Failed to generate GIF recommendation") 500 [],
     [EvSettle (settle_args request)]).
Proof.
  intros Hs H200 Hj. rewrite Single_cases, Multi_cases. cbv zeta.
  rewrite Hs, H200, Hj. split; reflexivity.
Qed.

Lemma X2_witness :
  Single.POST Sample.world (Sample.request (Some "proof") (Ok JNull))
  = (Response_json (BodyError "Failed to generate GIF recommendation") 500 [],
     [EvSettle (settle_args (Sample.request (Some "proof") (Ok JNull)))]) /\
  Multi.POST Sample.world (Sample.request (Some "proof") (Ok JNull))
  = (Response_json (BodyError "Failed to generate GIF recommendation") 500 [],
     [EvSettle (settle_args (Sample.request (Some "proof") (Ok JNull)))]).
Proof.
  apply (X2_null_body_is_500 Sample.world _ Sample.settled); reflexivity.
Defined.

(** X3: in the single-result handler a search answer that is not 2xx is
    an error, not an empty result: the handler answers 500 with
    [{ error: "Failed to fetch from Giphy" }] and makes no ranking call. *)
Theorem X3_single_failed_search_is_500
    (w : World) (request : Request) (text key : string) (object : KeywordsObject)
    (resp : FetchResponse) :
  settled_with_text w request text ->
  keywords_derived w text object ->
  key_configured w key ->
  fetch w (giphy_url key (Single.searchQuery object) "10") = Ok resp ->
  ok resp = false ->
  Single.POST w request
  = (Response_json (BodyError "Failed to fetch from Giphy") 500 [],
     [EvSettle (settle_args request);
      EvGenerateObject "gpt-5-mini" (KeywordsPrompt text);
      EvFetch (giphy_url key (Single.searchQuery object) "10")]).
Proof.
  intros Hst [Hm Hsch] Hkey Hf Hok.
  destruct (key_configured_truthy w key Hkey) as [Hk1 Hk2].
  destruct (settled_text_accepted _ _ _ Hst) as (pr & b & Hs & H200 & Hj & Hd & Ht).
  rewrite Single_cases. cbv zeta. rewrite Hs, H200, Hj, Hd. simpl. rewrite Ht. simpl.
  rewrite Hm, Hsch, Hk1, Hk2. simpl. rewrite Hf, Hok. reflexivity.
Qed.

Lemma X3_witness :
  let w := {| settlePayment := Sample.facilitator; GIPHY_API_KEY := Some "KEY";
              languageModel := Sample.model;
              fetch := fun _ => Ok {| ok := false; json := Throw SyntaxError |} |} in
  Single.POST w Sample.paid_request
  = (Response_json (BodyError "Failed to fetch from Giphy") 500 [],
     [EvSettle (settle_args Sample.paid_request);
      EvGenerateObject "gpt-5-mini" (KeywordsPrompt "it compiles");
      EvFetch (giphy_url "KEY" "facepalm cringe coding" "10")]).
Proof.
  cbv zeta.
  apply (X3_single_failed_search_is_500
           {| settlePayment := Sample.facilitator; GIPHY_API_KEY := Some "KEY";
              languageModel := Sample.model;
              fetch := fun _ => Ok {| ok := false; json := Throw SyntaxError |} |}
           Sample.paid_request "it compiles" "KEY"
           {| ko_keywords := ["facepalm"; "cringe"]; ko_topic := Some "coding";
              ko_reasoning := "reaction" |}
           {| ok := false; json := Throw SyntaxError |}).
  - apply Sample_settled_with_text. reflexivity.
  - split; reflexivity.
  - split; [reflexivity | intros E; discriminate E].
  - reflexivity.
  - reflexivity.
Defined.

(** X4: a search key that is set to the empty string counts as not set:
    the multi-strategy handler answers 500 with
    [{ error: "Giphy API key not configured" }] before any model call, and
    the single-result handler answers 500 without any search call. *)
Theorem X4_empty_key_is_not_configured (w : World) (request : Request) (text : string) :
  settled_with_text w request text ->
  GIPHY_API_KEY w = Some "" ->
  Multi.POST w request
  = (Response_json (BodyError "Giphy API key not configured") 500 [],
     [EvSettle (settle_args request)]) /\
  status (response_of (Single.POST w request)) = 500 /\
  calls_of (Single.POST w request)
  = [EvSettle (settle_args request); EvGenerateObject "gpt-5-mini" (KeywordsPrompt text)].
Proof.
  intros Hst Hkey.
  destruct (settled_text_accepted _ _ _ Hst) as (pr & b & Hs & H200 & Hj & Hd & Ht).
  rewrite Single_cases, Multi_cases. cbv zeta. rewrite Hs, H200, Hj, Hd. simpl.
  rewrite Ht, Hkey. simpl. split; [reflexivity | ].
  destruct (languageModel w "gpt-5-mini" (KeywordsPrompt text)) as [out | e];
    [ | split; reflexivity].
  destruct (keywordsSchema out); split; reflexivity.
Qed.

Lemma X4_witness :
  let w := {| settlePayment := Sample.facilitator; GIPHY_API_KEY := Some "";
              languageModel := Sample.model; fetch := Sample.giphy |} in
  Multi.POST w Sample.paid_request
  = (Response_json (BodyError "Giphy API key not configured") 500 [],
     [EvSettle (settle_args Sample.paid_request)]) /\
  status (response_of (Single.POST w Sample.paid_request)) = 500 /\
  calls_of (Single.POST w Sample.paid_request)
  = [EvSettle (settle_args Sample.paid_request);
     EvGenerateObject "gpt-5-mini" (KeywordsPrompt "it compiles")].
Proof.
  cbv zeta.
  apply (X4_empty_key_is_not_configured
           {| settlePayment := Sample.facilitator; GIPHY_API_KEY := Some "";
              languageModel := Sample.model; fetch := Sample.giphy |}
           Sample.paid_request "it compiles").
  - apply Sample_settled_with_text. reflexivity.
  - reflexivity.
Defined.

(* ------------------------------------------------------------------ *)
(** ** What a response with GIFs tells *)

Lemma keywordsSchema_inv (o : ModelOutput) (k : KeywordsObject) :
  keywordsSchema o = Some k ->
  o = OutKeywords k /\ (1 <= List.length (ko_keywords k) <= 3)%nat.
Proof.
  destruct o as [k' | l | s]; simpl; try discriminate.
  destruct (Z.leb_spec 1 (Z.of_nat (List.length (ko_keywords k')))) as [H1 | _];
    simpl; [ | discriminate].
  destruct (Z.leb_spec (Z.of_nat (List.length (ko_keywords k'))) 3) as [H3 | _];
    [ | discriminate].
  intros H. injection H as <-. split; [reflexivity | lia].
Qed.

Lemma strategiesSchema_inv (o : ModelOutput) (l : list Strategy) :
  strategiesSchema o = Some l ->
  o = OutStrategies l /\ List.length l = 3%nat /\
  Forall (fun s => (1 <= List.length (keywords s) <= 3)%nat) l.
Proof.
  intros H. pose proof (strategiesSchema_three o l H) as H3.
  destruct o as [k | l' | s]; simpl in H; try discriminate H.
  destruct (forallb strategy_ok l') eqn:Hall; simpl in H; [ | discriminate H].
  destruct (Z.of_nat (List.length l') =? 3); [ | discriminate H].
  injection H as <-. split; [reflexivity | split; [exact H3 | ]].
  apply Forall_forall. intros s Hin.
  rewrite forallb_forall in Hall. specialize (Hall s Hin).
  unfold strategy_ok in Hall. apply andb_true_iff in Hall. destruct Hall as [H1 H2].
  apply Z.leb_le in H1. apply Z.leb_le in H2. lia.
Qed.

Lemma selectionSchema_inv (o : ModelOutput) (s : Selection) :
  selectionSchema o = Some s -> o = OutSelection s /\ 0 <= selectedIndex s.
Proof.
  destruct o as [k | l | s']; simpl; try discriminate.
  destruct (Z.leb_spec 0 (selectedIndex s')) as [H0 | _]; [ | discriminate].
  destruct (selectedIndex s' <=? MAX_SAFE_INTEGER); [ | discriminate].
  intros H. injection H as <-. split; [reflexivity | exact H0].
Qed.

(** A search keeps the strategy it was made for. *)
Lemma candidates_strategy (w : World) (key : string) (s : Strategy)
    (sr : Multi.SearchResult) :
  candidates w key s = Ok sr -> Multi.strategy sr = s.
Proof.
  unfold candidates, Multi.search, do_fetch, bind, emit, lift, ret. simpl.
  destruct (fetch w (giphy_url key (Multi.searchQuery s) "5")) as [resp | e];
    [ | discriminate].
  destruct (ok resp); simpl.
  - destruct (json resp) as [d | e]; simpl; [ | discriminate].
    intros H. injection H as <-. reflexivity.
  - intros H. injection H as <-. reflexivity.
Qed.

Lemma searches_keep_strategies (w : World) (key : string) (l : list Strategy) :
  forall srs,
    all_fulfilled (map (candidates w key) l) = Ok srs ->
    map Multi.strategy srs = l.
Proof.
  induction l as [ | s rest IH]; intros srs H; simpl in H.
  - injection H as <-. reflexivity.
  - destruct (candidates w key s) as [sr | e] eqn:Ec; [ | discriminate H].
    destruct (all_fulfilled (map (candidates w key) rest)) as [srs' | e]; [ | discriminate H].
    injection H as <-. simpl.
    rewrite (candidates_strategy w key s sr Ec), (IH srs' eq_refl). reflexivity.
Qed.

Lemma all_fulfilled_pointwise {A B} (f : A -> Result B) (l : list A) :
  forall bs,
    all_fulfilled (map f l) = Ok bs ->
    Forall2 (fun a b => f a = Ok b) l bs.
Proof.
  induction l as [ | a rest IH]; intros bs H; simpl in H.
  - injection H as <-. constructor.
  - destruct (f a) as [b | e] eqn:Ef; [ | discriminate H].
    destruct (all_fulfilled (map f rest)) as [bs' | e]; [ | discriminate H].
    injection H as <-. constructor; [exact Ef | exact (IH bs' eq_refl)].
Qed.

Lemma with_candidates_incl (srs : list Multi.SearchResult) (sr : Multi.SearchResult) :
  In sr (with_candidates srs) -> In sr srs /\ Multi.gifs sr <> [].
Proof.
  unfold with_candidates. rewrite filter_In. intros [Hin Hn]. split; [exact Hin | ].
  unfold no_candidates in Hn. destruct (Multi.gifs sr); [discriminate Hn | ].
  intros E. discriminate E.
Qed.

(** The text test passes only on a non-empty string. *)
Lemma text_test_inv (v : JSValue) :
  negb (truthy v) || negb (String.eqb (typeof v) "string") = false ->
  v = Some (JString (string_of v)) /\ string_of v <> "".
Proof.
  destruct v as [[ | b | n | s | l | f] | ]; simpl; intros H;
    try discriminate H; try (rewrite orb_true_r in H; discriminate H).
  apply orb_false_iff in H. destruct H as [H _].
  apply negb_false_iff, negb_true_iff, String.eqb_neq in H.
  split; [reflexivity | exact H].
Qed.

Lemma destructure_text_inv (parsed : JSON) (v : JSValue) :
  destructure_text parsed = Ok v -> field_text parsed = v.
Proof.
  destruct parsed; simpl; intros H; try discriminate H; injection H as <-; reflexivity.
Qed.

Lemma truthy_key_configured (w : World) :
  negb (truthy_str (GIPHY_API_KEY w)) = false ->
  key_configured w (or_empty (GIPHY_API_KEY w)).
Proof.
  unfold key_configured. destruct (GIPHY_API_KEY w) as [k | ]; simpl; [ | discriminate].
  intros H. apply negb_false_iff, negb_true_iff, String.eqb_neq in H.
  split; [reflexivity | exact H].
Qed.

Lemma produced_keywords_bounded (l : list Strategy) (srs : list Multi.SearchResult)
    (results : list GifResult) :
  map Multi.strategy srs = l ->
  Forall (fun s => (1 <= List.length (keywords s) <= 3)%nat) l ->
  Forall2 produced_by (with_candidates srs) results ->
  Forall (fun r => (1 <= List.length (gr_keywords r) <= 3)%nat) results.
Proof.
  intros Hstr Hkw HF.
  assert (Hsrs : Forall (fun sr => (1 <= List.length (keywords (Multi.strategy sr)) <= 3)%nat)
                   (with_candidates srs)).
  { apply Forall_forall. intros sr Hin. apply with_candidates_incl in Hin.
    destruct Hin as [Hin _]. rewrite Forall_forall in Hkw. apply Hkw.
    rewrite <- Hstr. apply in_map. exact Hin. }
  induction HF as [ | sr r srs' rs Hp _ IH]; constructor.
  - destruct Hp as (_ & Hk & _). rewrite Hk. inversion Hsrs; assumption.
  - apply IH. inversion Hsrs; assumption.
Qed.

(** What the code makes of a search is what the search API answered. *)
Lemma candidates_answers (w : World) (key : string) (s : Strategy)
    (sr : Multi.SearchResult) :
  candidates w key s = Ok sr ->
  Multi.strategy sr = s /\ search_answers w key s (Multi.gifs sr).
Proof.
  unfold candidates, search_answers, Multi.search, do_fetch, bind, emit, lift, ret. simpl.
  destruct (fetch w (giphy_url key (Multi.searchQuery s) "5")) as [resp | e];
    [ | discriminate].
  destruct (ok resp) eqn:Hok; simpl.
  - destruct (json resp) as [[[found | ]] | e] eqn:Hj; simpl; [ | | discriminate].
    + intros H. injection H as <-. simpl. split; [reflexivity | ].
      exists resp. split; [reflexivity | ]. right. right. split; [exact Hok | exact Hj].
    + intros H. injection H as <-. simpl. split; [reflexivity | ].
      exists resp. split; [reflexivity | ]. right. left.
      split; [exact Hok | split; [exact Hj | reflexivity]].
  - intros H. injection H as <-. simpl. split; [reflexivity | ].
    exists resp. split; [reflexivity | ]. left. split; [exact Hok | reflexivity].
Qed.

Lemma Forall2_In_r {A B} (P : A -> B -> Prop) (l : list A) (l' : list B) (b : B) :
  Forall2 P l l' -> In b l' -> exists a, In a l /\ P a b.
Proof.
  induction 1 as [ | a b' l0 l0' HP _ IH]; intros Hin; [contradiction Hin | ].
  destruct Hin as [<- | Hin].
  - exists a. split; [left; reflexivity | exact HP].
  - destruct (IH Hin) as (a' & Ha' & HP'). exists a'. split; [right; exact Ha' | exact HP'].
Qed.

Lemma Forall2_In_l {A B} (P : A -> B -> Prop) (l : list A) (l' : list B) (a : A) :
  Forall2 P l l' -> In a l -> exists b, In b l' /\ P a b.
Proof.
  induction 1 as [ | a' b l0 l0' HP _ IH]; intros Hin; [contradiction Hin | ].
  destruct Hin as [<- | Hin].
  - exists b. split; [left; reflexivity | exact HP].
  - destruct (IH Hin) as (b' & Hb' & HP'). exists b'. split; [right; exact Hb' | exact HP'].
Qed.

Lemma produced_shows_answer (w : World) (key : string) (s : Strategy)
    (sr : Multi.SearchResult) (r : GifResult) :
  Multi.strategy sr = s ->
  search_answers w key s (Multi.gifs sr) ->
  produced_by sr r ->
  shows_answer_for w key s r.
Proof.
  intros Hs (resp & Hf & Hcase) (Hp & Hk & Ht & g & Hin & Hu & Hti).
  rewrite Hs in Hp, Hk, Ht.
  split; [exact Hp | split; [exact Hk | split; [exact Ht | ]]].
  destruct Hcase as [[_ Hnil] | [(_ & _ & Hnil) | [Hok Hj]]].
  - rewrite Hnil in Hin. contradiction Hin.
  - rewrite Hnil in Hin. contradiction Hin.
  - exists resp, (Multi.gifs sr), g. repeat split; assumption.
Qed.

(** X5: whatever the world answers, a response of the multi-strategy
    handler that carries GIFs was produced after a settled payment, for a
    non-empty text, with the search key set and three strategies that pass
    the schema; it answers 200 and lists exactly one result for each
    strategy whose search found candidates, in the order of the strategies.
    Each result carries the perspective, keywords (between one and three)
    and topic of its strategy, and its url and title are those of a
    candidate that the search API returned, in a 2xx answer, for the query
    of that very strategy. *)
Theorem X5_multi_gifs_come_from_their_strategies
    (w : World) (request : Request) (results : list GifResult) :
  body (response_of (Multi.POST w request)) = BodyGifs results ->
  status (response_of (Multi.POST w request)) = 200 /\
  results <> [] /\
  exists text key strategies searchResults,
    settled_with_text w request text /\
    key_configured w key /\
    strategies_derived w text strategies /\
    List.length strategies = 3%nat /\
    Forall2 (fun s sr => Multi.strategy sr = s /\ search_answers w key s (Multi.gifs sr))
      strategies searchResults /\
    Forall2 produced_by (with_candidates searchResults) results /\
    Forall (fun r => exists s, In s strategies /\ shows_answer_for w key s r) results /\
    Forall (fun r => (1 <= List.length (gr_keywords r) <= 3)%nat) results.
Proof.
  rewrite Multi_cases. cbv zeta. unfold response_of.
  destruct (settlePayment w (settle_args request)) as [pr | e] eqn:Hs; [ | discriminate].
  destruct (negb (pr_status pr =? 200)) eqn:H200; [discriminate | ].
  destruct (request_json request) as [parsed | e] eqn:Hj; [ | discriminate].
  destruct (destructure_text parsed) as [text | e] eqn:Hd; [ | discriminate].
  destruct (negb (truthy text) || negb (String.eqb (typeof text) "string")) eqn:Ht;
    [discriminate | ].
  destruct (negb (truthy_str (GIPHY_API_KEY w))) eqn:Hk; [discriminate | ].
  destruct (languageModel w "gpt-4o-mini" (StrategiesPrompt (string_of text)))
    as [out | e] eqn:Hm; [ | discriminate].
  destruct (strategiesSchema out) as [l | ] eqn:Hsch; [ | discriminate].
  destruct (all_fulfilled (map (candidates w (or_empty (GIPHY_API_KEY w))) l))
    as [srs | e] eqn:Hsr; [ | discriminate].
  destruct (all_fulfilled (map (ranked w (string_of text)) srs)) as [sels | e] eqn:Hsel;
    [ | discriminate].
  pose proof (rankings_produced w (string_of text) srs sels Hsel) as HF.
  destruct (filter_non_null sels) as [ | r rest] eqn:Hv; [discriminate | ].
  simpl. intros H. injection H as <-.
  split; [reflexivity | split; [intros E; discriminate E | ]].
  destruct (text_test_inv text Ht) as [Htext Hne].
  destruct (strategiesSchema_inv out l Hsch) as (-> & Hlen & Hkw).
  assert (Hanswers : Forall2 (fun s sr => Multi.strategy sr = s /\
                                search_answers w (or_empty (GIPHY_API_KEY w)) s (Multi.gifs sr))
                       l srs).
  { pose proof (all_fulfilled_pointwise _ l srs Hsr) as HP.
    clear - HP. induction HP as [ | s sr l' srs' Hc _ IH]; constructor; [ | exact IH].
    exact (candidates_answers w _ s sr Hc). }
  exists (string_of text), (or_empty (GIPHY_API_KEY w)), l, srs.
  split; [ | split; [exact (truthy_key_configured w Hk)
                    | split; [ | split; [exact Hlen
                                        | split; [exact Hanswers
                                                 | split; [exact HF | split]]]]]].
  - exists pr, parsed. apply negb_false_iff, Z.eqb_eq in H200.
    repeat split; try assumption.
    rewrite (destructure_text_inv parsed text Hd). exact Htext.
  - split; [exact Hm | exact Hsch].
  - apply Forall_forall. intros r' Hin.
    destruct (Forall2_In_r _ _ _ r' HF Hin) as (sr & Hsr_in & Hp).
    apply with_candidates_incl in Hsr_in. destruct Hsr_in as [Hsr_in _].
    destruct (Forall2_In_r _ _ _ sr Hanswers Hsr_in) as (s & Hs_in & Hstr & Hans).
    exists s. split; [exact Hs_in | ].
    exact (produced_shows_answer w _ s sr r' Hstr Hans Hp).
  - pose proof (searches_keep_strategies w _ l srs Hsr) as Hstr.
    apply (produced_keywords_bounded l srs (r :: rest) Hstr Hkw HF).
Qed.

Lemma X5_witness :
  status (response_of (Multi.POST Sample.world Sample.paid_request)) = 200 /\
  exists r1 r2 : GifResult,
    body (response_of (Multi.POST Sample.world Sample.paid_request)) = BodyGifs [r1; r2] /\
    (exists s, shows_answer_for Sample.world "KEY" s r1) /\
    (exists s, shows_answer_for Sample.world "KEY" s r2).
Proof.
  destruct (X5_multi_gifs_come_from_their_strategies Sample.world Sample.paid_request
              [result_for Sample.s_emotional {| selectedIndex := 1; sel_reasoning := "best" |}
                 (Sample.gif "phew");
               result_for Sample.s_sarcastic {| selectedIndex := 1; sel_reasoning := "best" |}
                 (Sample.gif "clap")])
    as (H200 & _ & text & key & l & srs & _ & Hkey & _ & _ & _ & _ & Hshow & _).
  - reflexivity.
  - split; [exact H200 | ]. eexists. eexists. split; [reflexivity | ].
    destruct Hkey as [Hk _]. injection Hk as <-.
    inversion Hshow as [ | r1 rs (s1 & _ & H1) Hrest]; subst.
    inversion Hrest as [ | r2 rs' (s2 & _ & H2) _]; subst.
    split; [exists s1; exact H1 | exists s2; exact H2].
Defined.

(** X6: whatever the world answers, a response of the single-result
    handler that carries a GIF was produced after a settled payment, for a
    non-empty text, with the search key set; it answers 200, its keywords
    (between one and three) and topic are those the keyword model gave,
    and its url and title are those of a candidate the search returned. *)
Theorem X6_single_gif_comes_from_the_search
    (w : World) (request : Request) (r : GifResult) :
  body (response_of (Single.POST w request)) = BodyGif r ->
  status (response_of (Single.POST w request)) = 200 /\
  exists text key object found selection g,
    settled_with_text w request text /\
    key_configured w key /\
    keywords_derived w text object /\
    single_search_finds w key object (Some found) /\
    0 <= selectedIndex selection /\
    selectedGif found selection = Some g /\
    In g found /\
    r = single_result_for object selection g /\
    (1 <= List.length (gr_keywords r) <= 3)%nat.
Proof.
  rewrite Single_cases. cbv zeta. unfold response_of.
  destruct (settlePayment w (settle_args request)) as [pr | e] eqn:Hs; [ | discriminate].
  destruct (negb (pr_status pr =? 200)) eqn:H200; [discriminate | ].
  destruct (request_json request) as [parsed | e] eqn:Hj; [ | discriminate].
  destruct (destructure_text parsed) as [text | e] eqn:Hd; [ | discriminate].
  destruct (negb (truthy text) || negb (String.eqb (typeof text) "string")) eqn:Ht;
    [discriminate | ].
  destruct (languageModel w "gpt-5-mini" (KeywordsPrompt (string_of text)))
    as [out | e] eqn:Hm; [ | discriminate].
  destruct (keywordsSchema out) as [object | ] eqn:Hsch; [ | discriminate].
  destruct (negb (truthy_str (GIPHY_API_KEY w))) eqn:Hk; [discriminate | ].
  destruct (fetch w (giphy_url (or_empty (GIPHY_API_KEY w)) (Single.searchQuery object) "10"))
    as [resp | e] eqn:Hf; [ | discriminate].
  destruct (negb (ok resp)) eqn:Hok; [discriminate | ].
  destruct (json resp) as [d | e] eqn:Hjs; [ | discriminate].
  destruct d as [found]. simpl.
  destruct found as [[ | g0 rest] | ]; try discriminate.
  destruct (languageModel w "gpt-4o-mini"
              (SelectPrompt (string_of text) (gifOptions_of (g0 :: rest))))
    as [out' | e] eqn:Hm'; [ | discriminate].
  destruct (selectionSchema out') as [selection | ] eqn:Hsch'; [ | discriminate].
  destruct (selectedGif (g0 :: rest) selection) as [g | ] eqn:Hsel; [ | discriminate].
  simpl. intros H. injection H as <-. split; [reflexivity | ].
  destruct (text_test_inv text Ht) as [Htext Hne].
  destruct (keywordsSchema_inv out object Hsch) as [-> Hb].
  destruct (selectionSchema_inv out' selection Hsch') as [_ Hidx].
  exists (string_of text), (or_empty (GIPHY_API_KEY w)), object, (g0 :: rest), selection, g.
  repeat split; try assumption.
  - exists pr, parsed. apply negb_false_iff, Z.eqb_eq in H200.
    repeat split; try assumption.
    rewrite (destructure_text_inv parsed text Hd). exact Htext.
  - destruct (truthy_key_configured w Hk) as [H _]. exact H.
  - destruct (truthy_key_configured w Hk) as [_ H]. exact H.
  - exists resp. apply negb_false_iff in Hok. repeat split; assumption.
  - exact (selectedGif_In _ _ _ Hsel).
  - apply Hb.
  - apply Hb.
Qed.

Lemma X6_witness :
  status (response_of (Single.POST Sample.world Sample.paid_request)) = 200.
Proof.
  destruct (X6_single_gif_comes_from_the_search Sample.world Sample.paid_request
              (single_result_for
                 {| ko_keywords := ["facepalm"; "cringe"]; ko_topic := Some "coding";
                    ko_reasoning := "reaction" |}
                 {| selectedIndex := 7; sel_reasoning := "best" |}
                 (Sample.gif "clap")))
    as [H200 _].
  - reflexivity.
  - exact H200.
Defined.

(* ------------------------------------------------------------------ *)
(** ** One thrown error fails the whole multi-strategy request *)

Lemma all_fulfilled_throws {A B} (f : A -> Result B) (l : list A) (a : A) (e : Error) :
  In a l -> f a = Throw e -> exists e', all_fulfilled (map f l) = Throw e'.
Proof.
  induction l as [ | a' rest IH]; intros Hin Hf; [contradiction Hin | ].
  simpl. destruct Hin as [-> | Hin].
  - rewrite Hf. exists e. reflexivity.
  - destruct (f a') as [b | e0]; [ | exists e0; reflexivity].
    destruct (IH Hin Hf) as [e' He']. rewrite He'. exists e'. reflexivity.
Qed.

Lemma all_fulfilled_of_pointwise {A B} (f : A -> Result B) (l : list A) (bs : list B) :
  Forall2 (fun a b => f a = Ok b) l bs -> all_fulfilled (map f l) = Ok bs.
Proof.
  induction 1 as [ | a b l' bs' Hf _ IH]; simpl; [reflexivity | ].
  rewrite Hf, IH. reflexivity.
Qed.

Lemma search_throws_candidates (w : World) (key : string) (s : Strategy) :
  search_throws w key s -> exists e, candidates w key s = Throw e.
Proof.
  unfold candidates, Multi.search, do_fetch, bind, emit, lift, ret. simpl.
  intros [[e Hf] | (resp & e & Hf & Hok & Hj)]; rewrite Hf.
  - exists e. reflexivity.
  - rewrite Hok. simpl. rewrite Hj. exists e. reflexivity.
Qed.

Lemma ranking_throws_ranked (w : World) (text : string) (sr : Multi.SearchResult) :
  ranking_throws w text sr -> exists e, ranked w text sr = Throw e.
Proof.
  intros [Hne H]. unfold ranked, Multi.select.
  destruct (Multi.gifs sr) as [ | g0 rest] eqn:Eg; [contradiction Hne; reflexivity | ].
  change (Z.of_nat (List.length (g0 :: rest)) =? 0) with false. cbv beta iota.
  unfold bind. rewrite generateObject_run.
  destruct H as [[e Hm] | (out & Hm & Hsch)]; rewrite Hm.
  - exists e. reflexivity.
  - rewrite Hsch. exists SchemaError. reflexivity.
Qed.

(** X7: in the multi-strategy handler a search that throws (a rejected
    fetch, or a 2xx answer whose body is not JSON) is not tolerated like a
    non-2xx answer: the handler answers the generic 500 although every
    search of the request was started, and no ranking call is made. *)
Theorem X7_multi_search_throw_fails_request
    (w : World) (request : Request) (text key : string) (l : list Strategy) (s : Strategy) :
  settled_with_text w request text ->
  key_configured w key ->
  strategies_derived w text l ->
  In s l ->
  search_throws w key s ->
  Multi.POST w request
  = (Response_json (BodyError "Failed to generate GIF recommendation") 500 [],
     [EvSettle (settle_args request);
      EvGenerateObject "gpt-4o-mini" (StrategiesPrompt text)]
     ++ map (search_call key) l).
Proof.
  intros Hst Hkey Hstr Hin Hthrow.
  rewrite (Multi_run w request text key l Hst Hkey Hstr). cbv zeta.
  destruct (search_throws_candidates w key s Hthrow) as [e He].
  destruct (all_fulfilled_throws (candidates w key) l s e Hin He) as [e' He'].
  rewrite He'. reflexivity.
Qed.

Lemma X7_witness :
  let w := {| settlePayment := Sample.facilitator; GIPHY_API_KEY := Some "KEY";
              languageModel := Sample.model;
              fetch := fun u =>
                if String.eqb u (giphy_url "KEY" (Multi.searchQuery Sample.s_literal) "5")
                then Throw (UpstreamError "network") else Sample.giphy u |} in
  Multi.POST w Sample.paid_request
  = (Response_json (BodyError "Failed to generate GIF recommendation") 500 [],
     [EvSettle (settle_args Sample.paid_request);
      EvGenerateObject "gpt-4o-mini" (StrategiesPrompt "it compiles");
      search_call "KEY" Sample.s_emotional;
      search_call "KEY" Sample.s_literal;
      search_call "KEY" Sample.s_sarcastic]).
Proof.
  cbv zeta.
  apply (X7_multi_search_throw_fails_request _ Sample.paid_request "it compiles" "KEY"
           [Sample.s_emotional; Sample.s_literal; Sample.s_sarcastic] Sample.s_literal).
  - apply Sample_settled_with_text. reflexivity.
  - split; [reflexivity | intros E; discriminate E].
  - split; reflexivity.
  - right. left. reflexivity.
  - left. exists (UpstreamError "network"). reflexivity.
Defined.

(** X8: likewise a ranking that throws (the model call is rejected, or
    its answer fails the selection schema, as a negative index does) fails
    the whole request with the generic 500, whatever the other strategies
    found; every ranking of the request was started. *)
Theorem X8_multi_ranking_throw_fails_request
    (w : World) (request : Request) (text key : string) (l : list Strategy)
    (srs : list Multi.SearchResult) (sr : Multi.SearchResult) :
  settled_with_text w request text ->
  key_configured w key ->
  strategies_derived w text l ->
  Forall2 (fun s sr' => candidates w key s = Ok sr') l srs ->
  In sr srs ->
  ranking_throws w text sr ->
  Multi.POST w request
  = (Response_json (BodyError "Failed to generate GIF recommendation") 500 [],
     ([EvSettle (settle_args request);
       EvGenerateObject "gpt-4o-mini" (StrategiesPrompt text)]
      ++ map (search_call key) l)
     ++ flat_map (select_calls text) srs).
Proof.
  intros Hst Hkey Hstr Hall Hin Hthrow.
  rewrite (Multi_run w request text key l Hst Hkey Hstr). cbv zeta.
  rewrite (all_fulfilled_of_pointwise _ l srs Hall).
  destruct (ranking_throws_ranked w text sr Hthrow) as [e He].
  destruct (all_fulfilled_throws (ranked w text) srs sr e Hin He) as [e' He'].
  rewrite He'. reflexivity.
Qed.

Lemma X8_witness :
  let w := {| settlePayment := Sample.facilitator; GIPHY_API_KEY := Some "KEY";
              languageModel := fun m p =>
                match p with
                | PerspectiveSelectPrompt sarcastic _ _ =>
                    Ok (OutSelection {| selectedIndex := -1; sel_reasoning := "none" |})
                | _ => Sample.model m p
                end;
              fetch := Sample.giphy |} in
  response_of (Multi.POST w Sample.paid_request)
  = Response_json (BodyError "Failed to generate GIF recommendation") 500 [] /\
  List.length (filter is_model_call (calls_of (Multi.POST w Sample.paid_request))) = 3%nat.
Proof.
  cbv zeta.
  rewrite (X8_multi_ranking_throw_fails_request _ Sample.paid_request "it compiles" "KEY"
             [Sample.s_emotional; Sample.s_literal; Sample.s_sarcastic]
             [ {| Multi.strategy := Sample.s_emotional;
                  Multi.gifs := [Sample.gif "sigh"; Sample.gif "phew"] |};
               {| Multi.strategy := Sample.s_literal; Multi.gifs := [] |};
               {| Multi.strategy := Sample.s_sarcastic; Multi.gifs := [Sample.gif "clap"] |} ]
             {| Multi.strategy := Sample.s_sarcastic; Multi.gifs := [Sample.gif "clap"] |}).
  - split; reflexivity.
  - apply Sample_settled_with_text. reflexivity.
  - split; [reflexivity | intros E; discriminate E].
  - split; reflexivity.
  - repeat constructor.
  - right. right. left. reflexivity.
  - split; [intros E; discriminate E | ].
    right. eexists. split; reflexivity.
Defined.

(* ------------------------------------------------------------------ *)
(** ** Outside calls: what is called, when, and how often *)

Lemma settled_with_text_intro (w : World) (request : Request) (pr : PaymentResult)
    (parsed : JSON) (text : JSValue) :
  settlePayment w (settle_args request) = Ok pr ->
  negb (pr_status pr =? 200) = false ->
  request_json request = Ok parsed ->
  destructure_text parsed = Ok text ->
  negb (truthy text) || negb (String.eqb (typeof text) "string") = false ->
  settled_with_text w request (string_of text).
Proof.
  intros Hs H200 Hj Hd Ht.
  destruct (text_test_inv text Ht) as [Htext Hne].
  exists pr, parsed. apply negb_false_iff, Z.eqb_eq in H200.
  repeat split; try assumption.
  rewrite (destructure_text_inv parsed text Hd). exact Htext.
Qed.

Lemma no_paid_work_in_searches (key : string) (l : list Strategy) :
  existsb is_model_call (map (search_call key) l) = false /\
  existsb is_settle_call (map (search_call key) l) = false /\
  filter is_search_call (map (search_call key) l) = map (search_call key) l /\
  filter is_model_call (map (search_call key) l) = [].
Proof.
  induction l as [ | s rest (IH1 & IH2 & IH3 & IH4)]; simpl; repeat split;
    try assumption; try reflexivity.
  rewrite IH3. reflexivity.
Qed.

Lemma select_calls_kinds (text : string) (srs : list Multi.SearchResult) :
  existsb is_settle_call (flat_map (select_calls text) srs) = false /\
  filter is_search_call (flat_map (select_calls text) srs) = [] /\
  (List.length (flat_map (select_calls text) srs) <= List.length srs)%nat.
Proof.
  induction srs as [ | sr rest (IH1 & IH2 & IH3)]; simpl; [repeat split; reflexivity | ].
  unfold select_calls at 1 3 5. destruct (no_candidates sr); simpl.
  - repeat split; try assumption. lia.
  - repeat split; try assumption. lia.
Qed.

(** X9: neither handler does paid work for a request it has not been paid
    for or that carries no text: whenever a language-model call or a search
    call appears among the outside calls of a request, settlement returned
    200 and the body's [text] is a non-empty string; and whenever a search
    call appears, the search key is set. *)
Theorem X9_paid_work_needs_payment_and_text (w : World) (request : Request) :
  (existsb is_paid_work (calls_of (Single.POST w request)) = true ->
   exists text, settled_with_text w request text) /\
  (existsb is_paid_work (calls_of (Multi.POST w request)) = true ->
   exists text, settled_with_text w request text) /\
  (existsb is_search_call (calls_of (Single.POST w request)) = true ->
   exists key, key_configured w key) /\
  (existsb is_search_call (calls_of (Multi.POST w request)) = true ->
   exists key, key_configured w key).
Proof.
  rewrite Single_cases, Multi_cases. cbv zeta. unfold calls_of.
  destruct (settlePayment w (settle_args request)) as [pr | e] eqn:Hs;
    [ | repeat split; discriminate].
  destruct (negb (pr_status pr =? 200)) eqn:H200; [repeat split; discriminate | ].
  destruct (request_json request) as [parsed | e] eqn:Hj; [ | repeat split; discriminate].
  destruct (destructure_text parsed) as [text | e] eqn:Hd; [ | repeat split; discriminate].
  destruct (negb (truthy text) || negb (String.eqb (typeof text) "string")) eqn:Ht;
    [repeat split; discriminate | ].
  pose proof (settled_with_text_intro w request pr parsed text Hs H200 Hj Hd Ht) as Hst.
  split; [intros _; eexists; exact Hst | ].
  split; [intros _; eexists; exact Hst | ].
  destruct (negb (truthy_str (GIPHY_API_KEY w))) eqn:Hk.
  - split; [ | discriminate].
    destruct (languageModel w "gpt-5-mini" (KeywordsPrompt (string_of text)));
      [ | discriminate].
    destruct (keywordsSchema _); discriminate.
  - split; intros _; eexists; exact (truthy_key_configured w Hk).
Qed.

Example unpaid_request_costs_nothing :
  existsb is_paid_work (calls_of (Single.POST Sample.world Sample.unpaid_request_without_text))
  = false /\
  existsb is_paid_work (calls_of (Multi.POST Sample.world Sample.unpaid_request_without_text))
  = false /\
  existsb is_paid_work (calls_of (Multi.POST Sample.world Sample.paid_request)) = true.
Proof. repeat split. Qed.

Lemma length_filter_le {A} (p : A -> bool) (l : list A) :
  (List.length (filter p l) <= List.length l)%nat.
Proof.
  induction l as [ | a rest IH]; simpl; [lia | ]. destruct (p a); simpl; lia.
Qed.

(** X10: every request starts with exactly one settlement call and none
    follows; after it the single-result handler makes at most two model
    calls and one search, and the multi-strategy handler at most four
    model calls and three searches: no handler repeats a call. *)
Theorem X10_call_budget (w : World) (request : Request) :
  (exists rest,
     calls_of (Single.POST w request) = EvSettle (settle_args request) :: rest /\
     existsb is_settle_call rest = false /\
     (List.length (filter is_model_call rest) <= 2)%nat /\
     (List.length (filter is_search_call rest) <= 1)%nat) /\
  (exists rest,
     calls_of (Multi.POST w request) = EvSettle (settle_args request) :: rest /\
     existsb is_settle_call rest = false /\
     (List.length (filter is_model_call rest) <= 4)%nat /\
     (List.length (filter is_search_call rest) <= 3)%nat).
Proof.
  split.
  - rewrite Single_cases. cbv zeta. unfold calls_of.
    split_cases; eexists; (split; [reflexivity | ]); simpl; repeat split; lia.
  - rewrite Multi_cases. cbv zeta. unfold calls_of.
    destruct (settlePayment w (settle_args request)) as [pr | e];
      [ | eexists; (split; [reflexivity | ]); simpl; repeat split; lia].
    destruct (negb (pr_status pr =? 200));
      [eexists; (split; [reflexivity | ]); simpl; repeat split; lia | ].
    destruct (request_json request) as [parsed | e];
      [ | eexists; (split; [reflexivity | ]); simpl; repeat split; lia].
    destruct (destructure_text parsed) as [text | e];
      [ | eexists; (split; [reflexivity | ]); simpl; repeat split; lia].
    destruct (negb (truthy text) || negb (String.eqb (typeof text) "string"));
      [eexists; (split; [reflexivity | ]); simpl; repeat split; lia | ].
    destruct (negb (truthy_str (GIPHY_API_KEY w)));
      [eexists; (split; [reflexivity | ]); simpl; repeat split; lia | ].
    destruct (languageModel w "gpt-4o-mini" (StrategiesPrompt (string_of text)))
      as [out | e]; [ | eexists; (split; [reflexivity | ]); simpl; repeat split; lia].
    destruct (strategiesSchema out) as [l | ] eqn:Hsch;
      [ | eexists; (split; [reflexivity | ]); simpl; repeat split; lia].
    apply strategiesSchema_three in Hsch.
    destruct (no_paid_work_in_searches (or_empty (GIPHY_API_KEY w)) l)
      as (Hs1 & Hs2 & Hs3 & Hs4).
    assert (Hsearches :
              existsb is_settle_call (map (search_call (or_empty (GIPHY_API_KEY w))) l) = false /\
              (List.length (filter is_model_call
                              (EvGenerateObject "gpt-4o-mini" (StrategiesPrompt (string_of text))
                               :: map (search_call (or_empty (GIPHY_API_KEY w))) l)) <= 4)%nat /\
              (List.length (filter is_search_call
                              (EvGenerateObject "gpt-4o-mini" (StrategiesPrompt (string_of text))
                               :: map (search_call (or_empty (GIPHY_API_KEY w))) l)) <= 3)%nat).
    { simpl. rewrite Hs3, Hs4, length_map, Hsch. simpl. repeat split; [exact Hs2 | lia | lia]. }
    destruct (all_fulfilled (map (candidates w (or_empty (GIPHY_API_KEY w))) l))
      as [srs | e] eqn:Hsr;
      [ | eexists; (split; [reflexivity | ]); exact Hsearches].
    apply all_fulfilled_length in Hsr. rewrite length_map, Hsch in Hsr.
    destruct (select_calls_kinds (string_of text) srs) as (Hr1 & Hr2 & Hr3).
    assert (Hall :
              exists rest,
                ([EvSettle (settle_args request)]
                 ++ [EvGenerateObject "gpt-4o-mini" (StrategiesPrompt (string_of text))])
                ++ map (search_call (or_empty (GIPHY_API_KEY w))) l
                ++ flat_map (select_calls (string_of text)) srs
                = EvSettle (settle_args request) :: rest /\
                existsb is_settle_call rest = false /\
                (List.length (filter is_model_call rest) <= 4)%nat /\
                (List.length (filter is_search_call rest) <= 3)%nat).
    { eexists. split; [reflexivity | ]. simpl.
      rewrite existsb_app, !filter_app, !length_app, Hs2, Hr1, Hs3, Hs4, Hr2, length_map, Hsch.
      simpl. pose proof (length_filter_le is_model_call
                           (flat_map (select_calls (string_of text)) srs)).
      repeat split; lia. }
    rewrite <- !app_assoc.
    destruct (all_fulfilled (map (ranked w (string_of text)) srs)) as [sels | e];
      [ | exact Hall].
    destruct (filter_non_null sels); exact Hall.
Qed.

(* ------------------------------------------------------------------ *)
(** ** The not-found answers *)

Lemma no_results_no_candidates (w : World) (text : string)
    (srs : list Multi.SearchResult) (sels : list (option GifResult)) :
  all_fulfilled (map (ranked w text) srs) = Ok sels ->
  filter_non_null sels = [] ->
  Forall (fun sr => Multi.gifs sr = []) srs.
Proof.
  intros Hsel Hv. pose proof (rankings_produced w text srs sels Hsel) as HF.
  rewrite Hv in HF. inversion HF as [Hnil | ]. clear HF.
  apply Forall_forall. intros sr Hin.
  destruct (Multi.gifs sr) as [ | g rest] eqn:Eg; [reflexivity | exfalso].
  assert (Hw : In sr (with_candidates srs)).
  { unfold with_candidates. apply filter_In. split; [exact Hin | ].
    unfold no_candidates. rewrite Eg. reflexivity. }
  rewrite <- Hnil in Hw. contradiction Hw.
Qed.

(** X11: the not-found answers are given only when the searches went
    through and found nothing: the single-result handler answers
    [{ error: "No GIF found" }] only after a 2xx search answer without
    candidates, and the multi-strategy handler answers
    [{ error: "No GIFs found" }] only when the searches of all three
    strategies yielded no candidates; both answers have status 404. *)
Theorem X11_not_found_means_nothing_found (w : World) (request : Request) :
  (body (response_of (Single.POST w request)) = BodyError "No GIF found" ->
   status (response_of (Single.POST w request)) = 404 /\
   exists text key object found,
     settled_with_text w request text /\
     key_configured w key /\
     keywords_derived w text object /\
     single_search_finds w key object found /\
     (found = None \/ found = Some [])) /\
  (body (response_of (Multi.POST w request)) = BodyError "No GIFs found" ->
   status (response_of (Multi.POST w request)) = 404 /\
   exists text key strategies,
     settled_with_text w request text /\
     key_configured w key /\
     strategies_derived w text strategies /\
     List.length strategies = 3%nat /\
     Forall (fun s => yields w key s []) strategies).
Proof.
  split.
  - rewrite Single_cases. cbv zeta. unfold response_of.
    destruct (settlePayment w (settle_args request)) as [pr | e] eqn:Hs; [ | discriminate].
    destruct (negb (pr_status pr =? 200)) eqn:H200; [discriminate | ].
    destruct (request_json request) as [parsed | e] eqn:Hj; [ | discriminate].
    destruct (destructure_text parsed) as [text | e] eqn:Hd; [ | discriminate].
    destruct (negb (truthy text) || negb (String.eqb (typeof text) "string")) eqn:Ht;
      [discriminate | ].
    destruct (languageModel w "gpt-5-mini" (KeywordsPrompt (string_of text)))
      as [out | e] eqn:Hm; [ | discriminate].
    destruct (keywordsSchema out) as [object | ] eqn:Hsch; [ | discriminate].
    destruct (negb (truthy_str (GIPHY_API_KEY w))) eqn:Hk; [discriminate | ].
    destruct (fetch w (giphy_url (or_empty (GIPHY_API_KEY w)) (Single.searchQuery object) "10"))
      as [resp | e] eqn:Hf; [ | discriminate].
    destruct (negb (ok resp)) eqn:Hok; [discriminate | ].
    destruct (json resp) as [d | e] eqn:Hjs; [ | discriminate].
    destruct d as [found]. simpl.
    assert (Hgoal : (found = None \/ found = Some []) ->
              exists text0 key object0 found0,
                settled_with_text w request text0 /\
                key_configured w key /\
                keywords_derived w text0 object0 /\
                single_search_finds w key object0 found0 /\
                (found0 = None \/ found0 = Some [])).
    { intros Hnone.
      destruct (keywordsSchema_inv out object Hsch) as [-> _].
      exists (string_of text), (or_empty (GIPHY_API_KEY w)), object, found.
      split; [exact (settled_with_text_intro w request pr parsed text Hs H200 Hj Hd Ht) | ].
      split; [exact (truthy_key_configured w Hk) | ].
      split; [split; assumption | ].
      split; [ | exact Hnone].
      exists resp. apply negb_false_iff in Hok. repeat split; assumption. }
    destruct found as [[ | g0 rest] | ].
    + intros _. split; [reflexivity | ]. apply Hgoal. right. reflexivity.
    + destruct (languageModel w "gpt-4o-mini" _) as [out' | e]; [ | discriminate].
      destruct (selectionSchema out') as [selection | ]; [ | discriminate].
      destruct (selectedGif (g0 :: rest) selection); discriminate.
    + intros _. split; [reflexivity | ]. apply Hgoal. left. reflexivity.
  - rewrite Multi_cases. cbv zeta. unfold response_of.
    destruct (settlePayment w (settle_args request)) as [pr | e] eqn:Hs; [ | discriminate].
    destruct (negb (pr_status pr =? 200)) eqn:H200; [discriminate | ].
    destruct (request_json request) as [parsed | e] eqn:Hj; [ | discriminate].
    destruct (destructure_text parsed) as [text | e] eqn:Hd; [ | discriminate].
    destruct (negb (truthy text) || negb (String.eqb (typeof text) "string")) eqn:Ht;
      [discriminate | ].
    destruct (negb (truthy_str (GIPHY_API_KEY w))) eqn:Hk; [discriminate | ].
    destruct (languageModel w "gpt-4o-mini" (StrategiesPrompt (string_of text)))
      as [out | e] eqn:Hm; [ | discriminate].
    destruct (strategiesSchema out) as [l | ] eqn:Hsch; [ | discriminate].
    destruct (all_fulfilled (map (candidates w (or_empty (GIPHY_API_KEY w))) l))
      as [srs | e] eqn:Hsr; [ | discriminate].
    destruct (all_fulfilled (map (ranked w (string_of text)) srs)) as [sels | e] eqn:Hsel;
      [ | discriminate].
    destruct (filter_non_null sels) as [ | r rest] eqn:Hv; [ | discriminate].
    intros _. split; [reflexivity | ].
    destruct (strategiesSchema_inv out l Hsch) as (-> & Hlen & _).
    exists (string_of text), (or_empty (GIPHY_API_KEY w)), l.
    split; [exact (settled_with_text_intro w request pr parsed text Hs H200 Hj Hd Ht) | ].
    split; [exact (truthy_key_configured w Hk) | ].
    split; [split; assumption | ].
    split; [exact Hlen | ].
    pose proof (no_results_no_candidates w (string_of text) srs sels Hsel Hv) as Hnone.
    pose proof (all_fulfilled_pointwise _ l srs Hsr) as HP.
    clear - HP Hnone.
    induction HP as [ | s sr l' srs' Hc _ IH]; constructor.
    + inversion Hnone as [ | ? ? Hg _]; subst.
      unfold yields. rewrite Hc. f_equal.
      pose proof (candidates_strategy w _ s sr Hc) as Hstr.
      destruct sr as [s' g']. simpl in *. rewrite Hstr, Hg. reflexivity.
    + apply IH. inversion Hnone; assumption.
Qed.

Example not_found_sample :
  body (response_of (Single.POST Sample.world_empty Sample.paid_request))
  = BodyError "No GIF found" /\
  body (response_of (Multi.POST Sample.world_empty Sample.paid_request))
  = BodyError "No GIFs found".
Proof. split; reflexivity. Qed.

(* ------------------------------------------------------------------ *)
(** ** The numbered options of the ranking prompt *)

Lemma gifOptions_from_nth (gifs : list GiphyGif) :
  forall (i : Z) (n : nat),
    nth_error (gifOptions_from i gifs) n
    = option_map (fun g => {| index := i + Z.of_nat n; go_title := title g;
                              altText := or_empty (alt_text g) |})
        (nth_error gifs n).
Proof.
  induction gifs as [ | g rest IH]; intros i n; simpl.
  - destruct n; reflexivity.
  - destruct n as [ | n]; simpl.
    + rewrite Z.add_0_r. reflexivity.
    + rewrite IH. destruct (nth_error rest n); simpl; [ | reflexivity].
      do 2 f_equal. lia.
Qed.

Lemma gifOptions_from_length (gifs : list GiphyGif) :
  forall i, List.length (gifOptions_from i gifs) = List.length gifs.
Proof.
  induction gifs as [ | g rest IH]; intros i; simpl; [reflexivity | ].
  rewrite IH. reflexivity.
Qed.

(** X12: the options handed to the ranking prompt number the candidates
    0, 1, 2, ... in order, one option per candidate; so when the model
    answers with the index of an option it was shown, the candidate picked
    is the one that option described (same title and alt text), never the
    fallback. *)
Theorem X12_option_index_selects_its_candidate
    (gifs : list GiphyGif) (o : GifOption) (selection : Selection) :
  In o (gifOptions_of gifs) ->
  selectedIndex selection = index o ->
  List.length (gifOptions_of gifs) = List.length gifs /\
  0 <= index o < Z.of_nat (List.length gifs) /\
  nth_error (gifOptions_of gifs) (Z.to_nat (index o)) = Some o /\
  exists g,
    nth_error gifs (Z.to_nat (index o)) = Some g /\
    selectedGif gifs selection = Some g /\
    title g = go_title o /\
    or_empty (alt_text g) = altText o.
Proof.
  intros Hin Hidx. unfold gifOptions_of in *.
  split; [apply gifOptions_from_length | ].
  apply In_nth_error in Hin. destruct Hin as [n Hn].
  pose proof Hn as Hn'. rewrite gifOptions_from_nth in Hn'.
  destruct (nth_error gifs n) as [g | ] eqn:Eg; [ | discriminate Hn'].
  simpl in Hn'. injection Hn' as <-. simpl in *.
  assert (Hlt : (n < List.length gifs)%nat).
  { apply nth_error_Some. rewrite Eg. intros E; discriminate E. }
  rewrite Nat2Z.id.
  split; [lia | split; [exact Hn | ]].
  exists g. split; [exact Eg | split; [ | split; reflexivity]].
  unfold selectedGif, array_get. rewrite Hidx.
  destruct (Z.ltb_spec (Z.of_nat n) 0) as [Hneg | _]; [lia | ].
  rewrite Nat2Z.id, Eg. reflexivity.
Qed.

Lemma X12_witness :
  exists g,
    selectedGif [Sample.gif "sigh"; Sample.gif "phew"]
      {| selectedIndex := 1; sel_reasoning := "best" |} = Some g /\
    title g = "phew".
Proof.
  destruct (X12_option_index_selects_its_candidate
              [Sample.gif "sigh"; Sample.gif "phew"]
              {| index := 1; go_title := "phew"; altText := "" |}
              {| selectedIndex := 1; sel_reasoning := "best" |})
    as (_ & _ & _ & g & _ & Hsel & Ht & _).
  - right. left. reflexivity.
  - reflexivity.
  - exists g. split; [exact Hsel | exact Ht].
Defined.

(* ------------------------------------------------------------------ *)
(** ** The search request *)

Lemma hex_digit_unreserved (c : ascii) :
  uri_unreserved (hex_digit (Nat.div (nat_of_ascii c) 16)) = true /\
  uri_unreserved (hex_digit (Nat.modulo (nat_of_ascii c) 16)) = true.
Proof.
  destruct c as [[] [] [] [] [] [] [] []]; split; reflexivity.
Qed.

Lemma encodeURIComponent_alphabet (s : string) :
  Forall (fun c => uri_unreserved c = true \/ c = "%"%char)
    (list_ascii_of_string (encodeURIComponent s)).
Proof.
  induction s as [ | c rest IH]; simpl; [constructor | ].
  destruct (uri_unreserved c) eqn:Hc; simpl.
  - constructor; [left; exact Hc | exact IH].
  - destruct (hex_digit_unreserved c) as [H1 H2].
    constructor; [right; reflexivity | ].
    constructor; [left; exact H1 | ].
    constructor; [left; exact H2 | exact IH].
Qed.

(** X13: whatever the keywords and the topic hold, the value of the
    parameter [q] of a search request consists of unreserved characters and
    percent escapes only; in particular it holds no [&], [=], [#], [?], [+],
    [/] or space, so a query cannot add to or cut short the parameters
    of the request. *)
Theorem X13_query_cannot_inject_parameters (searchQuery : string) (c : ascii) :
  In c (list_ascii_of_string (encodeURIComponent searchQuery)) ->
  (uri_unreserved c = true \/ c = "%"%char) /\
  ~ In c ["&"; "="; "#"; "?"; "+"; "/"; " "]%char.
Proof.
  intros Hin.
  pose proof (encodeURIComponent_alphabet searchQuery) as HF.
  rewrite Forall_forall in HF. specialize (HF c Hin).
  split; [exact HF | ].
  intros Hbad. simpl in Hbad.
  destruct HF as [Hu | ->].
  - repeat (destruct Hbad as [<- | Hbad]; [discriminate Hu | ]). exact Hbad.
  - repeat (destruct Hbad as [E | Hbad]; [discriminate E | ]). exact Hbad.
Qed.

Lemma X13_witness :
  (uri_unreserved "%"%char = true \/ "%"%char = "%"%char) /\
  ~ In "%"%char ["&"; "="; "#"; "?"; "+"; "/"; " "]%char.
Proof.
  apply (X13_query_cannot_inject_parameters "slow clap & more" "%"%char).
  vm_compute. right. right. right. right. left. reflexivity.
Defined.

Lemma hex_pair_decodes (c : ascii) :
  ascii_of_nat (16 * hex_value (hex_digit (Nat.div (nat_of_ascii c) 16))
                + hex_value (hex_digit (Nat.modulo (nat_of_ascii c) 16))) = c.
Proof.
  destruct c as [[] [] [] [] [] [] [] []]; reflexivity.
Qed.

Lemma hex_pair_injective (c1 c2 : ascii) :
  hex_digit (Nat.div (nat_of_ascii c1) 16) = hex_digit (Nat.div (nat_of_ascii c2) 16) ->
  hex_digit (Nat.modulo (nat_of_ascii c1) 16) = hex_digit (Nat.modulo (nat_of_ascii c2) 16) ->
  c1 = c2.
Proof.
  intros Hhi Hlo.
  pose proof (hex_pair_decodes c1) as H1. pose proof (hex_pair_decodes c2) as H2.
  rewrite Hhi, Hlo in H1. rewrite H1 in H2. exact H2.
Qed.

Lemma percent_is_reserved (c : ascii) : uri_unreserved c = true -> c <> "%"%char.
Proof. intros H ->. discriminate H. Qed.

Lemma encodeURIComponent_cons (c : ascii) (rest : string) :
  encodeURIComponent (String c rest) =
  if uri_unreserved c then String c (encodeURIComponent rest)
  else String "%"%char
         (String (hex_digit (Nat.div (nat_of_ascii c) 16))
            (String (hex_digit (Nat.modulo (nat_of_ascii c) 16))
               (encodeURIComponent rest))).
Proof. reflexivity. Qed.

Lemma encodeURIComponent_injective (s1 : string) :
  forall s2, encodeURIComponent s1 = encodeURIComponent s2 -> s1 = s2.
Proof.
  induction s1 as [ | c1 r1 IH]; intros [ | c2 r2]; rewrite ?encodeURIComponent_cons;
    change (encodeURIComponent "") with ""%string.
  - reflexivity.
  - destruct (uri_unreserved c2); discriminate.
  - destruct (uri_unreserved c1); discriminate.
  - destruct (uri_unreserved c1) eqn:H1; destruct (uri_unreserved c2) eqn:H2; intros H.
    + injection H as -> Hr. rewrite (IH r2 Hr). reflexivity.
    + injection H as Hc _. exfalso. exact (percent_is_reserved c1 H1 Hc).
    + injection H as Hc _. exfalso. symmetry in Hc. exact (percent_is_reserved c2 H2 Hc).
    + injection H as Hhi Hlo Hr.
      rewrite (hex_pair_injective c1 c2 Hhi Hlo), (IH r2 Hr). reflexivity.
Qed.

Lemma append_cancel_l (a x y : string) : (a ++ x = a ++ y)%string -> x = y.
Proof.
  induction a as [ | c a IH]; simpl; intros H; [exact H | ].
  injection H as H. exact (IH H).
Qed.

Lemma append_length (x y : string) :
  String.length (x ++ y) = (String.length x + String.length y)%nat.
Proof.
  induction x as [ | c x IH]; simpl; [reflexivity | rewrite IH; reflexivity].
Qed.

Lemma append_cancel_r (s : string) (x : string) :
  forall y, (x ++ s = y ++ s)%string -> x = y.
Proof.
  induction x as [ | c x IH]; intros [ | d y] H; simpl in H.
  - reflexivity.
  - exfalso. apply (f_equal String.length) in H. simpl in H.
    rewrite append_length in H. lia.
  - exfalso. apply (f_equal String.length) in H. simpl in H.
    rewrite append_length in H. lia.
  - injection H as -> H. rewrite (IH y H). reflexivity.
Qed.

(** X14: the search request determines the query: for a given key and
    result cap, two queries are sent as the same URL only when they are the
    same string.  So two strategies share a search request only if their
    keywords and topic join to the same query. *)
Theorem X14_search_url_determines_query (key limit q1 q2 : string) :
  giphy_url key q1 limit = giphy_url key q2 limit -> q1 = q2.
Proof.
  unfold giphy_url. intros H.
  apply append_cancel_l, append_cancel_l, append_cancel_l in H.
  apply append_cancel_r in H.
  exact (encodeURIComponent_injective q1 q2 H).
Qed.

Lemma X14_witness :
  Multi.searchQuery Sample.s_emotional = "relief exhausted".
Proof.
  apply (X14_search_url_determines_query "KEY" "5"). reflexivity.
Defined.

(* ------------------------------------------------------------------ *)
(** ** The form and the endpoint together *)

Lemma handleSubmit_accepts {R : Type} (cleared : R) (trim : string -> string)
    (st : UI.State R) :
  UI.isPending st = false ->
  trim (UI.input st) <> "" ->
  UI.handleSubmit R cleared trim st
  = ({| UI.input := UI.input st; UI.result := cleared; UI.error := None;
        UI.isPending := false; UI.in_flight := UI.in_flight st |},
     [ {| UI.fc_url := "/api/generate"; UI.fc_method := "POST";
          UI.fc_headers := [("Content-Type", "application/json")];
          UI.fc_body := JObject [("text", JString (UI.input st))] |} ]).
Proof.
  intros Hp Ht. unfold UI.handleSubmit.
  rewrite (handleSubmit_in_accepts cleared trim st st Hp Ht), Hp. reflexivity.
Qed.

Lemma handleSubmit_inv {R : Type} (cleared : R) (trim : string -> string)
    (st : UI.State R) (call : UI.FetchCall) :
  In call (snd (UI.handleSubmit R cleared trim st)) ->
  UI.isPending st = false /\ trim (UI.input st) <> "" /\
  UI.fc_body call = JObject [("text", JString (UI.input st))].
Proof.
  unfold UI.handleSubmit, UI.handleSubmit_in.
  destruct (UI.isPending st); [rewrite orb_true_r; intros [] | ].
  simpl. destruct (String.eqb_spec (trim (UI.input st)) "") as [E | Hne]; simpl.
  - intros [].
  - intros [<- | []]. repeat split. exact Hne.
Qed.

(** X15: the submit button and the guard of [handleSubmit] agree.  When
    the button is enabled, a submit event issues exactly one request, a
    POST to /api/generate whose JSON body holds the input as typed (not
    trimmed), clears the error and the result and raises the pending flag;
    and whenever [handleSubmit] drops a submit event, the button was
    disabled. *)
Theorem X15_enabled_button_submits (R : Type) (cleared : R) (trim : string -> string)
    (isAutoConnecting : bool) (st : UI.State R) :
  (View.submit_disabled R trim isAutoConnecting st = false ->
   UI.step R cleared trim st UI.Submit
   = ({| UI.input := UI.input st; UI.result := cleared; UI.error := None;
         UI.isPending := true; UI.in_flight := (UI.in_flight st + 1)%nat |},
      [ {| UI.fc_url := "/api/generate"; UI.fc_method := "POST";
           UI.fc_headers := [("Content-Type", "application/json")];
           UI.fc_body := JObject [("text", JString (UI.input st))] |} ])) /\
  (snd (UI.handleSubmit R cleared trim st) = [] ->
   View.submit_disabled R trim isAutoConnecting st = true).
Proof.
  unfold View.submit_disabled. split.
  - intros H. apply orb_false_iff in H. destruct H as [H _].
    apply orb_false_iff in H. destruct H as [Hp Ht].
    apply negb_false_iff in Ht. simpl in Ht. apply negb_true_iff, String.eqb_neq in Ht.
    rewrite step_unfold, (handleSubmit_accepts cleared trim st Hp Ht). reflexivity.
  - intros H. destruct (UI.isPending st) eqn:Hp; [reflexivity | ].
    destruct (String.eqb_spec (trim (UI.input st)) "") as [E | Hne].
    + simpl. rewrite E. reflexivity.
    + rewrite (handleSubmit_accepts cleared trim st Hp Hne) in H. discriminate H.
Qed.

Example enabled_button_sample :
  let st := {| UI.input := " party "; UI.result := @nil GifResult; UI.error := Some "old";
               UI.isPending := false; UI.in_flight := 0 |} in
  View.submit_disabled _ Sample.trim false st = false /\
  View.submit_disabled _ Sample.trim true st = true /\
  map UI.fc_body (snd (UI.step _ [] Sample.trim st UI.Submit))
  = [JObject [("text", JString " party ")]].
Proof. repeat split. Qed.

(** X16: a request issued by the form passes the text test of the
    endpoint.  If [trim] maps the empty string to itself, the body of any
    request [handleSubmit] issues holds a non-empty string as [text]; so
    once its payment is settled, neither handler answers it with 400: the
    status is 200, 404 or 500. *)
Theorem X16_form_requests_pass_the_text_test
    (R : Type) (cleared : R) (trim : string -> string) (st : UI.State R)
    (call : UI.FetchCall) (w : World) (request : Request) (pr : PaymentResult) :
  trim "" = "" ->
  In call (snd (UI.handleSubmit R cleared trim st)) ->
  request_json request = Ok (UI.fc_body call) ->
  settlePayment w (settle_args request) = Ok pr ->
  pr_status pr = 200 ->
  settled_with_text w request (UI.input st) /\
  status (response_of (Single.POST w request)) <> 400 /\
  status (response_of (Multi.POST w request)) <> 400.
Proof.
  intros Htrim Hin Hj Hs H200.
  destruct (handleSubmit_inv cleared trim st call Hin) as (_ & Hne & Hbody).
  assert (Hst : settled_with_text w request (UI.input st)).
  { exists pr, (UI.fc_body call). repeat split; try assumption.
    - rewrite Hbody. reflexivity.
    - intros E. apply Hne. rewrite E. exact Htrim. }
  split; [exact Hst | split].
  - pose proof (Single_settled_statuses w request (UI.input st) Hst) as H. cbv zeta in H.
    destruct H as [[H _] | [H | H]]; rewrite H; intros E; discriminate E.
  - pose proof (Multi_settled_statuses w request (UI.input st) Hst) as H. cbv zeta in H.
    destruct H as [[H _] | [H | H]]; rewrite H; intros E; discriminate E.
Qed.

Lemma X16_witness :
  let st := {| UI.input := "it compiles"; UI.result := @nil GifResult; UI.error := None;
               UI.isPending := false; UI.in_flight := 0 |} in
  settled_with_text Sample.world Sample.paid_request (UI.input st) /\
  status (response_of (Single.POST Sample.world Sample.paid_request)) <> 400 /\
  status (response_of (Multi.POST Sample.world Sample.paid_request)) <> 400.
Proof.
  cbv zeta.
  apply (X16_form_requests_pass_the_text_test (list GifResult) [] Sample.trim
           {| UI.input := "it compiles"; UI.result := @nil GifResult; UI.error := None;
              UI.isPending := false; UI.in_flight := 0 |}
           {| UI.fc_url := "/api/generate"; UI.fc_method := "POST";
              UI.fc_headers := [("Content-Type", "application/json")];
              UI.fc_body := JObject [("text", JString "it compiles")] |}
           Sample.world Sample.paid_request Sample.settled).
  - reflexivity.
  - left. reflexivity.
  - reflexivity.
  - reflexivity.
  - reflexivity.
Defined.

(* ------------------------------------------------------------------ *)
(** ** What the form holds *)

Lemma step_tidy {R : Type} (cleared : R) (trim : string -> string)
    (st : UI.State R) (ev : UI.UIEvent R) :
  tidy cleared st -> tidy cleared (fst (UI.step R cleared trim st ev)).
Proof.
  intros (Hsf & Hpend & Herr).
  split; [exact (step_single_flight cleared trim st ev Hsf) | ].
  rewrite step_unfold. destruct ev as [ | value | o]; simpl.
  - unfold UI.handleSubmit, UI.handleSubmit_in.
    destruct (negb (truthy_str (Some (trim (UI.input st)))) || UI.isPending st); simpl.
    + split; assumption.
    + split; [intros _; split; reflexivity | intros H; contradiction H; reflexivity].
  - split; assumption.
  - destruct (UI.in_flight st) as [ | n] eqn:En; simpl; [split; assumption | ].
    destruct Hsf as [[Hp Hn] | [Hp Hn]]; [ | rewrite En in Hn; discriminate Hn].
    destruct (Hpend Hp) as [He Hr].
    destruct o as [d | message | ]; simpl.
    + split; [intros H; discriminate H | intros H; contradiction H].
    + split; [intros H; discriminate H | intros _; exact Hr].
    + split; [intros H; discriminate H | intros _; exact Hr].
Qed.

(** A handler that does not read the captured flag acts on the live
    values as after a render. *)
Lemma page_step_live {R : Type} (cleared : R) (trim : string -> string)
    (pg : UI.Page R) (ev : UI.UIEvent R) :
  ev <> UI.Submit \/ UI.seen pg = UI.live pg ->
  UI.live (fst (UI.page_step R cleared trim pg (UI.Handle ev)))
  = fst (UI.step R cleared trim (UI.live pg) ev).
Proof.
  intros H. unfold UI.step. destruct ev as [ | value | o]; simpl.
  - destruct H as [H | H]; [contradiction H; reflexivity | ]. rewrite H.
    destruct (UI.handleSubmit_in R cleared trim (UI.live pg) (UI.live pg)); reflexivity.
  - reflexivity.
  - destruct (UI.in_flight (UI.live pg)); reflexivity.
Qed.

Lemma run_cons_fst {R : Type} (cleared : R) (trim : string -> string)
    (pg : UI.Page R) (pe : UI.PageEvent R) (rest : list (UI.PageEvent R)) :
  fst (UI.run R cleared trim pg (pe :: rest))
  = fst (UI.run R cleared trim (fst (UI.page_step R cleared trim pg pe)) rest).
Proof.
  simpl. destruct (UI.page_step R cleared trim pg pe) as [pg1 c1]. simpl.
  destruct (UI.run R cleared trim pg1 rest). reflexivity.
Qed.

Lemma run_rendered_tidy {R : Type} (cleared : R) (trim : string -> string) (n : nat) :
  forall (evs : list (UI.PageEvent R)) (pg : UI.Page R),
    (List.length evs <= n)%nat ->
    submits_rendered evs = true ->
    tidy cleared (UI.live pg) ->
    tidy cleared (UI.live (fst (UI.run R cleared trim pg evs))).
Proof.
  induction n as [ | n IH]; intros evs pg Hlen Hok Ht.
  - destruct evs; [exact Ht | simpl in Hlen; lia].
  - destruct evs as [ | pe rest]; [exact Ht | ]. simpl in Hlen.
    rewrite run_cons_fst. destruct pe as [ev | ].
    + (* an event other than a submit *)
      assert (Hev : ev <> UI.Submit).
      { intros ->. discriminate Hok. }
      assert (Hrest : submits_rendered rest = true).
      { destruct ev; [contradiction Hev; reflexivity | exact Hok | exact Hok]. }
      apply IH; [lia | exact Hrest | ].
      rewrite (page_step_live cleared trim pg ev (or_introl Hev)).
      exact (step_tidy cleared trim (UI.live pg) ev Ht).
    + (* the component renders *)
      change (fst (UI.page_step R cleared trim pg UI.Render))
        with {| UI.live := UI.live pg; UI.seen := UI.live pg |}.
      destruct rest as [ | pe2 rest2]; [exact Ht | ].
      destruct pe2 as [[ | value | o] | ].
      * (* and the submit reaches the handlers of that render *)
        rewrite run_cons_fst. simpl in Hlen.
        apply IH; [lia | exact Hok | ].
        rewrite (page_step_live cleared trim
                   {| UI.live := UI.live pg; UI.seen := UI.live pg |} UI.Submit
                   (or_intror eq_refl)).
        exact (step_tidy cleared trim (UI.live pg) UI.Submit Ht).
      * apply IH; [exact (le_S_n _ _ Hlen) | exact Hok | exact Ht].
      * apply IH; [exact (le_S_n _ _ Hlen) | exact Hok | exact Ht].
      * apply IH; [exact (le_S_n _ _ Hlen) | exact Hok | exact Ht].
Qed.

Lemma initial_tidy {R : Type} (cleared : R) : tidy cleared (UI.initial R cleared).
Proof.
  split; [right; split; reflexivity | ].
  split; [intros H; discriminate H | intros H; contradiction H; reflexivity].
Qed.

(** X17: as long as every submit reaches handlers that are up to date
    (the component rendered right before it, so the guard reads the hook's
    current flag), the form is single-flight and tidy: in any state it
    reaches at most one request is in flight, the pending flag is up
    exactly then, a pending request means that neither an error nor a
    result is held, and an error is never held together with a result.  So,
    in such runs, the component that holds a list of results never renders
    the error card, or the spinner, together with results. *)
Theorem X17_form_holds_error_or_result
    (R : Type) (cleared : R) (trim : string -> string) (evs : list (UI.PageEvent R))
    (evs' : list (UI.PageEvent (list GifResult))) :
  submits_rendered evs = true ->
  submits_rendered evs' = true ->
  let st := UI.live (fst (UI.run R cleared trim (UI.initial_page R cleared) evs)) in
  let st' := UI.live (fst (UI.run (list GifResult) [] trim (UI.initial_page _ []) evs')) in
  (UI.in_flight st <= 1)%nat /\
  (UI.isPending st = true <-> UI.in_flight st = 1%nat) /\
  (UI.isPending st = true -> UI.error st = None /\ UI.result st = cleared) /\
  (UI.error st <> None -> UI.result st = cleared /\ UI.isPending st = false) /\
  View.shows_error _ st' && View.shows_results st' = false /\
  View.shows_spinner _ st' && View.shows_results st' = false.
Proof.
  intros Hok Hok' st st'.
  destruct (run_rendered_tidy cleared trim (List.length evs) evs
              (UI.initial_page R cleared) (le_n _) Hok (initial_tidy cleared))
    as (Hsf & Hpend & Herr).
  destruct (run_rendered_tidy (@nil GifResult) trim (List.length evs') evs'
              (UI.initial_page _ []) (le_n _) Hok' (initial_tidy []))
    as (_ & _ & Herr').
  fold st in Hsf, Hpend, Herr. fold st' in Herr'.
  split; [ | split; [ | split; [exact Hpend | split; [ | split]]]].
  - destruct Hsf as [[_ Hn] | [_ Hn]]; rewrite Hn; lia.
  - destruct Hsf as [[Hp Hn] | [Hp Hn]]; rewrite Hp, Hn; split; intros H;
      try reflexivity; discriminate H.
  - intros He. split; [exact (Herr He) | ].
    destruct (UI.isPending st) eqn:Hp; [ | reflexivity].
    destruct (Hpend eq_refl) as [Hn _]. contradiction (He Hn).
  - unfold View.shows_error, View.shows_results.
    destruct (UI.error st') as [msg | ] eqn:He; simpl; [ | reflexivity].
    rewrite Herr'; [ | intros E; discriminate E]. simpl. apply andb_false_r.
  - unfold View.shows_spinner, View.shows_results.
    destruct (UI.isPending st'); simpl; [apply andb_false_r | reflexivity].
Qed.

Lemma X17_witness :
  let evs := [UI.Handle (UI.Change "party"); UI.Render; UI.Handle UI.Submit;
              UI.Render; UI.Handle UI.Submit;
              UI.Handle (UI.Settle (UI.RejectedError "payment failed"
                                    : UI.Outcome (list GifResult)))] in
  let st := UI.live (fst (UI.run (list GifResult) [] Sample.trim (UI.initial_page _ []) evs)) in
  (UI.in_flight st <= 1)%nat /\
  (UI.error st <> None -> UI.result st = [] /\ UI.isPending st = false) /\
  UI.error st = Some "payment failed".
Proof.
  cbv zeta.
  destruct (X17_form_holds_error_or_result (list GifResult) [] Sample.trim
              [UI.Handle (UI.Change "party"); UI.Render; UI.Handle UI.Submit;
               UI.Render; UI.Handle UI.Submit;
               UI.Handle (UI.Settle (UI.RejectedError "payment failed"))]
              [])
    as (Hle & _ & _ & Herr & _).
  - reflexivity.
  - reflexivity.
  - split; [exact Hle | split; [exact Herr | reflexivity]].
Defined.

(* ------------------------------------------------------------------ *)
(** ** Downloads *)

Lemma Anchor_eqb_refl (a : Download.Anchor) : Download.Anchor_eqb a a = true.
Proof. unfold Download.Anchor_eqb. rewrite !String.eqb_refl. reflexivity. Qed.

Lemma remove_appended (a : Download.Anchor) (l : list Download.Anchor) :
  rev (Download.remove_first a (rev (l ++ [a]))) = l.
Proof.
  rewrite rev_app_distr. simpl. rewrite Anchor_eqb_refl. apply rev_involutive.
Qed.

Lemma revoke_fresh (u : string) (urls : list string) :
  ~ In u urls ->
  filter (fun u' => negb (String.eqb u u')) (u :: urls) = urls.
Proof.
  intros Hfresh. simpl. rewrite String.eqb_refl. simpl.
  induction urls as [ | u' rest IH]; simpl; [reflexivity | ].
  destruct (String.eqb_spec u u') as [E | _]; simpl.
  - exfalso. apply Hfresh. left. symmetry. exact E.
  - rewrite IH; [reflexivity | ]. intros Hin. apply Hfresh. right. exact Hin.
Qed.

Lemma save_blob_run (p : Download.Platform) (blob name : string) (b : Download.Browser) :
  ~ In (Download.createObjectURL p blob) (Download.object_urls b) ->
  Download.save_blob p blob name b
  = {| Download.body_children := Download.body_children b;
       Download.object_urls := Download.object_urls b;
       Download.clicked :=
         Download.clicked b
         ++ [ {| Download.href := Download.createObjectURL p blob;
                 Download.download := name |} ];
       Download.opened := Download.opened b;
       Download.fetched := Download.fetched b |}.
Proof.
  intros Hfresh. unfold Download.save_blob, Download.revokeObjectURL, Download.removeChild,
    Download.click, Download.appendChild, Download.register_url.
  cbn [Download.body_children Download.object_urls Download.clicked Download.opened
       Download.fetched].
  rewrite remove_appended, (revoke_fresh _ _ Hfresh). reflexivity.
Qed.

(** X18: a download leaves the page as it found it.  Provided the object
    URL handed out for the blob is a fresh one, [handleDownload] fetches
    the GIF once and ends with the children of the document body and the
    live object URLs unchanged (the anchor it appends is removed, the
    object URL it creates is revoked).  It then has done exactly one of two
    things: clicked an anchor on the object URL whose file name is
    [reaction-<perspective>-<first 8 characters of a UUID>.gif], or, when
    the fetch or the reading of the blob was rejected, opened the GIF's own
    URL in a new tab. *)
Theorem X18_download_leaves_the_page_clean
    (p : Download.Platform) (gif : GifResult) (b : Download.Browser) :
  (forall blob, Download.fetch_blob p (gr_url gif) = Ok (Ok blob) ->
                ~ In (Download.createObjectURL p blob) (Download.object_urls b)) ->
  let b' := Download.handleDownload p gif b in
  Download.body_children b' = Download.body_children b /\
  Download.object_urls b' = Download.object_urls b /\
  Download.fetched b' = Download.fetched b ++ [gr_url gif] /\
  ((exists blob,
      Download.fetch_blob p (gr_url gif) = Ok (Ok blob) /\
      Download.clicked b'
      = Download.clicked b
        ++ [ {| Download.href := Download.createObjectURL p blob;
                Download.download :=
                  ("reaction-" ++ Download.perspective_text (gr_perspective gif) ++ "-"
                     ++ substring 0 8 (Download.randomUUID p) ++ ".gif")%string |} ] /\
      Download.opened b' = Download.opened b)
   \/
   ((forall blob, Download.fetch_blob p (gr_url gif) <> Ok (Ok blob)) /\
    Download.clicked b' = Download.clicked b /\
    Download.opened b' = Download.opened b ++ [(gr_url gif, "_blank")])).
Proof.
  intros Hfresh b'. subst b'. unfold Download.handleDownload.
  destruct (Download.fetch_blob p (gr_url gif)) as [[blob | e] | e] eqn:Hf.
  - rewrite save_blob_run; [ | exact (Hfresh blob eq_refl)]. simpl.
    repeat split. left. exists blob. repeat split.
  - simpl. repeat split. right. repeat split. intros blob E. discriminate E.
  - simpl. repeat split. right. repeat split. intros blob E. discriminate E.
Qed.

Lemma X18_witness :
  let p := {| Download.fetch_blob := fun _ => Ok (Ok "gif-bytes");
              Download.createObjectURL := fun _ => "blob:https://gifs.example/1";
              Download.randomUUID := "3f2b8c1e-7a54-4c1d-9b61-0d2a6f1e8c33";
              Download.now := 1730592000000 |} in
  let gif := result_for Sample.s_sarcastic {| selectedIndex := 0; sel_reasoning := "best" |}
               (Sample.gif "clap") in
  let b := {| Download.body_children := [ {| Download.href := "/about";
                                             Download.download := "" |} ];
              Download.object_urls := ["blob:https://gifs.example/0"];
              Download.clicked := []; Download.opened := []; Download.fetched := [] |} in
  Download.body_children (Download.handleDownload p gif b) = Download.body_children b /\
  Download.object_urls (Download.handleDownload p gif b) = Download.object_urls b /\
  map Download.download (Download.clicked (Download.handleDownload p gif b))
  = ["reaction-sarcastic-3f2b8c1e.gif"].
Proof.
  cbv zeta.
  destruct (X18_download_leaves_the_page_clean
              {| Download.fetch_blob := fun _ => Ok (Ok "gif-bytes");
                 Download.createObjectURL := fun _ => "blob:https://gifs.example/1";
                 Download.randomUUID := "3f2b8c1e-7a54-4c1d-9b61-0d2a6f1e8c33";
                 Download.now := 1730592000000 |}
              (result_for Sample.s_sarcastic {| selectedIndex := 0; sel_reasoning := "best" |}
                 (Sample.gif "clap"))
              {| Download.body_children := [ {| Download.href := "/about";
                                                Download.download := "" |} ];
                 Download.object_urls := ["blob:https://gifs.example/0"];
                 Download.clicked := []; Download.opened := []; Download.fetched := [] |})
    as (Hbody & Hurls & _ & _).
  - intros blob _ [E | []]. discriminate E.
  - split; [exact Hbody | split; [exact Hurls | reflexivity]].
Defined.

(** X19: the download of the component that holds one result does
    nothing at all, not even a fetch, when there is no result or its url
    is empty; otherwise it behaves like the other one, with the file name
    [reaction-<Date.now()>.gif]: the page is left as found, and the GIF was
    either offered under that name or opened in a new tab. *)
Theorem X19_single_download
    (p : Download.Platform) (result : option GifResult) (b : Download.Browser) :
  (forall r blob, result = Some r ->
                  Download.fetch_blob p (gr_url r) = Ok (Ok blob) ->
                  ~ In (Download.createObjectURL p blob) (Download.object_urls b)) ->
  let b' := Download.handleDownload_single p result b in
  Download.body_children b' = Download.body_children b /\
  Download.object_urls b' = Download.object_urls b /\
  match result with
  | None => b' = b
  | Some r =>
      if String.eqb (gr_url r) "" then b' = b
      else
        Download.fetched b' = Download.fetched b ++ [gr_url r] /\
        ((exists blob,
            Download.fetch_blob p (gr_url r) = Ok (Ok blob) /\
            Download.clicked b'
            = Download.clicked b
              ++ [ {| Download.href := Download.createObjectURL p blob;
                      Download.download :=
                        ("reaction-" ++ Download.number_text (Download.now p)
                           ++ ".gif")%string |} ] /\
            Download.opened b' = Download.opened b)
         \/
         ((forall blob, Download.fetch_blob p (gr_url r) <> Ok (Ok blob)) /\
          Download.clicked b' = Download.clicked b /\
          Download.opened b' = Download.opened b ++ [(gr_url r, "_blank")]))
  end.
Proof.
  intros Hfresh b'. subst b'. unfold Download.handleDownload_single.
  destruct result as [r | ]; [ | repeat split].
  simpl. destruct (String.eqb (gr_url r) ""); simpl; [repeat split | ].
  destruct (Download.fetch_blob p (gr_url r)) as [[blob | e] | e] eqn:Hf.
  - rewrite save_blob_run; [ | exact (Hfresh r blob eq_refl Hf)]. simpl.
    repeat split. left. exists blob. repeat split.
  - simpl. repeat split. right. repeat split. intros blob E. discriminate E.
  - simpl. repeat split. right. repeat split. intros blob E. discriminate E.
Qed.

Lemma X19_witness :
  let p := {| Download.fetch_blob := fun _ => Throw (UpstreamError "offline");
              Download.createObjectURL := fun _ => "blob:https://gifs.example/1";
              Download.randomUUID := "3f2b8c1e-7a54-4c1d-9b61-0d2a6f1e8c33";
              Download.now := 1730592000000 |} in
  let r := single_result_for
             {| ko_keywords := ["facepalm"]; ko_topic := None; ko_reasoning := "" |}
             {| selectedIndex := 0; sel_reasoning := "best" |} (Sample.gif "clap") in
  let b := {| Download.body_children := []; Download.object_urls := [];
              Download.clicked := []; Download.opened := []; Download.fetched := [] |} in
  Download.opened (Download.handleDownload_single p (Some r) b)
  = [("https://media.example/clap.gif", "_blank")] /\
  Download.clicked (Download.handleDownload_single p (Some r) b) = [].
Proof.
  cbv zeta.
  destruct (X19_single_download
              {| Download.fetch_blob := fun _ => Throw (UpstreamError "offline");
                 Download.createObjectURL := fun _ => "blob:https://gifs.example/1";
                 Download.randomUUID := "3f2b8c1e-7a54-4c1d-9b61-0d2a6f1e8c33";
                 Download.now := 1730592000000 |}
              (Some (single_result_for
                       {| ko_keywords := ["facepalm"]; ko_topic := None; ko_reasoning := "" |}
                       {| selectedIndex := 0; sel_reasoning := "best" |} (Sample.gif "clap")))
              {| Download.body_children := []; Download.object_urls := [];
                 Download.clicked := []; Download.opened := []; Download.fetched := [] |})
    as (_ & _ & H).
  - intros r blob _ E. discriminate E.
  - simpl in H. destruct H as [_ [(blob & E & _) | (_ & Hc & Ho)]]; [discriminate E | ].
    split; [exact Ho | exact Hc].
Defined.
